(** * Annotation normalizer of [ml/utils/yolo_labels.py]

    A shallow embedding of [clamp], [normalize_box], [sample_to_boxes] and
    [format_yolo_labels], together with the properties the specification
    states about them, and of their caller [build_yolo_labels] of
    [ml/train_treesigns.py], which writes the label files.

    Modelling choices.
    - A sample is the value [json.load] hands to the code: a dictionary
      with string keys whose values are JSON values ([PyVal]).
    - Exceptions are explicit: a computation returns [Ok v] or [Raise e].
    - Numbers are read in three ways, each for what it can say.
      The first reading is exact: every number is the rational [Q] it
      stands for and arithmetic is the arithmetic of [Q].  It carries
      the properties stated for real numbers or for exact arithmetic,
      and those about what is returned when the code returns.
      The second reading, module [Typed], keeps Python's [int] and
      [float] apart, floats still exact: converting an [int] beyond the
      range of a [float] raises [OverflowError].  It carries the
      properties about raising and returning; whenever it returns, the
      exact reading returns the same.
      The third reading, module [Binary64], is the corner arithmetic on
      IEEE 754 floats, with their rounding; it shows where the code
      leaves the exact reading.  Infinities and NaN are outside all
      three.
    - The file system of [build_yolo_labels] is explicit: a directory is
      a map from file names to contents, and what [json.load] and
      [Image.open] find in a file is part of the input.  Module [Io]
      gives one pass of the loop every exception that opening and
      reading the two files can raise. *)

From Stdlib Require Import QArith Qabs Qround Lqa PrimFloat.
From stdpp Require Import gmap strings list pretty.

Set Warnings "-register-all,-inexact-float".

(** ** Python values and exceptions *)

Inductive PyVal : Type :=
  | PNone
  | PBool (b : bool)
  | PInt (n : Z)
  | PFloat (q : Q)
  | PStr (s : string)
  | PList (l : list PyVal)
  | PDict (m : gmap string PyVal).

Inductive exn : Type :=
  | TypeError
  | ZeroDivisionError
  | OverflowError.

Inductive result (A : Type) : Type :=
  | Ok (a : A)
  | Raise (e : exn).
Arguments Ok {A} a.
Arguments Raise {A} e.

#[global] Instance result_ret : MRet result := fun A a => Ok a.
#[global] Instance result_bind : MBind result := fun A B f m =>
  match m with
  | Ok a => f a
  | Raise e => Raise e
  end.

(** [d.get(k)]: the value at [k], [None] when the key is missing. *)
Definition dict_get (d : gmap string PyVal) (k : string) : PyVal :=
  default PNone (d !! k).

(** [isinstance(v, (int, float))] together with the number [v] denotes.
    [bool] is a subclass of [int]: [True] is 1 and [False] is 0. *)
Definition as_number (v : PyVal) : option Q :=
  match v with
  | PBool b => Some (if b then 1%Q else 0%Q)
  | PInt n => Some (inject_Z n)
  | PFloat q => Some q
  | _ => None
  end.

(** [hash(v)] succeeds on every JSON value but lists and dictionaries. *)
Definition hashable (v : PyVal) : bool :=
  match v with
  | PList _ | PDict _ => false
  | _ => true
  end.

(** [v in s] for a set of strings: hashes [v] first. *)
Definition py_in_set (v : PyVal) (s : gset string) : result bool :=
  match v with
  | PStr c => Ok (bool_decide (c ∈ s))
  | PList _ | PDict _ => Raise TypeError
  | _ => Ok false
  end.

(** [d.get(v)] for a dictionary keyed by strings: hashes [v] first. *)
Definition py_lookup (d : gmap string Z) (v : PyVal) : result (option Z) :=
  match v with
  | PStr c => Ok (d !! c)
  | PList _ | PDict _ => Raise TypeError
  | _ => Ok None
  end.

(** [v == s] for a string [s]; never raises. *)
Definition py_eq_str (v : PyVal) (s : string) : bool :=
  match v with
  | PStr c => bool_decide (c = s)
  | _ => false
  end.

(** ** Arithmetic *)

Definition Qlt_bool (a b : Q) : bool := negb (Qle_bool b a).

(** The builtins [min(a, b)] and [max(a, b)] keep the first argument on
    a tie. *)
Definition py_min (a b : Q) : Q := if Qlt_bool b a then b else a.
Definition py_max (a b : Q) : Q := if Qlt_bool a b then b else a.

(** True division [a / b]. *)
Definition py_truediv (a b : Q) : result Q :=
  if Qeq_bool b 0 then Raise ZeroDivisionError else Ok (a / b)%Q.

(** ** The module's constants *)

Definition CLASS_NAME_TO_ID : gmap string Z :=
  list_to_map
    [("tree_deciduous", 0%Z); ("tree_pine", 1%Z);
     ("billboard", 2%Z); ("stop_sign", 3%Z)].

Definition IGNORED_CLASSES : gset string := {["dense_cover"]}.
Definition NEGATIVE_CLASS : string := "negative".

Record YoloBox : Type := mkYoloBox {
  class_id : Z;
  x_center : Q;
  y_center : Q;
  width : Q;
  height : Q
}.

(** ** [clamp] and [normalize_box] *)

Definition clamp (value min_value max_value : Q) : Q :=
  py_max min_value (py_min max_value value).

Definition normalize_box (x0 y0 x1 y1 : Q) (width height : Z)
  : option (Q * Q * Q * Q) :=
  let x0 := clamp x0 0 (inject_Z width) in
  let x1 := clamp x1 0 (inject_Z width) in
  let y0 := clamp y0 0 (inject_Z height) in
  let y1 := clamp y1 0 (inject_Z height) in
  let box_w := (x1 - x0)%Q in
  let box_h := (y1 - y0)%Q in
  if Qle_bool box_w 1 || Qle_bool box_h 1 then None
  else
    let x_center := ((x0 + x1) / 2)%Q in
    let y_center := ((y0 + y1) / 2)%Q in
    Some (x_center, y_center, box_w, box_h).

(** ** [sample_to_boxes] *)

(** One pass of the loop body up to the test [raw is None]: the value of
    [raw], with [None] for every path that ends in [continue]. *)
Definition annotation_raw (annotation : PyVal) (width height : Z)
  : option (Q * Q * Q * Q) :=
  match annotation with
  | PDict annotation =>
      let kind := dict_get annotation "kind" in
      if py_eq_str kind "circle" then
        let center := dict_get annotation "centerPx" in
        let radius := dict_get annotation "radiusPx" in
        match center, as_number radius with
        | PDict center, Some radius =>
            let cx := dict_get center "x" in
            let cy := dict_get center "y" in
            match as_number cx, as_number cy with
            | Some cx, Some cy =>
                normalize_box (cx - radius) (cy - radius)
                              (cx + radius) (cy + radius) width height
            | _, _ => None
            end
        | _, _ => None
        end
      else if py_eq_str kind "bbox" then
        let x := dict_get annotation "x" in
        let y := dict_get annotation "y" in
        let w := dict_get annotation "width" in
        let h := dict_get annotation "height" in
        match as_number x, as_number y, as_number w, as_number h with
        | Some x, Some y, Some w, Some h =>
            normalize_box x y (x + w) (y + h) width height
        | _, _, _, _ => None
        end
      else None
  | _ => None
  end.

(** The construction of the [YoloBox] from [raw]. *)
Definition make_box (class_id : Z) (raw : Q * Q * Q * Q) (width height : Z)
  : result YoloBox :=
  let '(x_center, y_center, box_w, box_h) := raw in
  xc ← py_truediv x_center (inject_Z width);
  yc ← py_truediv y_center (inject_Z height);
  w ← py_truediv box_w (inject_Z width);
  h ← py_truediv box_h (inject_Z height);
  Ok (mkYoloBox class_id xc yc w h).

(** The loop body as a transformer of the list [boxes]. *)
Definition loop_body (class_id : Z) (width height : Z)
    (boxes : list YoloBox) (annotation : PyVal) : result (list YoloBox) :=
  match annotation_raw annotation width height with
  | None => Ok boxes
  | Some raw =>
      box ← make_box class_id raw width height;
      Ok (boxes ++ [box])
  end.

(** [for x in l: s = body(s, x)], stopping at the first exception. *)
Fixpoint for_each {A S : Type} (body : S → A → result S) (l : list A) (s : S)
  : result S :=
  match l with
  | [] => Ok s
  | x :: l' => s' ← body s x; for_each body l' s'
  end.

Definition is_none (v : PyVal) : bool :=
  match v with PNone => true | _ => false end.

Definition sample_to_boxes (sample : gmap string PyVal) (width height : Z)
  : result (list YoloBox) :=
  let class_name := dict_get sample "class" in
  ignored ← py_in_set class_name IGNORED_CLASSES;
  if ignored || is_none class_name then Ok []
  else if py_eq_str class_name NEGATIVE_CLASS then Ok []
  else
    class_id ← py_lookup CLASS_NAME_TO_ID class_name;
    match class_id with
    | None => Ok []
    | Some class_id =>
        match dict_get sample "annotations" with
        | PList annotations =>
            for_each (loop_body class_id width height) annotations []
        | _ => Ok []
        end
    end.

(** ** [format_yolo_labels] *)

Definition digit_char (d : Z) : Ascii.ascii :=
  Ascii.ascii_of_nat (48 + Z.to_nat d).

(** The [k] low decimal digits of [n], most significant first. *)
Fixpoint digits_fixed (k : nat) (n : Z) : string :=
  match k with
  | O => EmptyString
  | S k' => digits_fixed k' (n / 10) +:+ String (digit_char (n mod 10)) EmptyString
  end.

(** Rounding to the nearest integer, ties to even: the rounding of
    Python's float formatting. *)
Definition round_half_even (q : Q) : Z :=
  let f := Qfloor q in
  let r := (q - inject_Z f)%Q in
  if Qlt_bool r (1 # 2) then f
  else if Qlt_bool (1 # 2) r then (f + 1)%Z
  else if Z.even f then f else (f + 1)%Z.

Definition micro : Z := 1000000.

(** [f"{q:.6f}"]. *)
Definition format_6f (q : Q) : string :=
  let n := round_half_even (Qabs q * inject_Z micro) in
  (if Qlt_bool q 0 then "-" else EmptyString)
    +:+ pretty (n / micro)%Z +:+ "." +:+ digits_fixed 6 (n mod micro).

(** [f"{box.class_id} {box.x_center:.6f} ... {box.height:.6f}"]. *)
Definition format_line (box : YoloBox) : string :=
  pretty (class_id box) +:+ " " +:+ format_6f (x_center box)
    +:+ " " +:+ format_6f (y_center box)
    +:+ " " +:+ format_6f (width box)
    +:+ " " +:+ format_6f (height box).

Definition format_yolo_labels (boxes : list YoloBox) : list string :=
  fold_left (fun lines box => lines ++ [format_line box]) boxes [].

(** ** Scenarios *)

Definition bbox_annotation (x y w h : PyVal) : PyVal :=
  PDict (list_to_map
    [("kind", PStr "bbox"); ("x", x); ("y", y); ("width", w); ("height", h)]).

Definition circle_annotation (cx cy r : PyVal) : PyVal :=
  PDict (list_to_map
    [("kind", PStr "circle");
     ("centerPx", PDict (list_to_map [("x", cx); ("y", cy)]));
     ("radiusPx", r)]).

Definition make_sample (class_name : PyVal) (annotations : PyVal)
  : gmap string PyVal :=
  list_to_map [("class", class_name); ("annotations", annotations)].

Definition scenario_B : gmap string PyVal :=
  make_sample (PStr "tree_pine")
    (PList [bbox_annotation (PInt 10) (PInt 10) (PInt 100) (PInt 50)]).

(** A bbox, a value that is no annotation, a circle and a bbox of one
    pixel. *)
Definition mixed_annotations : list PyVal :=
  [bbox_annotation (PInt 10) (PInt 10) (PInt 100) (PInt 50);
   PStr "junk";
   circle_annotation (PInt 50) (PInt 40) (PInt 20);
   bbox_annotation (PInt 5) (PInt 5) (PInt 1) (PInt 1)].

Definition mixed_sample : gmap string PyVal :=
  make_sample (PStr "stop_sign") (PList mixed_annotations).

(** The sample with its annotations replaced. *)
Definition with_annotations (sample : gmap string PyVal) (anns : list PyVal)
  : gmap string PyVal :=
  <["annotations" := PList anns]> sample.

(** ** The loop body as a function of the annotation *)

(** The box built from [raw], when the divisions succeed. *)
Definition box_of_raw (class_id : Z) (raw : Q * Q * Q * Q) (width height : Z)
  : YoloBox :=
  let '(x_center, y_center, box_w, box_h) := raw in
  mkYoloBox class_id
    (x_center / inject_Z width) (y_center / inject_Z height)
    (box_w / inject_Z width) (box_h / inject_Z height).

(** The box one annotation contributes, if any. *)
Definition emitted_box (class_id : Z) (width height : Z) (annotation : PyVal)
  : option YoloBox :=
  raw ← annotation_raw annotation width height;
  Some (box_of_raw class_id raw width height).

(** * The same code with Python's two kinds of number kept apart

    Above, every number is the rational it stands for.  Python's [int]
    and [float] differ in one way that shows in the exceptions: an
    arithmetic operation on an [int] and a [float] first converts the
    [int], and the conversion raises [OverflowError] when the [int] is
    beyond the range of a [float].  The module below is the code again
    with that conversion; floats are still exact. *)

Module Typed.

Inductive num : Type :=
  | NInt (n : Z)
  | NFloat (q : Q).

Definition num_value (a : num) : Q :=
  match a with
  | NInt n => inject_Z n
  | NFloat q => q
  end.

(** The least magnitude that does not round to a finite [float]:
    [float(n)] raises exactly from [2**1024 - 2**970] on. *)
Definition FLOAT_LIMIT : Z := (2 ^ 1024 - 2 ^ 970)%Z.

Definition fits_float (n : Z) : bool := (Z.abs n <? FLOAT_LIMIT)%Z.

(** [float(a)]. *)
Definition to_float (a : num) : result Q :=
  match a with
  | NFloat q => Ok q
  | NInt n => if fits_float n then Ok (inject_Z n) else Raise OverflowError
  end.

(** [a + b] and [a - b]: exact on two ints, on floats otherwise. *)
Definition add (a b : num) : result num :=
  match a, b with
  | NInt x, NInt y => Ok (NInt (x + y))
  | _, _ => x ← to_float a; y ← to_float b; Ok (NFloat (x + y))
  end.

Definition sub (a b : num) : result num :=
  match a, b with
  | NInt x, NInt y => Ok (NInt (x - y))
  | _, _ => x ← to_float a; y ← to_float b; Ok (NFloat (x - y))
  end.

(** [a / b], always a float: two ints are divided exactly and the
    quotient must fit; otherwise both are converted first. *)
Definition truediv (a b : num) : result Q :=
  match a, b with
  | NInt x, NInt y =>
      if Qeq_bool (inject_Z y) 0 then Raise ZeroDivisionError
      else
        let r := (inject_Z x / inject_Z y)%Q in
        if Qlt_bool (Qabs r) (inject_Z FLOAT_LIMIT) then Ok r
        else Raise OverflowError
  | _, _ =>
      x ← to_float a; y ← to_float b;
      if Qeq_bool y 0 then Raise ZeroDivisionError else Ok (x / y)%Q
  end.

(** Comparisons of numbers are exact, whatever their kinds. *)
Definition lt (a b : num) : bool := Qlt_bool (num_value a) (num_value b).
Definition le (a b : num) : bool := Qle_bool (num_value a) (num_value b).

Definition py_min (a b : num) : num := if lt b a then b else a.
Definition py_max (a b : num) : num := if lt a b then b else a.

Definition clamp (value min_value max_value : num) : num :=
  py_max min_value (py_min max_value value).

Definition normalize_box (x0 y0 x1 y1 : num) (width height : Z)
  : result (option (Q * Q * num * num)) :=
  let x0 := clamp x0 (NInt 0) (NInt width) in
  let x1 := clamp x1 (NInt 0) (NInt width) in
  let y0 := clamp y0 (NInt 0) (NInt height) in
  let y1 := clamp y1 (NInt 0) (NInt height) in
  box_w ← sub x1 x0;
  box_h ← sub y1 y0;
  if le box_w (NInt 1) || le box_h (NInt 1) then Ok None
  else
    sum_x ← add x0 x1;
    x_center ← truediv sum_x (NInt 2);
    sum_y ← add y0 y1;
    y_center ← truediv sum_y (NInt 2);
    Ok (Some (x_center, y_center, box_w, box_h)).

(** [isinstance(v, (int, float))] with the number, of its own kind. *)
Definition as_number (v : PyVal) : option num :=
  match v with
  | PBool b => Some (NInt (Z.b2z b))
  | PInt n => Some (NInt n)
  | PFloat q => Some (NFloat q)
  | _ => None
  end.

Definition annotation_raw (annotation : PyVal) (width height : Z)
  : result (option (Q * Q * num * num)) :=
  match annotation with
  | PDict annotation =>
      let kind := dict_get annotation "kind" in
      if py_eq_str kind "circle" then
        let center := dict_get annotation "centerPx" in
        let radius := dict_get annotation "radiusPx" in
        match center, as_number radius with
        | PDict center, Some radius =>
            let cx := dict_get center "x" in
            let cy := dict_get center "y" in
            match as_number cx, as_number cy with
            | Some cx, Some cy =>
                x0 ← sub cx radius;
                y0 ← sub cy radius;
                x1 ← add cx radius;
                y1 ← add cy radius;
                normalize_box x0 y0 x1 y1 width height
            | _, _ => Ok None
            end
        | _, _ => Ok None
        end
      else if py_eq_str kind "bbox" then
        let x := dict_get annotation "x" in
        let y := dict_get annotation "y" in
        let w := dict_get annotation "width" in
        let h := dict_get annotation "height" in
        match as_number x, as_number y, as_number w, as_number h with
        | Some x, Some y, Some w, Some h =>
            x1 ← add x w;
            y1 ← add y h;
            normalize_box x y x1 y1 width height
        | _, _, _, _ => Ok None
        end
      else Ok None
  | _ => Ok None
  end.

Definition make_box (class_id : Z) (raw : Q * Q * num * num) (width height : Z)
  : result YoloBox :=
  let '(x_center, y_center, box_w, box_h) := raw in
  xc ← truediv (NFloat x_center) (NInt width);
  yc ← truediv (NFloat y_center) (NInt height);
  w ← truediv box_w (NInt width);
  h ← truediv box_h (NInt height);
  Ok (mkYoloBox class_id xc yc w h).

Definition loop_body (class_id : Z) (width height : Z)
    (boxes : list YoloBox) (annotation : PyVal) : result (list YoloBox) :=
  raw ← annotation_raw annotation width height;
  match raw with
  | None => Ok boxes
  | Some raw =>
      box ← make_box class_id raw width height;
      Ok (boxes ++ [box])
  end.

Definition sample_to_boxes (sample : gmap string PyVal) (width height : Z)
  : result (list YoloBox) :=
  let class_name := dict_get sample "class" in
  ignored ← py_in_set class_name IGNORED_CLASSES;
  if ignored || is_none class_name then Ok []
  else if py_eq_str class_name NEGATIVE_CLASS then Ok []
  else
    class_id ← py_lookup CLASS_NAME_TO_ID class_name;
    match class_id with
    | None => Ok []
    | Some class_id =>
        match dict_get sample "annotations" with
        | PList annotations =>
            for_each (loop_body class_id width height) annotations []
        | _ => Ok []
        end
    end.

End Typed.

(** The value of [raw] once the kinds of its numbers are forgotten. *)
Definition raw_value (raw : Q * Q * Typed.num * Typed.num) : Q * Q * Q * Q :=
  let '(xc, yc, bw, bh) := raw in
  (xc, yc, Typed.num_value bw, Typed.num_value bh).

(** The number can be converted to a float. *)
Definition num_fits (a : Typed.num) : bool :=
  match a with
  | Typed.NInt n => Typed.fits_float n
  | Typed.NFloat _ => true
  end.

(** The value is no integer beyond the range of a float. *)
Definition int_fits (v : PyVal) : bool :=
  match v with
  | PInt n => Typed.fits_float n
  | _ => true
  end.

(** No integer kept in the annotation, or in its centre, is beyond the
    range of a float. *)
Definition float_safe (annotation : PyVal) : Prop :=
  match annotation with
  | PDict m =>
      (∀ k n, dict_get m k = PInt n → Typed.fits_float n = true) ∧
      (∀ ctr k n, dict_get m "centerPx" = PDict ctr →
                  dict_get ctr k = PInt n → Typed.fits_float n = true)
  | _ => True
  end.

(** A bbox far to the right whose corner cannot be added up: the
    integer [10**309] is beyond every float and the width is a float. *)
Definition overflowing_bbox : PyVal :=
  bbox_annotation (PInt (10 ^ 309)) (PInt 10) (PFloat (3 # 2)) (PInt 50).

(** Two samples of class ["tree_pine"] with that bbox: alone, and
    followed by the bbox of scenario B. *)
Definition overflowing_sample : gmap string PyVal :=
  make_sample (PStr "tree_pine") (PList [overflowing_bbox]).

Definition overflowing_then_valid : gmap string PyVal :=
  make_sample (PStr "tree_pine")
    (PList [overflowing_bbox;
            bbox_annotation (PInt 10) (PInt 10) (PInt 100) (PInt 50)]).

(** * The arithmetic of [normalize_box] on binary64 floats

    Python's [float] is the IEEE 754 binary64 number; every sum,
    difference and quotient is rounded to the nearest one.  The corner
    arithmetic of the loop and of [normalize_box] is translated here on
    the floats themselves, to show where rounding separates the code
    from its exact reading.  The image dimensions are given as floats:
    a dimension below [2^53] is a float exactly, and comparing or
    subtracting it as an [int] or as that float gives the same. *)
Module Binary64.

Definition py_min (a b : float) : float := if PrimFloat.ltb b a then b else a.
Definition py_max (a b : float) : float := if PrimFloat.ltb a b then b else a.

Definition clamp (value min_value max_value : float) : float :=
  py_max min_value (py_min max_value value).

Definition normalize_box (x0 y0 x1 y1 width height : float)
  : option (float * float * float * float) :=
  let x0 := clamp x0 0 width in
  let x1 := clamp x1 0 width in
  let y0 := clamp y0 0 height in
  let y1 := clamp y1 0 height in
  let box_w := PrimFloat.sub x1 x0 in
  let box_h := PrimFloat.sub y1 y0 in
  if PrimFloat.leb box_w 1 || PrimFloat.leb box_h 1 then None
  else
    let x_center := PrimFloat.div (PrimFloat.add x0 x1) 2 in
    let y_center := PrimFloat.div (PrimFloat.add y0 y1) 2 in
    Some (x_center, y_center, box_w, box_h).

(** The circle branch of the loop of [sample_to_boxes], once the
    centre and the radius are known to be floats. *)
Definition circle_raw (cx cy radius width height : float)
  : option (float * float * float * float) :=
  normalize_box (PrimFloat.sub cx radius) (PrimFloat.sub cy radius)
                (PrimFloat.add cx radius) (PrimFloat.add cy radius)
                width height.

End Binary64.

(** * The caller: [build_yolo_labels] of [train_treesigns.py] *)

(** [CLASS_NAME_TO_ID.items()], in the order of the dictionary
    literal, the order Python keeps. *)
Definition CLASS_NAME_TO_ID_items : list (string * Z) :=
  [("tree_deciduous", 0%Z); ("tree_pine", 1%Z);
   ("billboard", 2%Z); ("stop_sign", 3%Z)].

(** [list(CLASS_NAME_TO_ID.keys())], the class list [main] writes to
    the manifest. *)
Definition CLASS_NAME_TO_ID_keys : list string := CLASS_NAME_TO_ID_items.*1.

Definition ALLOWED_IMAGE_EXTS : list string := [".png"; ".jpg"; ".jpeg"].

(** What [Image.open] finds in an image file: its size, or nothing
    when it raises [OSError]. *)
Definition image_file : Type := option (Z * Z).

(** The loop of [find_image_path] over the extensions [exts]; the
    images directory maps the names of its files to their content and
    [candidate.exists()] is the presence of the name. *)
Fixpoint find_image_among (exts : list string) (sample_id : string)
    (images_dir : gmap string image_file) : option string :=
  match exts with
  | [] => None
  | ext :: exts' =>
      let candidate := sample_id +:+ ext in
      if bool_decide (is_Some (images_dir !! candidate)) then Some candidate
      else find_image_among exts' sample_id images_dir
  end.

Definition find_image_path (sample_id : string)
    (images_dir : gmap string image_file) : option string :=
  find_image_among ALLOWED_IMAGE_EXTS sample_id images_dir.

(** [sep.join(l)]. *)
Fixpoint str_join (sep : string) (l : list string) : string :=
  match l with
  | [] => EmptyString
  | s :: l' =>
      match l' with
      | [] => s
      | _ :: _ => s +:+ sep +:+ str_join sep l'
      end
  end.

Definition newline : string := String (Ascii.ascii_of_nat 10) EmptyString.

(** [v in d] for a dictionary keyed by strings: hashes [v] first. *)
Definition py_in_dict (v : PyVal) (d : gmap string Z) : result bool :=
  match v with
  | PStr c => Ok (bool_decide (is_Some (d !! c)))
  | PList _ | PDict _ => Raise TypeError
  | _ => Ok false
  end.

(** The body of the loop of [build_yolo_labels] once the sample and the
    image size are at hand: [None] when the class gate says [continue],
    else the text written to the label file. *)
Definition label_text (sample : gmap string PyVal) (width height : Z)
  : result (option string) :=
  let class_name := dict_get sample "class" in
  known ← py_in_dict class_name CLASS_NAME_TO_ID;
  if negb known && negb (py_eq_str class_name NEGATIVE_CLASS) then Ok None
  else
    boxes ← sample_to_boxes sample width height;
    let lines := format_yolo_labels boxes in
    Ok (Some (str_join newline lines)).

(** What opening and reading a file can raise: on a label file,
    [json.JSONDecodeError] for text that is no JSON,
    [UnicodeDecodeError] for bytes that are no UTF-8, [RecursionError]
    for a document nested too deep and [OSError] when the file cannot
    be opened (a directory, a file without permission); on an image,
    [OSError] (which [PIL.UnidentifiedImageError] is) and
    [DecompressionBombError] for an image of too many pixels. *)
Inductive io_exn : Type :=
  | JSONDecodeError
  | UnicodeDecodeError
  | RecursionError
  | OSError
  | DecompressionBombError.

(** The exceptions of [build_yolo_labels]: those of the label code,
    [AttributeError] for a JSON document that is no object and so has
    no [get], and those of opening and reading the files. *)
Inductive build_exn : Type :=
  | LabelError (e : exn)
  | AttributeError
  | IoError (e : io_exn).

Inductive outcome (A : Type) : Type :=
  | Returns (a : A)
  | Raises (e : build_exn).
Arguments Returns {A} a.
Arguments Raises {A} e.

(** [name] matches the pattern [*.txt]. *)
Fixpoint ends_with (suffix s : string) : bool :=
  if String.eqb s suffix then true
  else match s with
       | EmptyString => false
       | String _ s' => ends_with suffix s'
       end.

(** The state of the loop: the files of the label directory, by name,
    and the list [sample_ids]. *)
Definition build_state : Type := gmap string string * list string.

(** What one pass of the loop of [build_yolo_labels] does for the label
    file of stem [sample_id]: [None] when it ends in [continue], else
    the text it writes.  [loaded] is what [json.load] returns, nothing
    when it raises [JSONDecodeError]. *)
Definition label_for (images_dir : gmap string image_file)
    (label : string * option PyVal) : outcome (option string) :=
  let '(sample_id, loaded) := label in
  match find_image_path sample_id images_dir with
  | None => Returns None
  | Some image_path =>
      match loaded with
      | None => Returns None
      | Some sample =>
          match images_dir !! image_path with
          | Some (Some (width, height)) =>
              match sample with
              | PDict sample =>
                  match label_text sample width height with
                  | Raise e => Raises (LabelError e)
                  | Ok text => Returns text
                  end
              | _ => Raises AttributeError
              end
          | _ => Returns None
          end
      end
  end.

(** One pass of the loop on its state: the write to
    [labels_yolo_dir / f"{sample_id}.txt"] and the append to
    [sample_ids]. *)
Definition build_step (images_dir : gmap string image_file)
    (st : build_state) (label : string * option PyVal) : outcome build_state :=
  match label_for images_dir label with
  | Raises e => Raises e
  | Returns None => Returns st
  | Returns (Some text) =>
      Returns (<[label.1 +:+ ".txt" := text]> st.1, st.2 ++ [label.1])
  end.

(** The loop, stopping at the first exception. *)
Fixpoint build_loop (images_dir : gmap string image_file)
    (labels : list (string * option PyVal)) (st : build_state)
  : outcome build_state :=
  match labels with
  | [] => Returns st
  | label :: labels' =>
      match build_step images_dir st label with
      | Returns st' => build_loop images_dir labels' st'
      | Raises e => Raises e
      end
  end.

(** [build_yolo_labels]: [labels_json] lists the [*.json] files of the
    labels directory in sorted order, by stem; the answer is the label
    directory as the function leaves it, with the returned
    [sample_ids]. *)
Definition build_yolo_labels (labels_json : list (string * option PyVal))
    (images_dir : gmap string image_file)
    (labels_yolo_dir : gmap string string) : outcome build_state :=
  let kept := filter (λ file, ends_with ".txt" file.1 = false) labels_yolo_dir in
  build_loop images_dir labels_json (kept, []).

(** A run of [build_yolo_labels]: four label files, of which [a] and
    [c] have a readable image, on a label directory with a label file
    of an earlier run and a file of another kind. *)
Definition example_images : gmap string image_file :=
  list_to_map
    [("a.jpg", Some (640, 640)%Z); ("a.jpeg", None); ("b.png", None);
     ("c.png", Some (640, 480)%Z); ("d.png", Some (640, 480)%Z)].

Definition example_labels : list (string * option PyVal) :=
  [("a", Some (PDict scenario_B));
   ("b", Some (PDict scenario_B));
   ("c", Some (PDict (make_sample (PStr "negative") (PList []))));
   ("d", Some (PDict (make_sample (PStr "dense_cover") (PList []))));
   ("e", None)].

Definition example_label_dir : gmap string string :=
  list_to_map [("old.txt", "0 0.500000 0.500000 1.000000 1.000000");
               ("notes.md", "keep")].

(** ** One pass of the loop with the exceptions it lets through

    Above, [json.load] either returns a document or raises the
    [JSONDecodeError] the loop catches, [Image.open] either gives the
    size or raises the [OSError] the loop catches, and the numbers are
    exact.  Here a pass of the loop is given what opening and reading
    each file does, whatever it is, and the label code with Python's
    two kinds of number: the two [try] statements catch one exception
    each and the others leave the function. *)
Module Io.

(** What [label_path.open] followed by [json.load] does. *)
Inductive label_file : Type :=
  | Loaded (sample : PyVal)
  | LoadRaises (e : io_exn).

(** What [Image.open] followed by [image.size] does. *)
Inductive image_open : Type :=
  | ImageSize (width height : Z)
  | ImageRaises (e : io_exn).

(** The image file as the exact reading of the loop sees it. *)
Definition image_size (image : image_open) : image_file :=
  match image with
  | ImageSize width height => Some (width, height)
  | ImageRaises _ => None
  end.

Definition label_text (sample : gmap string PyVal) (width height : Z)
  : result (option string) :=
  let class_name := dict_get sample "class" in
  known ← py_in_dict class_name CLASS_NAME_TO_ID;
  if negb known && negb (py_eq_str class_name NEGATIVE_CLASS) then Ok None
  else
    boxes ← Typed.sample_to_boxes sample width height;
    let lines := format_yolo_labels boxes in
    Ok (Some (str_join newline lines)).

Definition label_for (images_dir : gmap string image_open)
    (label : string * label_file) : outcome (option string) :=
  let '(sample_id, file) := label in
  match find_image_path sample_id (image_size <$> images_dir) with
  | None => Returns None
  | Some image_path =>
      match file with
      | LoadRaises JSONDecodeError => Returns None
      | LoadRaises e => Raises (IoError e)
      | Loaded sample =>
          match images_dir !! image_path with
          | None | Some (ImageRaises OSError) => Returns None
          | Some (ImageRaises e) => Raises (IoError e)
          | Some (ImageSize width height) =>
              match sample with
              | PDict sample =>
                  match label_text sample width height with
                  | Raise e => Raises (LabelError e)
                  | Ok text => Returns text
                  end
              | _ => Raises AttributeError
              end
          end
      end
  end.

End Io.


(** * The specification's notions *)

(** ** Clamping *)

(** What the specification calls clamping [v] into [[0, hi]]: [c] is the
    point of the interval nearest to [v]. *)
Definition clamped_into (v hi c : Q) : Prop :=
  (0 <= c <= hi)%Q ∧
  ((v <= 0)%Q → (c == 0)%Q) ∧
  ((0 <= v <= hi)%Q → (c == v)%Q) ∧
  ((hi <= v)%Q → (c == hi)%Q).

(** ** Validation *)

(** The field [k] of [m] is present and numeric, of value [q]. *)
Definition numeric_field (m : gmap string PyVal) (k : string) (q : Q) : Prop :=
  ∃ v, m !! k = Some v ∧ as_number v = Some q.

(** An annotation that passes validation, with the box it stands for:
    a circle or a bbox with well-formed fields whose corners
    [normalize_box] accepts. *)
Inductive valid_annotation (cid w h : Z) : PyVal → YoloBox → Prop :=
  | valid_circle (m ctr : gmap string PyVal) (cx cy r xc yc bw bh : Q) :
      m !! "kind" = Some (PStr "circle") →
      m !! "centerPx" = Some (PDict ctr) →
      numeric_field ctr "x" cx →
      numeric_field ctr "y" cy →
      numeric_field m "radiusPx" r →
      normalize_box (cx - r) (cy - r) (cx + r) (cy + r) w h
      = Some (xc, yc, bw, bh) →
      valid_annotation cid w h (PDict m)
        (mkYoloBox cid (xc / inject_Z w) (yc / inject_Z h)
                       (bw / inject_Z w) (bh / inject_Z h))
  | valid_bbox (m : gmap string PyVal) (x y bw bh xc yc rw rh : Q) :
      m !! "kind" = Some (PStr "bbox") →
      numeric_field m "x" x →
      numeric_field m "y" y →
      numeric_field m "width" bw →
      numeric_field m "height" bh →
      normalize_box x y (x + bw) (y + bh) w h = Some (xc, yc, rw, rh) →
      valid_annotation cid w h (PDict m)
        (mkYoloBox cid (xc / inject_Z w) (yc / inject_Z h)
                       (rw / inject_Z w) (rh / inject_Z h)).

(** [boxes] holds one box for each valid annotation of [anns], none for
    the others, in the order of [anns]. *)
Inductive boxes_of_valid (cid w h : Z) : list PyVal → list YoloBox → Prop :=
  | boxes_of_valid_nil :
      boxes_of_valid cid w h [] []
  | boxes_of_valid_skip (a : PyVal) (anns : list PyVal) (boxes : list YoloBox) :
      (∀ box, ¬ valid_annotation cid w h a box) →
      boxes_of_valid cid w h anns boxes →
      boxes_of_valid cid w h (a :: anns) boxes
  | boxes_of_valid_keep (a : PyVal) (box : YoloBox) (anns : list PyVal)
        (boxes : list YoloBox) :
      valid_annotation cid w h a box →
      boxes_of_valid cid w h anns boxes →
      boxes_of_valid cid w h (a :: anns) (box :: boxes).

(** A malformed annotation: not a mapping, of a missing or unknown
    kind, or with a required field that is missing or not a number. *)
Inductive malformed : PyVal → Prop :=
  | malformed_not_mapping (a : PyVal) :
      (∀ m, a ≠ PDict m) → malformed a
  | malformed_kind (m : gmap string PyVal) :
      dict_get m "kind" ≠ PStr "circle" →
      dict_get m "kind" ≠ PStr "bbox" →
      malformed (PDict m)
  | malformed_circle_center (m : gmap string PyVal) :
      dict_get m "kind" = PStr "circle" →
      (∀ ctr, dict_get m "centerPx" ≠ PDict ctr) →
      malformed (PDict m)
  | malformed_circle_center_field (m ctr : gmap string PyVal) :
      dict_get m "kind" = PStr "circle" →
      dict_get m "centerPx" = PDict ctr →
      as_number (dict_get ctr "x") = None ∨ as_number (dict_get ctr "y") = None →
      malformed (PDict m)
  | malformed_circle_radius (m : gmap string PyVal) :
      dict_get m "kind" = PStr "circle" →
      as_number (dict_get m "radiusPx") = None →
      malformed (PDict m)
  | malformed_bbox_field (m : gmap string PyVal) :
      dict_get m "kind" = PStr "bbox" →
      as_number (dict_get m "x") = None ∨ as_number (dict_get m "y") = None ∨
      as_number (dict_get m "width") = None ∨
      as_number (dict_get m "height") = None →
      malformed (PDict m).

(** ** Decimal text *)

Definition is_digit (c : Ascii.ascii) : bool :=
  (48 <=? Ascii.nat_of_ascii c)%nat && (Ascii.nat_of_ascii c <=? 57)%nat.

Fixpoint all_digits (s : string) : bool :=
  match s with
  | EmptyString => true
  | String c s' => is_digit c && all_digits s'
  end.

(** The number a string of decimal digits stands for, read after the
    digits of [acc]. *)
Fixpoint decimal_value_from (acc : Z) (s : string) : Z :=
  match s with
  | EmptyString => acc
  | String c s' =>
      decimal_value_from (10 * acc + (Z.of_nat (Ascii.nat_of_ascii c) - 48)) s'
  end.

Definition decimal_value (s : string) : Z := decimal_value_from 0 s.

(** [n] is the integer nearest to [q], the even one on a tie. *)
Definition nearest_even (q : Q) (n : Z) : Prop :=
  (Qabs (q - inject_Z n) <= 1 # 2)%Q ∧
  ((Qabs (q - inject_Z n) == 1 # 2)%Q → Z.even n = true).

(** [s] renders [q] with exactly six digits after the decimal point:
    a minus sign when [q] is negative, the digits of the integer part,
    a point and six digits, which together count the millionths [n]
    nearest to the magnitude of [q]. *)
Definition six_decimals (q : Q) (s : string) : Prop :=
  ∃ (n : Z) (whole frac : string),
    (0 <= n)%Z ∧
    nearest_even (Qabs q * inject_Z micro) n ∧
    s = (if Qlt_bool q 0 then "-" else EmptyString)
          +:+ whole +:+ "." +:+ frac ∧
    all_digits whole = true ∧
    decimal_value whole = (n / micro)%Z ∧
    String.length frac = 6%nat ∧
    all_digits frac = true ∧
    decimal_value frac = (n mod micro)%Z.

(** * Properties *)

(** ** Comparisons *)

Lemma Qlt_bool_true (a b : Q) : Qlt_bool a b = true ↔ (a < b)%Q.
Proof.
  unfold Qlt_bool. rewrite negb_true_iff, <- not_true_iff_false, Qle_bool_iff.
  split; [apply Qnot_le_lt | apply Qlt_not_le].
Qed.

Lemma Qlt_bool_false (a b : Q) : Qlt_bool a b = false ↔ (b <= a)%Q.
Proof. unfold Qlt_bool. rewrite negb_false_iff. apply Qle_bool_iff. Qed.

Lemma Qle_bool_false (a b : Q) : Qle_bool a b = false ↔ (b < a)%Q.
Proof.
  rewrite <- not_true_iff_false, Qle_bool_iff.
  split; [apply Qnot_le_lt | apply Qlt_not_le].
Qed.

Lemma py_min_cases (a b : Q) :
  (b < a)%Q ∧ py_min a b = b ∨ (a <= b)%Q ∧ py_min a b = a.
Proof.
  unfold py_min. destruct (Qlt_bool b a) eqn:E.
  - left. by apply Qlt_bool_true in E.
  - right. by apply Qlt_bool_false in E.
Qed.

Lemma py_max_cases (a b : Q) :
  (a < b)%Q ∧ py_max a b = b ∨ (b <= a)%Q ∧ py_max a b = a.
Proof.
  unfold py_max. destruct (Qlt_bool a b) eqn:E.
  - left. by apply Qlt_bool_true in E.
  - right. by apply Qlt_bool_false in E.
Qed.

(** Case analysis on the [min] and the [max] of a [clamp], each case
    with the order facts it stands for among the hypotheses. *)
Ltac clamp_cases v lo hi :=
  unfold clamp;
  let Hmin := fresh "Hmin" in
  let Hmax := fresh "Hmax" in
  destruct (py_min_cases hi v) as [[Hmin ->]|[Hmin ->]];
  match goal with
  | |- context [py_max lo ?m] =>
      destruct (py_max_cases lo m) as [[Hmax ->]|[Hmax ->]]
  end.

Lemma Qhalf (x : Q) : (x / 2 == x * (1 # 2))%Q.
Proof. field. Qed.

Lemma inject_Z_pos (n : Z) : (0 < n)%Z → (0 < inject_Z n)%Q.
Proof. intros Hn. change 0%Q with (inject_Z 0). by rewrite <- Zlt_Qlt. Qed.

(** ** [clamp] *)

Section clamp.
Variable hi : Q.
Hypothesis hi_nonneg : (0 <= hi)%Q.

Lemma clamp_range (v : Q) : (0 <= clamp v 0 hi <= hi)%Q.
Proof. clamp_cases v 0%Q hi; lra. Qed.

Lemma clamp_below (v : Q) : (v <= 0)%Q → (clamp v 0 hi == 0)%Q.
Proof. intros ?. clamp_cases v 0%Q hi; lra. Qed.

Lemma clamp_inside (v : Q) : (0 <= v <= hi)%Q → (clamp v 0 hi == v)%Q.
Proof. intros ?. clamp_cases v 0%Q hi; lra. Qed.

Lemma clamp_above (v : Q) : (hi <= v)%Q → (clamp v 0 hi == hi)%Q.
Proof. intros ?. clamp_cases v 0%Q hi; lra. Qed.

Lemma clamp_mono (a b : Q) : (a <= b)%Q → (clamp a 0 hi <= clamp b 0 hi)%Q.
Proof. intros ?. clamp_cases a 0%Q hi; clamp_cases b 0%Q hi; lra. Qed.

Lemma clamp_clamped_into (v : Q) : clamped_into v hi (clamp v 0 hi).
Proof.
  unfold clamped_into.
  auto using clamp_range, clamp_below, clamp_inside, clamp_above.
Qed.
End clamp.

(** Outside a frame of no extent everything clamps to 0, whatever the
    sign of the upper bound. *)
Lemma clamp_degenerate (v hi : Q) : (hi <= 0)%Q → (clamp v 0 hi == 0)%Q.
Proof. intros ?. clamp_cases v 0%Q hi; lra. Qed.

(** ** [normalize_box] *)

Lemma normalize_box_None (x0 y0 x1 y1 : Q) (w h : Z) :
  normalize_box x0 y0 x1 y1 w h = None ↔
  (clamp x1 0 (inject_Z w) - clamp x0 0 (inject_Z w) <= 1)%Q ∨
  (clamp y1 0 (inject_Z h) - clamp y0 0 (inject_Z h) <= 1)%Q.
Proof.
  unfold normalize_box.
  destruct (Qle_bool _ 1) eqn:Ew; [apply Qle_bool_iff in Ew | apply Qle_bool_false in Ew];
  (destruct (Qle_bool _ 1) eqn:Eh; [apply Qle_bool_iff in Eh | apply Qle_bool_false in Eh]);
  simpl; split; auto; try done.
  intros [?|?]; lra.
Qed.

Lemma normalize_box_Some (x0 y0 x1 y1 : Q) (w h : Z) (raw : Q * Q * Q * Q) :
  normalize_box x0 y0 x1 y1 w h = Some raw ↔
  (1 < clamp x1 0 (inject_Z w) - clamp x0 0 (inject_Z w))%Q ∧
  (1 < clamp y1 0 (inject_Z h) - clamp y0 0 (inject_Z h))%Q ∧
  raw = (((clamp x0 0 (inject_Z w) + clamp x1 0 (inject_Z w)) / 2)%Q,
         ((clamp y0 0 (inject_Z h) + clamp y1 0 (inject_Z h)) / 2)%Q,
         (clamp x1 0 (inject_Z w) - clamp x0 0 (inject_Z w))%Q,
         (clamp y1 0 (inject_Z h) - clamp y0 0 (inject_Z h))%Q).
Proof.
  unfold normalize_box.
  destruct (Qle_bool _ 1) eqn:Ew; [apply Qle_bool_iff in Ew | apply Qle_bool_false in Ew];
  (destruct (Qle_bool _ 1) eqn:Eh; [apply Qle_bool_iff in Eh | apply Qle_bool_false in Eh]);
  simpl; (split; [try done | intros (? & ? & ?); try lra]).
  - by intros [= <-].
  - by subst.
Qed.

(** C1: [normalize_box] clamps each corner coordinate on its own into the
    frame, measures the box on the clamped corners, answers [None]
    exactly when the clamped width or height is at most 1, and otherwise
    answers the centre and the size, in pixels.  So reversed corners, a
    box clamped onto one edge and a clamped side of exactly 1 are
    rejected, and a clamped width of 1.01 with a height above 1 is
    accepted. *)
Theorem normalize_box_contract (x0 y0 x1 y1 : Q) (image_width image_height : Z) :
  (0 < image_width)%Z → (0 < image_height)%Z →
  let W := inject_Z image_width in
  let H := inject_Z image_height in
  let cx0 := clamp x0 0 W in
  let cx1 := clamp x1 0 W in
  let cy0 := clamp y0 0 H in
  let cy1 := clamp y1 0 H in
  let box_w := (cx1 - cx0)%Q in
  let box_h := (cy1 - cy0)%Q in
  let answer := normalize_box x0 y0 x1 y1 image_width image_height in
  (clamped_into x0 W cx0 ∧ clamped_into x1 W cx1 ∧
   clamped_into y0 H cy0 ∧ clamped_into y1 H cy1) ∧
  (answer = None ↔ (box_w <= 1)%Q ∨ (box_h <= 1)%Q) ∧
  (¬ ((box_w <= 1)%Q ∨ (box_h <= 1)%Q) →
   answer = Some (((cx0 + cx1) / 2)%Q, ((cy0 + cy1) / 2)%Q, box_w, box_h)) ∧
  ((x1 <= x0)%Q ∨ (y1 <= y0)%Q → answer = None) ∧
  ((x0 <= 0 ∧ x1 <= 0)%Q ∨ (W <= x0 ∧ W <= x1)%Q ∨
   (y0 <= 0 ∧ y1 <= 0)%Q ∨ (H <= y0 ∧ H <= y1)%Q → answer = None) ∧
  ((box_w == 1)%Q ∨ (box_h == 1)%Q → answer = None) ∧
  ((box_w == 101 # 100)%Q → (1 < box_h)%Q → is_Some answer).
Proof.
  intros HW%inject_Z_pos HH%inject_Z_pos W H cx0 cx1 cy0 cy1 box_w box_h answer.
  assert (HW' : (0 <= W)%Q) by (subst W; lra).
  assert (HH' : (0 <= H)%Q) by (subst H; lra).
  assert (Hnone : answer = None ↔ (box_w <= 1)%Q ∨ (box_h <= 1)%Q)
    by apply normalize_box_None.
  split; [|split; [done|]].
  { subst cx0 cx1 cy0 cy1. auto using clamp_clamped_into. }
  repeat split.
  - intros Hbig.
    destruct answer as [raw|] eqn:Ha; [|tauto].
    apply normalize_box_Some in Ha as (_ & _ & ->). done.
  - intros [Hx|Hy]; apply Hnone; [left|right].
    + pose proof (clamp_mono W HW' x1 x0 Hx). subst box_w cx0 cx1. lra.
    + pose proof (clamp_mono H HH' y1 y0 Hy). subst box_h cy0 cy1. lra.
  - intros Hedge. apply Hnone. subst box_w box_h cx0 cx1 cy0 cy1.
    destruct Hedge as [[Ha Hb]|[[Ha Hb]|[[Ha Hb]|[Ha Hb]]]]; [left|left|right|right].
    + rewrite (clamp_below W HW' _ Ha), (clamp_below W HW' _ Hb). lra.
    + rewrite (clamp_above W HW' _ Ha), (clamp_above W HW' _ Hb). lra.
    + rewrite (clamp_below H HH' _ Ha), (clamp_below H HH' _ Hb). lra.
    + rewrite (clamp_above H HH' _ Ha), (clamp_above H HH' _ Hb). lra.
  - intros [Hone|Hone]; apply Hnone; [left|right]; lra.
  - intros Hw Hh. destruct answer as [raw|]; [by eexists|].
    destruct Hnone as [Hn _]. destruct (Hn eq_refl); lra.
Qed.

Lemma normalize_box_contract_witness :
  (0 < 640)%Z ∧ (0 < 480)%Z ∧
  is_Some (normalize_box 0 0 (101 # 100) 5 640 480) ∧
  normalize_box 5 0 5 9 640 480 = None.
Proof.
  assert (Hw : (0 < 640)%Z) by lia.
  assert (Hh : (0 < 480)%Z) by lia.
  split; [exact Hw|]. split; [exact Hh|]. split.
  - destruct (normalize_box_contract 0 0 (101 # 100) 5 640 480 Hw Hh)
      as (_ & _ & _ & _ & _ & _ & Haccept).
    apply Haccept; vm_compute; done.
  - destruct (normalize_box_contract 5 0 5 9 640 480 Hw Hh)
      as (_ & _ & _ & Hreversed & _).
    apply Hreversed. left. unfold Qle. simpl. lia.
Defined.

(** A box is only ever accepted inside a frame of positive extent. *)
Lemma normalize_box_Some_dims (x0 y0 x1 y1 : Q) (w h : Z) (raw : Q * Q * Q * Q) :
  normalize_box x0 y0 x1 y1 w h = Some raw → (0 < w)%Z ∧ (0 < h)%Z.
Proof.
  intros (Hw & Hh & _)%normalize_box_Some. split.
  - destruct (Z.lt_ge_cases 0 w) as [|Hle]; [done|exfalso].
    assert (Hq : (inject_Z w <= 0)%Q)
      by (change 0%Q with (inject_Z 0); by rewrite <- Zle_Qle).
    rewrite !(clamp_degenerate _ _ Hq) in Hw. lra.
  - destruct (Z.lt_ge_cases 0 h) as [|Hle]; [done|exfalso].
    assert (Hq : (inject_Z h <= 0)%Q)
      by (change 0%Q with (inject_Z 0); by rewrite <- Zle_Qle).
    rewrite !(clamp_degenerate _ _ Hq) in Hh. lra.
Qed.

(** ** The loop of [sample_to_boxes] *)

Lemma annotation_raw_corners (a : PyVal) (w h : Z) (raw : Q * Q * Q * Q) :
  annotation_raw a w h = Some raw →
  ∃ x0 y0 x1 y1, normalize_box x0 y0 x1 y1 w h = Some raw.
Proof.
  unfold annotation_raw. intros Hraw.
  repeat case_match; try discriminate; eauto.
Qed.

Lemma py_truediv_Ok (a b : Q) : ¬ (b == 0)%Q → py_truediv a b = Ok (a / b)%Q.
Proof.
  intros Hb. unfold py_truediv.
  destruct (Qeq_bool b 0) eqn:E; [|done]. by apply Qeq_bool_iff in E.
Qed.

Lemma make_box_Ok (cid : Z) (raw : Q * Q * Q * Q) (w h : Z) :
  (0 < w)%Z → (0 < h)%Z →
  make_box cid raw w h = Ok (box_of_raw cid raw w h).
Proof.
  intros Hw%inject_Z_pos Hh%inject_Z_pos.
  destruct raw as [[[xc yc] bw] bh]. unfold make_box, box_of_raw.
  rewrite !py_truediv_Ok by lra. done.
Qed.

Lemma loop_body_emitted (cid w h : Z) (boxes : list YoloBox) (a : PyVal) :
  loop_body cid w h boxes a
  = Ok (boxes ++ option_list (emitted_box cid w h a)).
Proof.
  unfold loop_body, emitted_box.
  destruct (annotation_raw a w h) as [raw|] eqn:Hraw; simpl.
  - apply annotation_raw_corners in Hraw as (x0 & y0 & x1 & y1 & Hn).
    apply normalize_box_Some_dims in Hn as [Hw Hh].
    by rewrite make_box_Ok.
  - by rewrite app_nil_r.
Qed.

(** The loop is an ordered filter-map: it appends, annotation by
    annotation, the boxes of those that pass. *)
Lemma for_each_loop_body (cid w h : Z) (anns : list PyVal) (boxes : list YoloBox) :
  for_each (loop_body cid w h) anns boxes
  = Ok (boxes ++ omap (emitted_box cid w h) anns).
Proof.
  revert boxes. induction anns as [|a anns IH]; intros boxes; simpl.
  - by rewrite app_nil_r.
  - rewrite loop_body_emitted. simpl. rewrite IH, <- app_assoc.
    by destruct (emitted_box cid w h a).
Qed.

(** ** The class of a sample *)

Lemma registered_not_ignored (c : string) (cid : Z) :
  CLASS_NAME_TO_ID !! c = Some cid → c ∉ IGNORED_CLASSES.
Proof.
  intros Hc Hin. apply elem_of_singleton in Hin as ->.
  vm_compute in Hc. discriminate.
Qed.

Lemma registered_not_negative (c : string) (cid : Z) :
  CLASS_NAME_TO_ID !! c = Some cid → c ≠ NEGATIVE_CLASS.
Proof. intros Hc ->. vm_compute in Hc. discriminate. Qed.

Lemma registered_id_range (c : string) (cid : Z) :
  CLASS_NAME_TO_ID !! c = Some cid → (0 <= cid <= 3)%Z.
Proof.
  unfold CLASS_NAME_TO_ID. intros Hc.
  apply elem_of_list_to_map_2 in Hc.
  repeat (apply elem_of_cons in Hc as [[= -> ->]|Hc]; [lia|]).
  by apply elem_of_nil in Hc.
Qed.

Lemma sample_to_boxes_registered (sample : gmap string PyVal) (w h : Z)
    (c : string) (cid : Z) :
  dict_get sample "class" = PStr c →
  CLASS_NAME_TO_ID !! c = Some cid →
  sample_to_boxes sample w h =
    match dict_get sample "annotations" with
    | PList anns => Ok (omap (emitted_box cid w h) anns)
    | _ => Ok []
    end.
Proof.
  intros Hclass Hc. unfold sample_to_boxes. rewrite Hclass. simpl.
  rewrite bool_decide_eq_false_2 by eauto using registered_not_ignored.
  rewrite bool_decide_eq_false_2 by eauto using registered_not_negative.
  simpl. rewrite Hc.
  destruct (dict_get sample "annotations"); try done.
  apply for_each_loop_body.
Qed.

(** Every way [sample_to_boxes] can return. *)
Lemma sample_to_boxes_Ok_inv (sample : gmap string PyVal) (w h : Z)
    (boxes : list YoloBox) :
  sample_to_boxes sample w h = Ok boxes →
  boxes = [] ∨
  ∃ c cid anns,
    dict_get sample "class" = PStr c ∧
    CLASS_NAME_TO_ID !! c = Some cid ∧
    dict_get sample "annotations" = PList anns ∧
    boxes = omap (emitted_box cid w h) anns.
Proof.
  destruct (dict_get sample "class") as [| | | |c| |] eqn:Hclass;
    try (unfold sample_to_boxes; rewrite Hclass; simpl; intros [= <-]; by left).
  destruct (CLASS_NAME_TO_ID !! c) as [cid|] eqn:Hc.
  - rewrite (sample_to_boxes_registered _ _ _ _ _ Hclass Hc).
    destruct (dict_get sample "annotations") as [| | | | |anns|] eqn:Hanns;
      intros [= <-]; try by left.
    right. by exists c, cid, anns.
  - unfold sample_to_boxes. rewrite Hclass. simpl. rewrite Hc.
    repeat case_match; intros [= <-]; by left.
Qed.

(** C2: a sample whose class is absent, ignored, the negative sentinel
    or a name outside the registry gives the empty list, and so does a
    sample of a registered class whose annotations are not a list; none
    of these raises. *)
Theorem sample_to_boxes_no_boxes (sample : gmap string PyVal) (w h : Z) :
  sample !! "class" = None ∨
  sample !! "class" = Some PNone ∨
  (∃ c, sample !! "class" = Some (PStr c) ∧
        (c ∈ IGNORED_CLASSES ∨ c = NEGATIVE_CLASS ∨ CLASS_NAME_TO_ID !! c = None)) ∨
  (∃ c cid, sample !! "class" = Some (PStr c) ∧
            CLASS_NAME_TO_ID !! c = Some cid ∧
            ∀ anns, dict_get sample "annotations" ≠ PList anns) →
  sample_to_boxes sample w h = Ok [].
Proof.
  intros [Habsent|[Hnull|[(c & Hclass & Hc)|(c & cid & Hclass & Hc & Hanns)]]].
  - unfold sample_to_boxes, dict_get. by rewrite Habsent.
  - unfold sample_to_boxes, dict_get. by rewrite Hnull.
  - unfold sample_to_boxes, dict_get. rewrite Hclass. simpl.
    destruct Hc as [Hignored|[Hnegative|Hunknown]].
    + by rewrite bool_decide_eq_true_2.
    + rewrite (bool_decide_eq_true_2 (c = NEGATIVE_CLASS)) by done.
      by destruct (bool_decide (c ∈ IGNORED_CLASSES)).
    + rewrite Hunknown. by repeat case_match.
  - assert (Hget : dict_get sample "class" = PStr c)
      by (unfold dict_get; by rewrite Hclass).
    rewrite (sample_to_boxes_registered _ _ _ _ _ Hget Hc).
    destruct (dict_get sample "annotations") as [| | | | |anns|] eqn:Ha; try done.
    by destruct (Hanns anns).
Qed.

Lemma sample_to_boxes_no_boxes_witness :
  sample_to_boxes (make_sample (PStr "negative") (PList [])) 640 480 = Ok [] ∧
  sample_to_boxes (make_sample (PStr "road_debris")
    (PList [bbox_annotation (PInt 10) (PInt 10) (PInt 100) (PInt 50)])) 640 480
  = Ok [] ∧
  sample_to_boxes (make_sample (PStr "billboard") (PStr "none")) 640 480 = Ok [].
Proof.
  split; [|split]; apply sample_to_boxes_no_boxes.
  - right; right; left. exists "negative". split; [reflexivity|].
    right; left. reflexivity.
  - right; right; left. exists "road_debris". split; [reflexivity|].
    right; right. reflexivity.
  - right; right; right. exists "billboard", 2%Z.
    split; [reflexivity|]. split; [reflexivity|].
    intros anns. vm_compute. discriminate.
Defined.

(** ** Normalized boxes *)

Lemma Qdiv_unit_range (a d : Q) :
  (0 < d)%Q → (0 <= a <= d)%Q → (0 <= a / d <= 1)%Q.
Proof.
  intros Hd [Ha0 Had]. split.
  - apply Qle_shift_div_l; [done | lra].
  - apply Qle_shift_div_r; [done | lra].
Qed.


(** The shape of every emitted box: it comes from clamped corners that
    are more than one pixel apart inside a frame of positive extent. *)
Lemma emitted_box_inv (cid w h : Z) (a : PyVal) (box : YoloBox) :
  emitted_box cid w h a = Some box →
  ∃ cx0 cx1 cy0 cy1 : Q,
    (0 < w)%Z ∧ (0 < h)%Z ∧
    (0 <= cx0 <= inject_Z w)%Q ∧ (0 <= cx1 <= inject_Z w)%Q ∧
    (0 <= cy0 <= inject_Z h)%Q ∧ (0 <= cy1 <= inject_Z h)%Q ∧
    (1 < cx1 - cx0)%Q ∧ (1 < cy1 - cy0)%Q ∧
    box = mkYoloBox cid
            ((cx0 + cx1) / 2 / inject_Z w) ((cy0 + cy1) / 2 / inject_Z h)
            ((cx1 - cx0) / inject_Z w) ((cy1 - cy0) / inject_Z h).
Proof.
  unfold emitted_box. intros Hbox.
  destruct (annotation_raw a w h) as [raw|] eqn:Hraw; [|discriminate].
  injection Hbox as <-.
  apply annotation_raw_corners in Hraw as (x0 & y0 & x1 & y1 & Hn).
  destruct (normalize_box_Some_dims _ _ _ _ _ _ _ Hn) as [Hw Hh].
  apply normalize_box_Some in Hn as (Hbw & Hbh & ->).
  assert (HW : (0 <= inject_Z w)%Q) by (apply inject_Z_pos in Hw; lra).
  assert (HH : (0 <= inject_Z h)%Q) by (apply inject_Z_pos in Hh; lra).
  exists (clamp x0 0 (inject_Z w)), (clamp x1 0 (inject_Z w)),
         (clamp y0 0 (inject_Z h)), (clamp y1 0 (inject_Z h)).
  repeat split; try done; by apply clamp_range.
Qed.



(** ** Boxes inside the frame *)

(** Corners in order, more than a pixel apart and inside the frame are
    left alone by the clamping. *)
Lemma normalize_box_in_frame (x0 y0 x1 y1 : Q) (w h : Z) :
  (0 <= x0)%Q → (x1 <= inject_Z w)%Q → (0 <= y0)%Q → (y1 <= inject_Z h)%Q →
  (1 < x1 - x0)%Q → (1 < y1 - y0)%Q →
  ∃ xc yc bw bh : Q,
    normalize_box x0 y0 x1 y1 w h = Some (xc, yc, bw, bh) ∧
    (xc == (x0 + x1) / 2)%Q ∧ (yc == (y0 + y1) / 2)%Q ∧
    (bw == x1 - x0)%Q ∧ (bh == y1 - y0)%Q.
Proof.
  intros Hx0 Hx1 Hy0 Hy1 Hbw Hbh.
  pose proof (clamp_inside (inject_Z w) x0) as Ex0.
  pose proof (clamp_inside (inject_Z w) x1) as Ex1.
  pose proof (clamp_inside (inject_Z h) y0) as Ey0.
  pose proof (clamp_inside (inject_Z h) y1) as Ey1.
  do 4 eexists. split.
  - apply normalize_box_Some. split; [|split; [|reflexivity]].
    + rewrite Ex0, Ex1; lra.
    + rewrite Ey0, Ey1; lra.
  - rewrite Ex0, Ex1, Ey0, Ey1 by lra. done.
Qed.

Lemma box_of_raw_rescaled (cid : Z) (xc yc bw bh : Q) (w h : Z) :
  (0 < w)%Z → (0 < h)%Z →
  let box := box_of_raw cid (xc, yc, bw, bh) w h in
  class_id box = cid ∧
  (x_center box * inject_Z w == xc)%Q ∧ (y_center box * inject_Z h == yc)%Q ∧
  (width box * inject_Z w == bw)%Q ∧ (height box * inject_Z h == bh)%Q.
Proof.
  intros Hw%inject_Z_pos Hh%inject_Z_pos. simpl.
  repeat split; field; lra.
Qed.

Lemma annotation_raw_bbox (m : gmap string PyVal) (w h : Z) (x y bw bh : Q) :
  dict_get m "kind" = PStr "bbox" →
  as_number (dict_get m "x") = Some x →
  as_number (dict_get m "y") = Some y →
  as_number (dict_get m "width") = Some bw →
  as_number (dict_get m "height") = Some bh →
  annotation_raw (PDict m) w h = normalize_box x y (x + bw) (y + bh) w h.
Proof.
  intros Hkind Hx Hy Hbw Hbh. unfold annotation_raw.
  by rewrite Hkind, Hx, Hy, Hbw, Hbh.
Qed.

Lemma annotation_raw_circle (m ctr : gmap string PyVal) (w h : Z) (cx cy r : Q) :
  dict_get m "kind" = PStr "circle" →
  dict_get m "centerPx" = PDict ctr →
  as_number (dict_get m "radiusPx") = Some r →
  as_number (dict_get ctr "x") = Some cx →
  as_number (dict_get ctr "y") = Some cy →
  annotation_raw (PDict m) w h
  = normalize_box (cx - r) (cy - r) (cx + r) (cy + r) w h.
Proof.
  intros Hkind Hctr Hr Hcx Hcy. unfold annotation_raw.
  by rewrite Hkind, Hctr, Hr, Hcx, Hcy.
Qed.

(** C3: a bbox annotation of a sample of a registered class, more than
    a pixel wide and high and inside the frame, gives a box that,
    rescaled by the image dimensions, is the rectangle again. *)
Theorem bbox_round_trip (sample m : gmap string PyVal) (w h : Z)
    (c : string) (cid : Z) (before after : list PyVal) (x y bw bh : Q) :
  dict_get sample "class" = PStr c →
  CLASS_NAME_TO_ID !! c = Some cid →
  dict_get sample "annotations" = PList (before ++ PDict m :: after) →
  dict_get m "kind" = PStr "bbox" →
  as_number (dict_get m "x") = Some x →
  as_number (dict_get m "y") = Some y →
  as_number (dict_get m "width") = Some bw →
  as_number (dict_get m "height") = Some bh →
  (1 < bw)%Q → (1 < bh)%Q →
  (0 <= x)%Q → (x + bw <= inject_Z w)%Q →
  (0 <= y)%Q → (y + bh <= inject_Z h)%Q →
  ∃ box : YoloBox,
    emitted_box cid w h (PDict m) = Some box ∧
    sample_to_boxes sample w h
    = Ok (omap (emitted_box cid w h) before ++
          box :: omap (emitted_box cid w h) after) ∧
    class_id box = cid ∧
    (x_center box * inject_Z w == x + bw / 2)%Q ∧
    (y_center box * inject_Z h == y + bh / 2)%Q ∧
    (width box * inject_Z w == bw)%Q ∧
    (height box * inject_Z h == bh)%Q.
Proof.
  intros Hclass Hc Hanns Hkind Hx Hy Hbw Hbh Hbw1 Hbh1 Hx0 Hx1 Hy0 Hy1.
  destruct (normalize_box_in_frame x y (x + bw) (y + bh) w h)
    as (xc & yc & rw & rh & Hn & Exc & Eyc & Erw & Erh); try done; try lra.
  destruct (normalize_box_Some_dims _ _ _ _ _ _ _ Hn) as [Hw Hh].
  destruct (box_of_raw_rescaled cid xc yc rw rh w h Hw Hh)
    as (Hid & Rxc & Ryc & Rbw & Rbh).
  assert (Hbox : emitted_box cid w h (PDict m)
                 = Some (box_of_raw cid (xc, yc, rw, rh) w h)).
  { unfold emitted_box.
    by rewrite (annotation_raw_bbox m w h x y bw bh), Hn. }
  exists (box_of_raw cid (xc, yc, rw, rh) w h).
  split; [done|]. split; [|split; [done|]].
  - rewrite (sample_to_boxes_registered _ _ _ _ _ Hclass Hc), Hanns.
    rewrite omap_app. simpl. by rewrite Hbox.
  - rewrite Rxc, Ryc, Rbw, Rbh, Exc, Eyc, Erw, Erh.
    repeat split; field.
Qed.

Lemma bbox_round_trip_witness :
  ∃ box : YoloBox,
    sample_to_boxes scenario_B 640 640 = Ok [box] ∧
    (x_center box * 640 == 10 + 100 / 2)%Q ∧
    (y_center box * 640 == 10 + 50 / 2)%Q ∧
    (width box * 640 == 100)%Q ∧ (height box * 640 == 50)%Q.
Proof.
  destruct (bbox_round_trip scenario_B
              (list_to_map [("kind", PStr "bbox"); ("x", PInt 10); ("y", PInt 10);
                            ("width", PInt 100); ("height", PInt 50)])
              640 640 "tree_pine" 1 [] [] 10 10 100 50)
    as (box & _ & Hrun & _ & Hxc & Hyc & Hbw & Hbh);
    try reflexivity; try (unfold Qlt, Qle; simpl; lia).
  exists box. split; [exact Hrun|]. split; [exact Hxc|]. split; [exact Hyc|].
  split; [exact Hbw|exact Hbh].
Defined.

(** ** Validation *)

Lemma dict_get_Some (m : gmap string PyVal) (k : string) (v : PyVal) :
  m !! k = Some v → dict_get m k = v.
Proof. unfold dict_get. by intros ->. Qed.

Lemma dict_get_inv (m : gmap string PyVal) (k : string) (v : PyVal) :
  dict_get m k = v → v ≠ PNone → m !! k = Some v.
Proof. unfold dict_get. destruct (m !! k); simpl; by intros ->. Qed.

Lemma numeric_field_as_number (m : gmap string PyVal) (k : string) (q : Q) :
  numeric_field m k q ↔ as_number (dict_get m k) = Some q.
Proof.
  unfold numeric_field, dict_get. split.
  - by intros (v & -> & Hv).
  - destruct (m !! k) as [v|]; simpl; [eauto | discriminate].
Qed.

Lemma emitted_box_valid (cid w h : Z) (a : PyVal) (box : YoloBox) :
  emitted_box cid w h a = Some box ↔ valid_annotation cid w h a box.
Proof.
  split.
  - unfold emitted_box. intros Hbox.
    destruct (annotation_raw a w h) as [[[[xc yc] bw] bh]|] eqn:Hraw;
      [|discriminate].
    injection Hbox as <-. unfold annotation_raw in Hraw.
    destruct a as [| | | | | |m]; try discriminate.
    destruct (dict_get m "kind") as [| | | |kind| |] eqn:Hkind; try discriminate.
    simpl in Hraw. repeat case_decide; subst; try discriminate.
    + destruct (dict_get m "centerPx") as [| | | | | |ctr] eqn:Hctr;
        try discriminate.
      destruct (as_number (dict_get m "radiusPx")) as [r|] eqn:Hr;
        [|discriminate].
      destruct (as_number (dict_get ctr "x")) as [cx|] eqn:Hcx; [|discriminate].
      destruct (as_number (dict_get ctr "y")) as [cy|] eqn:Hcy; [|discriminate].
      eapply valid_circle; try (by apply numeric_field_as_number); try done;
        by apply dict_get_inv.
    + destruct (as_number (dict_get m "x")) as [x|] eqn:Hx; [|discriminate].
      destruct (as_number (dict_get m "y")) as [y|] eqn:Hy; [|discriminate].
      destruct (as_number (dict_get m "width")) as [bw'|] eqn:Hbw;
        [|discriminate].
      destruct (as_number (dict_get m "height")) as [bh'|] eqn:Hbh;
        [|discriminate].
      eapply valid_bbox; try (by apply numeric_field_as_number); try done;
        by apply dict_get_inv.
  - intros [m ctr cx cy r xc yc bw bh Hkind Hctr Hcx Hcy Hr Hn
           |m x y bw bh xc yc rw rh Hkind Hx Hy Hbw Hbh Hn];
      unfold emitted_box.
    + rewrite (annotation_raw_circle m ctr w h cx cy r), Hn;
        auto using dict_get_Some; by apply numeric_field_as_number.
    + rewrite (annotation_raw_bbox m w h x y bw bh), Hn;
        auto using dict_get_Some; by apply numeric_field_as_number.
Qed.

Lemma omap_boxes_of_valid (cid w h : Z) (anns : list PyVal) :
  boxes_of_valid cid w h anns (omap (emitted_box cid w h) anns).
Proof.
  induction anns as [|a anns IH]; simpl.
  - constructor.
  - destruct (emitted_box cid w h a) as [box|] eqn:Hbox.
    + apply boxes_of_valid_keep; [by apply emitted_box_valid | done].
    + apply boxes_of_valid_skip; [|done].
      intros box Hvalid%emitted_box_valid. congruence.
Qed.

Lemma boxes_of_valid_unique (cid w h : Z) (anns : list PyVal)
    (boxes : list YoloBox) :
  boxes_of_valid cid w h anns boxes →
  boxes = omap (emitted_box cid w h) anns.
Proof.
  induction 1 as [|a anns boxes Hskip _ IH|a box anns boxes Hkeep _ IH]; simpl.
  - done.
  - destruct (emitted_box cid w h a) as [box|] eqn:Hbox; [|done].
    apply emitted_box_valid in Hbox. by destruct (Hskip box).
  - apply emitted_box_valid in Hkeep. by rewrite Hkeep, IH.
Qed.

(** ** Malformed annotations *)

Lemma malformed_skipped (a : PyVal) (w h : Z) :
  malformed a → annotation_raw a w h = None.
Proof.
  intros [b Hnot|m Hc Hb|m Hkind Hctr|m ctr Hkind Hctr Hxy|m Hkind Hr|m Hkind Hf];
    unfold annotation_raw.
  - destruct b; try done. by destruct (Hnot m).
  - destruct (dict_get m "kind") as [| | | |kind| |]; try done.
    simpl. repeat case_decide; by subst.
  - rewrite Hkind. simpl.
    destruct (dict_get m "centerPx") as [| | | | | |ctr]; try done.
    by destruct (Hctr ctr).
  - rewrite Hkind, Hctr. simpl.
    destruct (as_number (dict_get m "radiusPx")); [|done].
    destruct Hxy as [-> | ->]; [done|]. by case_match.
  - rewrite Hkind, Hr. simpl. by case_match.
  - rewrite Hkind. simpl.
    destruct Hf as [-> | [-> | [-> | ->]]]; by repeat case_match.
Qed.

Lemma sample_to_boxes_hashable (sample : gmap string PyVal) (w h : Z) :
  hashable (dict_get sample "class") = true →
  ∃ boxes, sample_to_boxes sample w h = Ok boxes.
Proof.
  intros Hhash.
  destruct (dict_get sample "class") as [| | | |c| |] eqn:Hclass;
    try discriminate;
    try (unfold sample_to_boxes; rewrite Hclass; simpl; by eexists).
  destruct (CLASS_NAME_TO_ID !! c) as [cid|] eqn:Hc.
  - rewrite (sample_to_boxes_registered _ _ _ _ _ Hclass Hc).
    case_match; by eexists.
  - unfold sample_to_boxes. rewrite Hclass. simpl. rewrite Hc.
    repeat case_match; by eexists.
Qed.

Lemma sample_to_boxes_with_annotations (sample : gmap string PyVal) (w h : Z)
    (anns1 anns2 : list PyVal) :
  dict_get sample "annotations" = PList anns1 →
  (∀ cid, omap (emitted_box cid w h) anns1 = omap (emitted_box cid w h) anns2) →
  sample_to_boxes sample w h
  = sample_to_boxes (with_annotations sample anns2) w h.
Proof.
  intros Hanns Hsame.
  assert (Hclass' : dict_get (with_annotations sample anns2) "class"
                    = dict_get sample "class").
  { unfold dict_get, with_annotations. by rewrite lookup_insert_ne. }
  assert (Hanns' : dict_get (with_annotations sample anns2) "annotations"
                   = PList anns2).
  { unfold dict_get, with_annotations. by rewrite lookup_insert_eq. }
  destruct (dict_get sample "class") as [| | | |c| |] eqn:Hclass;
    try (unfold sample_to_boxes; rewrite Hclass', Hclass; done).
  destruct (CLASS_NAME_TO_ID !! c) as [cid|] eqn:Hc.
  - rewrite (sample_to_boxes_registered _ _ _ _ _ Hclass Hc), Hanns.
    rewrite (sample_to_boxes_registered _ _ _ _ _ Hclass' Hc), Hanns'.
    by rewrite Hsame.
  - unfold sample_to_boxes. rewrite Hclass', Hclass. simpl. rewrite Hc.
    by repeat case_match.
Qed.

(** ** Decimal text *)

Lemma string_length_app (s t : string) :
  String.length (s +:+ t) = (String.length s + String.length t)%nat.
Proof. induction s as [|c s IH]; simpl; [done | by rewrite IH]. Qed.

Lemma all_digits_app (s t : string) :
  all_digits (s +:+ t) = all_digits s && all_digits t.
Proof.
  induction s as [|c s IH]; simpl; [done|]. by rewrite IH, andb_assoc.
Qed.

Lemma decimal_value_from_app (acc : Z) (s t : string) :
  decimal_value_from acc (s +:+ t)
  = decimal_value_from (decimal_value_from acc s) t.
Proof. revert acc. induction s as [|c s IH]; intros acc; simpl; [done | apply IH]. Qed.

Lemma digit_char_code (d : Z) :
  (0 <= d < 10)%Z → Ascii.nat_of_ascii (digit_char d) = (48 + Z.to_nat d)%nat.
Proof. intros Hd. unfold digit_char. apply Ascii.nat_ascii_embedding. lia. Qed.

Lemma digits_fixed_length (k : nat) (n : Z) :
  String.length (digits_fixed k n) = k.
Proof.
  revert n. induction k as [|k IH]; intros n; simpl; [done|].
  rewrite string_length_app, IH. simpl. lia.
Qed.

Lemma digits_fixed_all_digits (k : nat) (n : Z) :
  all_digits (digits_fixed k n) = true.
Proof.
  revert n. induction k as [|k IH]; intros n; simpl; [done|].
  rewrite all_digits_app, IH. cbn [all_digits andb]. unfold is_digit.
  rewrite digit_char_code by (apply Z.mod_pos_bound; lia).
  pose proof (Z.mod_pos_bound n 10 ltac:(lia)).
  rewrite andb_true_r. apply andb_true_iff.
  split; apply Nat.leb_le; lia.
Qed.

Lemma digits_fixed_value_from (k : nat) (acc n : Z) :
  decimal_value_from acc (digits_fixed k n)
  = (acc * 10 ^ Z.of_nat k + n mod 10 ^ Z.of_nat k)%Z.
Proof.
  revert acc n. induction k as [|k IH]; intros acc n.
  - simpl. rewrite Z.mod_1_r. lia.
  - cbn [digits_fixed]. rewrite decimal_value_from_app, IH.
    cbn [decimal_value_from].
    rewrite digit_char_code by (apply Z.mod_pos_bound; lia).
    pose proof (Z.mod_pos_bound n 10 ltac:(lia)).
    rewrite Nat2Z.inj_succ, Z.pow_succ_r by lia.
    rewrite (Z.rem_mul_r n 10 (10 ^ Z.of_nat k)) by lia.
    lia.
Qed.

Lemma digits_fixed_value (k : nat) (n : Z) :
  decimal_value (digits_fixed k n) = (n mod 10 ^ Z.of_nat k)%Z.
Proof. unfold decimal_value. rewrite digits_fixed_value_from. lia. Qed.

Lemma decimal_value_from_acc (acc : Z) (s : string) :
  decimal_value_from acc s
  = (acc * 10 ^ Z.of_nat (String.length s) + decimal_value s)%Z.
Proof.
  unfold decimal_value. revert acc.
  induction s as [|c s IH]; intros acc; cbn [decimal_value_from String.length].
  - simpl. lia.
  - rewrite IH, (IH (10 * 0 + _)%Z), Nat2Z.inj_succ, Z.pow_succ_r by lia. lia.
Qed.

Lemma pretty_N_char_digit (d : N) :
  (d < 10)%N →
  is_digit (pretty_N_char d) = true ∧
  (Z.of_nat (Ascii.nat_of_ascii (pretty_N_char d)) - 48)%Z = Z.of_N d.
Proof.
  intros Hd.
  assert (d = 0 ∨ d = 1 ∨ d = 2 ∨ d = 3 ∨ d = 4 ∨ d = 5 ∨ d = 6
          ∨ d = 7 ∨ d = 8 ∨ d = 9)%N as Hcases by lia.
  repeat (destruct Hcases as [->|Hcases]; [by vm_compute|]).
  subst. by vm_compute.
Qed.

Lemma pretty_N_go_digits (x : N) (s : string) :
  all_digits (pretty_N_go x s) = all_digits s ∧
  decimal_value (pretty_N_go x s)
  = (Z.of_N x * 10 ^ Z.of_nat (String.length s) + decimal_value s)%Z.
Proof.
  revert s. induction (N.lt_wf_0 x) as [x _ IH]; intros s.
  destruct (decide (x = 0%N)) as [->|Hx].
  { rewrite pretty_N_go_0. split; [done | lia]. }
  rewrite pretty_N_go_step by lia.
  destruct (IH (x `div` 10)%N ltac:(apply N.div_lt; lia)
               (String (pretty_N_char (x `mod` 10)) s)) as [Hall Hval].
  destruct (pretty_N_char_digit (x `mod` 10)%N) as [Hdigit Hcode].
  { apply N.mod_lt. lia. }
  split.
  - rewrite Hall. cbn [all_digits]. by rewrite Hdigit.
  - rewrite Hval. unfold decimal_value at 1. cbn [decimal_value_from String.length].
    rewrite decimal_value_from_acc, Hcode, Nat2Z.inj_succ, Z.pow_succ_r by lia.
    rewrite (N.div_mod x 10) at 3 by lia.
    rewrite N2Z.inj_add, N2Z.inj_mul. change (Z.of_N 10) with 10%Z. lia.
Qed.

(** The text of a natural number is made of digits and stands for it. *)
Lemma pretty_Z_digits (z : Z) :
  (0 <= z)%Z → all_digits (pretty z) = true ∧ decimal_value (pretty z) = z.
Proof.
  intros Hz. destruct z as [|p|p]; [done| |lia].
  change (pretty (Z.pos p)) with (pretty_N_go (N.pos p) EmptyString).
  destruct (pretty_N_go_digits (N.pos p) EmptyString) as [Hall Hval].
  split; [done|]. rewrite Hval.
  change (decimal_value EmptyString) with 0%Z.
  change (Z.of_nat (String.length EmptyString)) with 0%Z.
  change (Z.of_N (N.pos p)) with (Z.pos p). lia.
Qed.

(** ** Rounding *)

Lemma round_half_even_nearest (q : Q) : nearest_even q (round_half_even q).
Proof.
  pose proof (Qfloor_le q) as Hlo. pose proof (Qlt_floor q) as Hhi.
  rewrite inject_Z_plus in Hhi. change (inject_Z 1) with 1%Q in Hhi.
  unfold nearest_even, round_half_even.
  destruct (Qlt_bool (q - inject_Z (Qfloor q)) (1 # 2)) eqn:E1;
    [apply Qlt_bool_true in E1 | apply Qlt_bool_false in E1].
  { split.
    - apply Qabs_Qle_condition. lra.
    - intros Htie. rewrite Qabs_pos in Htie by lra. lra. }
  destruct (Qlt_bool (1 # 2) (q - inject_Z (Qfloor q))) eqn:E2;
    [apply Qlt_bool_true in E2 | apply Qlt_bool_false in E2].
  { rewrite inject_Z_plus. change (inject_Z 1) with 1%Q. split.
    - apply Qabs_Qle_condition. lra.
    - intros Htie. rewrite Qabs_neg in Htie by lra. lra. }
  destruct (Z.even (Qfloor q)) eqn:Heven.
  - split; [apply Qabs_Qle_condition; lra | done].
  - rewrite inject_Z_plus. change (inject_Z 1) with 1%Q. split.
    + apply Qabs_Qle_condition. lra.
    + intros _. rewrite Z.even_add, Heven. done.
Qed.

Lemma round_half_even_nonneg (q : Q) : (0 <= q)%Q → (0 <= round_half_even q)%Z.
Proof.
  intros Hq. assert (Hf : (0 <= Qfloor q)%Z).
  { change 0%Z with (Qfloor 0). by apply Qfloor_resp_le. }
  unfold round_half_even. repeat case_match; lia.
Qed.

(** ** [format_yolo_labels] *)

Lemma format_6f_six_decimals (q : Q) : six_decimals q (format_6f q).
Proof.
  set (n := round_half_even (Qabs q * inject_Z micro)).
  assert (Hn : (0 <= n)%Z).
  { apply round_half_even_nonneg.
    apply Qmult_le_0_compat; [apply Qabs_nonneg | done]. }
  destruct (pretty_Z_digits (n / micro)%Z) as [Hall Hval].
  { apply Z.div_pos; [done | by unfold micro]. }
  exists n, (pretty (n / micro)%Z), (digits_fixed 6 (n mod micro)).
  split; [done|]. split; [apply round_half_even_nearest|].
  split; [done|]. split; [done|]. split; [done|].
  split; [apply digits_fixed_length|].
  split; [apply digits_fixed_all_digits|].
  rewrite digits_fixed_value. apply Z.mod_small.
  apply Z.mod_pos_bound. done.
Qed.

Lemma fold_left_append {A B : Type} (f : A → B) (l : list A) (acc : list B) :
  fold_left (fun lines x => lines ++ [f x]) l acc = acc ++ (f <$> l).
Proof.
  revert acc. induction l as [|x l IH]; intros acc; simpl.
  - by rewrite app_nil_r.
  - by rewrite IH, <- app_assoc.
Qed.

(** C8: [format_yolo_labels] gives one line for each box, in order:
    the class id as an integer, then the centre and the size, each with
    exactly six digits after the decimal point, separated by single
    spaces, with nothing after the last; no boxes give no lines. *)
Theorem format_yolo_labels_lines (boxes : list YoloBox) :
  length (format_yolo_labels boxes) = length boxes ∧
  (∀ (i : nat) (box : YoloBox),
     boxes !! i = Some box →
     ∃ id fx fy fw fh : string,
       format_yolo_labels boxes !! i
       = Some (id +:+ " " +:+ fx +:+ " " +:+ fy +:+ " " +:+ fw +:+ " " +:+ fh) ∧
       id = pretty (class_id box) ∧
       ((0 <= class_id box)%Z →
        all_digits id = true ∧ decimal_value id = class_id box) ∧
       six_decimals (x_center box) fx ∧ six_decimals (y_center box) fy ∧
       six_decimals (width box) fw ∧ six_decimals (height box) fh) ∧
  format_yolo_labels [] = [].
Proof.
  assert (Hmap : format_yolo_labels boxes = format_line <$> boxes).
  { unfold format_yolo_labels. by rewrite fold_left_append. }
  split; [by rewrite Hmap, length_fmap|]. split; [|done].
  intros i box Hi.
  exists (pretty (class_id box)),
         (format_6f (x_center box)), (format_6f (y_center box)),
         (format_6f (width box)), (format_6f (height box)).
  split; [by rewrite Hmap, list_lookup_fmap, Hi|].
  split; [done|]. split; [apply pretty_Z_digits|].
  auto using format_6f_six_decimals.
Qed.

(** ** Scenario B *)

(** C9: the sample of class ["tree_pine"] with the single bbox
    x=10, y=10, width=100, height=50 on a 640x640 image gives one box
    with class id 1, centre (60/640, 35/640) = (0.09375, 0.0546875) and
    size (100/640, 50/640) = (0.15625, 0.078125), rendered as the line
    ["1 0.093750 0.054688 0.156250 0.078125"]. *)
Theorem scenario_B_labels :
  ∃ box : YoloBox,
    sample_to_boxes scenario_B 640 640 = Ok [box] ∧
    class_id box = 1%Z ∧
    (x_center box == 60 / 640)%Q ∧ (x_center box == 9375 # 100000)%Q ∧
    (y_center box == 35 / 640)%Q ∧ (y_center box == 546875 # 10000000)%Q ∧
    (width box == 100 / 640)%Q ∧ (width box == 15625 # 100000)%Q ∧
    (height box == 50 / 640)%Q ∧ (height box == 78125 # 1000000)%Q ∧
    format_yolo_labels [box] = ["1 0.093750 0.054688 0.156250 0.078125"].
Proof.
  exists (mkYoloBox 1 (120 # 1280) (70 # 1280) (100 # 640) (50 # 640)).
  split; [vm_compute; reflexivity|].
  split; [reflexivity|].
  cbn [x_center y_center width height].
  repeat (split; [reflexivity|]).
  vm_compute. reflexivity.
Qed.

(** ** Booleans in numeric fields *)

Lemma as_number_bool (b : bool) :
  as_number (PBool b) = as_number (PInt (Z.b2z b)).
Proof. by destruct b. Qed.

Lemma dict_get_insert (m : gmap string PyVal) (k j : string) (v : PyVal) :
  dict_get (<[k := v]> m) j = if decide (k = j) then v else dict_get m j.
Proof. unfold dict_get. rewrite lookup_insert. by case_decide. Qed.

(** An annotation with [True] or [False] in a numeric field of its own
    is read as the annotation with 1 or 0 there. *)
Lemma annotation_raw_bool_field (m : gmap string PyVal) (k : string) (b : bool)
    (w h : Z) :
  k ≠ "kind" → k ≠ "centerPx" →
  annotation_raw (PDict (<[k := PBool b]> m)) w h
  = annotation_raw (PDict (<[k := PInt (Z.b2z b)]> m)) w h.
Proof.
  intros Hkind Hcenter.
  assert (Hnum : ∀ j, as_number (dict_get (<[k := PBool b]> m) j)
                      = as_number (dict_get (<[k := PInt (Z.b2z b)]> m) j)).
  { intros j. rewrite !dict_get_insert. case_decide; [apply as_number_bool|done]. }
  unfold annotation_raw.
  rewrite !(dict_get_insert m k "kind"), !(dict_get_insert m k "centerPx").
  rewrite !decide_False by done.
  by rewrite !Hnum.
Qed.

(** C10: booleans in the numeric fields of an annotation are taken as
    the numbers 1 and 0 and not skipped: a circle of radius [True]
    inside the frame gives a box of 2 by 2 pixels, the box of the same
    circle with radius 1, and a bbox at ([False], [False]) is the bbox
    at (0, 0). *)
Theorem booleans_are_numbers :
  (∀ b : bool, as_number (PBool b) = Some (inject_Z (Z.b2z b))) ∧
  (∀ (m : gmap string PyVal) (k : string) (b : bool) (w h : Z),
     k ≠ "kind" → k ≠ "centerPx" →
     annotation_raw (PDict (<[k := PBool b]> m)) w h
     = annotation_raw (PDict (<[k := PInt (Z.b2z b)]> m)) w h) ∧
  (∃ box : YoloBox,
     sample_to_boxes
       (make_sample (PStr "tree_pine")
          (PList [circle_annotation (PInt 5) (PInt 5) (PBool true)])) 640 480
     = Ok [box] ∧
     sample_to_boxes
       (make_sample (PStr "tree_pine")
          (PList [circle_annotation (PInt 5) (PInt 5) (PInt 1)])) 640 480
     = Ok [box] ∧
     (width box * 640 == 2)%Q ∧ (height box * 480 == 2)%Q) ∧
  (∃ box : YoloBox,
     sample_to_boxes
       (make_sample (PStr "tree_pine")
          (PList [bbox_annotation (PBool false) (PBool false) (PInt 4) (PInt 6)]))
       640 480
     = Ok [box] ∧
     sample_to_boxes
       (make_sample (PStr "tree_pine")
          (PList [bbox_annotation (PInt 0) (PInt 0) (PInt 4) (PInt 6)])) 640 480
     = Ok [box] ∧
     (x_center box * 640 == 2)%Q ∧ (y_center box * 480 == 3)%Q ∧
     (width box * 640 == 4)%Q ∧ (height box * 480 == 6)%Q).
Proof.
  split; [by intros []|].
  split; [apply annotation_raw_bool_field|].
  split.
  - exists (mkYoloBox 1 (10 # 1280) (10 # 960) (2 # 640) (2 # 480)).
    split; [vm_compute; reflexivity|]. split; [vm_compute; reflexivity|].
    split; reflexivity.
  - exists (mkYoloBox 1 (4 # 1280) (6 # 960) (4 # 640) (6 # 480)).
    split; [vm_compute; reflexivity|]. split; [vm_compute; reflexivity|].
    repeat (split; [reflexivity|]). reflexivity.
Qed.

(** * Further properties of [yolo_labels.py] *)

(** ** [clamp] with any bounds *)

Ltac max_case :=
  match goal with
  | |- context [py_max ?a ?b] =>
      destruct (py_max_cases a b) as [[? ->]|[? ->]]
  end.

Lemma clamp_at_lo (lo hi : Q) : clamp lo lo hi = lo.
Proof.
  unfold clamp.
  destruct (py_min_cases hi lo) as [[? ->]|[? ->]];
    max_case; reflexivity || lra.
Qed.

Lemma clamp_at_hi (lo hi : Q) : (lo < hi)%Q → clamp hi lo hi = hi.
Proof.
  intros ?. unfold clamp.
  destruct (py_min_cases hi hi) as [[? ->]|[? ->]];
    max_case; reflexivity || lra.
Qed.

Lemma clamp_at_mid (v lo hi : Q) : (lo < v < hi)%Q → clamp v lo hi = v.
Proof.
  intros ?. unfold clamp.
  destruct (py_min_cases hi v) as [[? ->]|[? ->]];
    max_case; reflexivity || lra.
Qed.

(** [clamp] answers one of the bounds or the value itself. *)
Lemma clamp_answer (v lo hi : Q) :
  (clamp v lo hi = lo ∧ ((v <= lo)%Q ∨ (hi <= lo)%Q)) ∨
  (clamp v lo hi = hi ∧ (lo < hi <= v)%Q) ∨
  (clamp v lo hi = v ∧ (lo < v < hi)%Q).
Proof.
  unfold clamp.
  destruct (py_min_cases hi v) as [[? ->]|[? ->]];
    max_case; auto.
Qed.

Lemma clamp_twice (v lo hi : Q) :
  clamp (clamp v lo hi) lo hi = clamp v lo hi.
Proof.
  destruct (clamp_answer v lo hi) as [[-> _]|[[-> [? _]]|[-> ?]]].
  - apply clamp_at_lo.
  - by apply clamp_at_hi.
  - by apply clamp_at_mid.
Qed.

Lemma clamp_nonexpansive (a b lo hi : Q) :
  (a <= b)%Q →
  (0 <= clamp b lo hi - clamp a lo hi <= b - a)%Q.
Proof.
  intros ?.
  destruct (clamp_answer a lo hi) as [[-> [?|?]]|[[-> ?]|[-> ?]]];
    destruct (clamp_answer b lo hi) as [[-> [?|?]]|[[-> ?]|[-> ?]]]; lra.
Qed.

(** X1: With the bounds the wrong way round [clamp] answers the lower one,
    whatever the value. *)
Theorem clamp_inverted_bounds (v lo hi : Q) :
  (hi <= lo)%Q → clamp v lo hi = lo.
Proof.
  intros ?.
  destruct (clamp_answer v lo hi) as [[-> _]|[[_ ?]|[_ ?]]]; reflexivity || lra.
Qed.

Lemma clamp_inverted_bounds_witness : clamp 7 3 1 = 3%Q.
Proof. apply clamp_inverted_bounds. unfold Qle. simpl. lia. Defined.

(** ** What [normalize_box] accepts *)

Lemma inject_Z_gt_1 (n : Z) : (1 < inject_Z n)%Q → (2 <= n)%Z.
Proof.
  change 1%Q with (inject_Z 1). rewrite <- Zlt_Qlt. lia.
Qed.

(** X2: Under exact arithmetic, an accepted box is the part of the
    rectangle inside the frame: its edges are the rectangle's, moved
    onto the frame where the rectangle leaves it.  So the box lies
    inside the frame, which is at least two pixels wide and high, and
    is more than one pixel wide and high. *)
Theorem normalize_box_intersection (x0 y0 x1 y1 : Q) (w h : Z)
    (xc yc bw bh : Q) :
  normalize_box x0 y0 x1 y1 w h = Some (xc, yc, bw, bh) →
  (2 <= w)%Z ∧ (2 <= h)%Z ∧
  (1 < bw <= inject_Z w)%Q ∧ (1 < bh <= inject_Z h)%Q ∧
  ((x0 <= 0)%Q ∧ (xc - bw / 2 == 0)%Q ∨ (0 <= x0)%Q ∧ (xc - bw / 2 == x0)%Q) ∧
  ((inject_Z w <= x1)%Q ∧ (xc + bw / 2 == inject_Z w)%Q ∨
   (x1 <= inject_Z w)%Q ∧ (xc + bw / 2 == x1)%Q) ∧
  ((y0 <= 0)%Q ∧ (yc - bh / 2 == 0)%Q ∨ (0 <= y0)%Q ∧ (yc - bh / 2 == y0)%Q) ∧
  ((inject_Z h <= y1)%Q ∧ (yc + bh / 2 == inject_Z h)%Q ∨
   (y1 <= inject_Z h)%Q ∧ (yc + bh / 2 == y1)%Q).
Proof.
  intros Hn.
  destruct (normalize_box_Some_dims _ _ _ _ _ _ _ Hn)
    as [Hw%inject_Z_pos Hh%inject_Z_pos].
  apply normalize_box_Some in Hn as (Hbw & Hbh & [= -> -> -> ->]).
  assert (HW : (0 <= inject_Z w)%Q) by lra.
  assert (HH : (0 <= inject_Z h)%Q) by lra.
  pose proof (clamp_range _ HW x0) as Rx0. pose proof (clamp_range _ HW x1) as Rx1.
  pose proof (clamp_range _ HH y0) as Ry0. pose proof (clamp_range _ HH y1) as Ry1.
  assert (Ew : (1 < inject_Z w)%Q) by lra.
  assert (Eh : (1 < inject_Z h)%Q) by lra.
  split; [by apply inject_Z_gt_1|]. split; [by apply inject_Z_gt_1|].
  split; [lra|]. split; [lra|].
  rewrite !Qhalf.
  destruct (clamp_answer x0 0 (inject_Z w)) as [[Ex0 [?|?]]|[[Ex0 ?]|[Ex0 ?]]];
    destruct (clamp_answer x1 0 (inject_Z w)) as [[Ex1 [?|?]]|[[Ex1 ?]|[Ex1 ?]]];
    rewrite Ex0, Ex1 in *; try lra;
    (split; [|split]; [lra || (left; lra) || (right; lra)
                      |lra || (left; lra) || (right; lra)|]);
    destruct (clamp_answer y0 0 (inject_Z h)) as [[Ey0 [?|?]]|[[Ey0 ?]|[Ey0 ?]]];
    destruct (clamp_answer y1 0 (inject_Z h)) as [[Ey1 [?|?]]|[[Ey1 ?]|[Ey1 ?]]];
    rewrite Ey0, Ey1 in *; try lra;
    (split; [lra || (left; lra) || (right; lra)
            |lra || (left; lra) || (right; lra)]).
Qed.

Lemma normalize_box_intersection_witness :
  ∃ xc yc bw bh : Q,
    normalize_box (-15) (-15) 25 25 640 480 = Some (xc, yc, bw, bh) ∧
    (xc - bw / 2 == 0)%Q ∧ (xc + bw / 2 == 25)%Q.
Proof.
  exists (25 # 2), (25 # 2), 25%Q, 25%Q.
  assert (Hn : normalize_box (-15) (-15) 25 25 640 480
               = Some (25 # 2, 25 # 2, 25%Q, 25%Q)) by reflexivity.
  destruct (normalize_box_intersection _ _ _ _ _ _ _ _ _ _ Hn)
    as (_ & _ & _ & _ & Hleft & Hright & _).
  split; [exact Hn|]. split.
  - destruct Hleft as [[_ Hl]|[Hbad _]]; [exact Hl|].
    exfalso. revert Hbad. unfold Qle. simpl. lia.
  - destruct Hright as [[Hbad _]|[_ Hr]]; [|exact Hr].
    exfalso. revert Hbad. unfold Qle. simpl. lia.
Defined.

(** X3: Clamping the corners beforehand changes nothing. *)
Theorem normalize_box_preclamped (x0 y0 x1 y1 : Q) (w h : Z) :
  normalize_box (clamp x0 0 (inject_Z w)) (clamp y0 0 (inject_Z h))
                (clamp x1 0 (inject_Z w)) (clamp y1 0 (inject_Z h)) w h
  = normalize_box x0 y0 x1 y1 w h.
Proof. unfold normalize_box. by rewrite !clamp_twice. Qed.

Lemma normalize_box_small (x0 y0 x1 y1 : Q) (w h : Z) :
  (x1 - x0 <= 1)%Q ∨ (y1 - y0 <= 1)%Q → normalize_box x0 y0 x1 y1 w h = None.
Proof.
  intros Hsmall. apply normalize_box_None.
  destruct Hsmall as [Hs|Hs]; [left|right].
  - destruct (Qlt_le_dec x1 x0) as [Hrev|Hord].
    + pose proof (clamp_nonexpansive x1 x0 0 (inject_Z w) ltac:(lra)). lra.
    + pose proof (clamp_nonexpansive x0 x1 0 (inject_Z w) Hord). lra.
  - destruct (Qlt_le_dec y1 y0) as [Hrev|Hord].
    + pose proof (clamp_nonexpansive y1 y0 0 (inject_Z h) ltac:(lra)). lra.
    + pose proof (clamp_nonexpansive y0 y1 0 (inject_Z h) Hord). lra.
Qed.


(** ** Resolution *)

Lemma clamp_scale (k v hi : Q) :
  (0 < k)%Q → (clamp (k * v) 0 (k * hi) == k * clamp v 0 hi)%Q.
Proof.
  intros Hk.
  destruct (clamp_answer v 0 hi) as [[-> [?|?]]|[[-> ?]|[-> ?]]];
    destruct (clamp_answer (k * v) 0 (k * hi)) as [[-> [?|?]]|[[-> ?]|[-> ?]]];
    nra.
Qed.

(** X4: Enlarging the image and the corners by the same whole factor keeps
    an accepted box accepted, with the same normalized centre and size:
    the labels do not depend on the resolution the annotation was made
    at. *)
Theorem normalize_box_scale (k : Z) (x0 y0 x1 y1 : Q) (w h cid : Z)
    (raw : Q * Q * Q * Q) :
  (1 <= k)%Z →
  normalize_box x0 y0 x1 y1 w h = Some raw →
  ∃ raw' : Q * Q * Q * Q,
    normalize_box (inject_Z k * x0) (inject_Z k * y0)
                  (inject_Z k * x1) (inject_Z k * y1) (k * w) (k * h)
    = Some raw' ∧
    let box := box_of_raw cid raw w h in
    let box' := box_of_raw cid raw' (k * w) (k * h) in
    class_id box' = class_id box ∧
    (x_center box' == x_center box)%Q ∧ (y_center box' == y_center box)%Q ∧
    (width box' == width box)%Q ∧ (height box' == height box)%Q.
Proof.
  intros Hk Hn.
  destruct (normalize_box_Some_dims _ _ _ _ _ _ _ Hn)
    as [Hw%inject_Z_pos Hh%inject_Z_pos].
  apply normalize_box_Some in Hn as (Hbw & Hbh & ->).
  assert (HK : (1 <= inject_Z k)%Q)
    by (change 1%Q with (inject_Z 1); by rewrite <- Zle_Qle).
  assert (HK0 : (0 < inject_Z k)%Q) by lra.
  pose proof (clamp_scale (inject_Z k) x0 (inject_Z w) HK0) as Sx0.
  pose proof (clamp_scale (inject_Z k) x1 (inject_Z w) HK0) as Sx1.
  pose proof (clamp_scale (inject_Z k) y0 (inject_Z h) HK0) as Sy0.
  pose proof (clamp_scale (inject_Z k) y1 (inject_Z h) HK0) as Sy1.
  rewrite <- inject_Z_mult in Sx0, Sx1, Sy0, Sy1.
  eexists. split.
  - apply normalize_box_Some. split; [|split; [|reflexivity]].
    + rewrite Sx0, Sx1. nra.
    + rewrite Sy0, Sy1. nra.
  - cbn [box_of_raw class_id x_center y_center width height].
    split; [done|].
    rewrite Sx0, Sx1, Sy0, Sy1, !inject_Z_mult.
    repeat split; field; lra.
Qed.

Lemma normalize_box_scale_witness :
  ∃ raw' : Q * Q * Q * Q,
    normalize_box 30 30 330 180 1920 1920 = Some raw' ∧
    (x_center (box_of_raw 1 raw' 1920 1920)
     == x_center (box_of_raw 1 (120 # 2, 70 # 2, 100, 50)%Q 640 640))%Q.
Proof.
  assert (Hn : normalize_box 10 10 110 60 640 640
               = Some (120 # 2, 70 # 2, 100, 50)%Q) by reflexivity.
  destruct (normalize_box_scale 3 10 10 110 60 640 640 1 _ ltac:(lia) Hn)
    as (raw' & Hn' & _ & Hxc & _).
  exists raw'. split; [exact Hn'|exact Hxc].
Defined.

(** ** Annotations that give no box *)

Lemma loop_body_skip (cid w h : Z) (boxes : list YoloBox) (a : PyVal) :
  annotation_raw a w h = None → loop_body cid w h boxes a = Ok boxes.
Proof. unfold loop_body. by intros ->. Qed.

(** On exact numbers an annotation at most one pixel wide or high
    before any clamping never gives a box, whatever the frame and
    whatever its other fields: a bbox with [width <= 1] or
    [height <= 1] (zero and negative sizes among them) and a circle
    with [radiusPx <= 1/2]. *)
Lemma small_annotation_skipped_exact (m : gmap string PyVal) (cid w h : Z)
    (boxes : list YoloBox) :
  (dict_get m "kind" = PStr "bbox" ∧
   ∃ bw bh : Q, as_number (dict_get m "width") = Some bw ∧
                as_number (dict_get m "height") = Some bh ∧
                ((bw <= 1)%Q ∨ (bh <= 1)%Q)) ∨
  (dict_get m "kind" = PStr "circle" ∧
   ∃ r : Q, as_number (dict_get m "radiusPx") = Some r ∧ (r <= 1 # 2)%Q) →
  loop_body cid w h boxes (PDict m) = Ok boxes.
Proof.
  intros Hsmall. apply loop_body_skip. unfold annotation_raw.
  destruct Hsmall as [(-> & bw & bh & -> & -> & Hs)|(-> & r & -> & Hr)]; simpl.
  - repeat case_match; try done.
    apply normalize_box_small. destruct Hs; [left|right]; lra.
  - repeat case_match; try done.
    apply normalize_box_small. left. lra.
Qed.


(** ** Annotations that cover the frame *)


(** ** [sample_to_boxes] as a whole *)

Lemma sample_to_boxes_unhashable (sample : gmap string PyVal) (w h : Z) :
  hashable (dict_get sample "class") = false →
  sample_to_boxes sample w h = Raise TypeError.
Proof.
  unfold sample_to_boxes.
  by destruct (dict_get sample "class").
Qed.

Lemma emitted_box_tiny_frame (cid w h : Z) (a : PyVal) :
  (w <= 1)%Z ∨ (h <= 1)%Z → emitted_box cid w h a = None.
Proof.
  intros Htiny.
  destruct (emitted_box cid w h a) as [box|] eqn:Hbox; [exfalso|done].
  apply emitted_box_inv in Hbox
    as (cx0 & cx1 & cy0 & cy1 & _ & _ & Hx0 & Hx1 & Hy0 & Hy1 & Hbw & Hbh & _).
  assert (Hw : (1 < inject_Z w)%Q) by lra.
  assert (Hh : (1 < inject_Z h)%Q) by lra.
  apply inject_Z_gt_1 in Hw, Hh. lia.
Qed.

Lemma omap_all_None {A B : Type} (f : A → option B) (l : list A) :
  (∀ a, f a = None) → omap f l = [].
Proof.
  intros Hf. induction l as [|a l IH]; csimpl; [done|]. by rewrite Hf, IH.
Qed.

(** On exact numbers an image at most one pixel wide or high (zero and
    negative dimensions among them) gives a sample with a hashable
    class no boxes, whatever its annotations. *)
Lemma sample_to_boxes_tiny_frame_exact (sample : gmap string PyVal) (w h : Z) :
  hashable (dict_get sample "class") = true →
  (w <= 1)%Z ∨ (h <= 1)%Z →
  sample_to_boxes sample w h = Ok [].
Proof.
  intros Hhash Htiny.
  destruct (sample_to_boxes_hashable sample w h Hhash) as [boxes Hok].
  rewrite Hok. f_equal.
  apply sample_to_boxes_Ok_inv in Hok as [->|(c & cid & anns & _ & _ & _ & ->)];
    [done|].
  apply omap_all_None. intros a. by apply emitted_box_tiny_frame.
Qed.

Lemma length_omap_le {A B : Type} (f : A → option B) (l : list A) :
  length (omap f l) ≤ length l.
Proof.
  induction l as [|a l IH]; csimpl; [done|].
  destruct (f a); simpl; lia.
Qed.

(** X11: A sample never gives more boxes than it has annotations, and gives
    none when its annotations are not a list. *)
Theorem sample_to_boxes_length (sample : gmap string PyVal) (w h : Z)
    (boxes : list YoloBox) :
  sample_to_boxes sample w h = Ok boxes →
  match dict_get sample "annotations" with
  | PList anns => length boxes ≤ length anns
  | _ => boxes = []
  end.
Proof.
  intros [->|(c & cid & anns & _ & _ & -> & ->)]%sample_to_boxes_Ok_inv.
  - case_match; simpl; try done. lia.
  - apply length_omap_le.
Qed.

Lemma sample_to_boxes_length_witness :
  ∃ boxes : list YoloBox,
    sample_to_boxes mixed_sample 640 480 = Ok boxes ∧
    length boxes ≤ length mixed_annotations.
Proof.
  destruct (sample_to_boxes_hashable mixed_sample 640 480 eq_refl)
    as [boxes Hok].
  exists boxes. split; [exact Hok|].
  exact (sample_to_boxes_length mixed_sample 640 480 boxes Hok).
Defined.

(** X12: The boxes of a list of annotations are the boxes of its first part
    followed by the boxes of the rest: each annotation is converted on
    its own. *)
Theorem sample_to_boxes_app (sample : gmap string PyVal) (w h : Z)
    (anns1 anns2 : list PyVal) (boxes1 boxes2 : list YoloBox) :
  sample_to_boxes (with_annotations sample anns1) w h = Ok boxes1 →
  sample_to_boxes (with_annotations sample anns2) w h = Ok boxes2 →
  sample_to_boxes (with_annotations sample (anns1 ++ anns2)) w h
  = Ok (boxes1 ++ boxes2).
Proof.
  assert (Hclass : ∀ anns, dict_get (with_annotations sample anns) "class"
                           = dict_get sample "class").
  { intros anns. unfold dict_get, with_annotations. by rewrite lookup_insert_ne. }
  assert (Hanns : ∀ anns, dict_get (with_annotations sample anns) "annotations"
                          = PList anns).
  { intros anns. unfold dict_get, with_annotations. by rewrite lookup_insert_eq. }
  destruct (dict_get sample "class") as [| | | |c| |];
    try (unfold sample_to_boxes; rewrite !Hclass; simpl;
         by intros [= <-] [= <-]).
  destruct (CLASS_NAME_TO_ID !! c) as [cid|] eqn:Hid.
  - rewrite !(sample_to_boxes_registered _ w h c cid) by done.
    rewrite !Hanns. intros [= <-] [= <-]. by rewrite omap_app.
  - unfold sample_to_boxes. rewrite !Hclass. simpl. rewrite Hid.
    repeat case_match; by intros [= <-] [= <-].
Qed.

Lemma sample_to_boxes_app_witness :
  ∃ boxes1 boxes2 : list YoloBox,
    length boxes1 = 1 ∧ length boxes2 = 1 ∧
    sample_to_boxes
      (with_annotations mixed_sample
         ([bbox_annotation (PInt 10) (PInt 10) (PInt 100) (PInt 50); PStr "junk"]
          ++ [circle_annotation (PInt 50) (PInt 40) (PInt 20);
              bbox_annotation (PInt 5) (PInt 5) (PInt 1) (PInt 1)]))
      640 480
    = Ok (boxes1 ++ boxes2).
Proof.
  eexists _, _. split; [|split]; [| |apply sample_to_boxes_app];
    [| |vm_compute; reflexivity|vm_compute; reflexivity]; reflexivity.
Defined.

(** ** The class registry *)

Lemma CLASS_NAME_TO_ID_of_items :
  CLASS_NAME_TO_ID = list_to_map CLASS_NAME_TO_ID_items.
Proof. reflexivity. Qed.

(** X14: The identifiers of the registry are the positions of the names in
    [list(CLASS_NAME_TO_ID.keys())]: a name has identifier [k] exactly
    when it is the [k]-th key, counting from 0.  So the identifiers are
    0, 1, 2, 3 without gaps, no two names share one, and the class list
    of the manifest decodes the class ids of the label files. *)
Theorem registry_ids_are_key_positions (c : string) (k : Z) :
  CLASS_NAME_TO_ID !! c = Some k ↔
  (0 <= k)%Z ∧ CLASS_NAME_TO_ID_keys !! Z.to_nat k = Some c.
Proof.
  rewrite CLASS_NAME_TO_ID_of_items. split.
  - intros Hc%elem_of_list_to_map_2. unfold CLASS_NAME_TO_ID_items in Hc.
    repeat (apply elem_of_cons in Hc as [[= -> ->]|Hc]; [by split|]).
    by apply elem_of_nil in Hc.
  - intros [Hk Hkey]. apply elem_of_list_to_map_1.
    { compute_done. }
    assert (Hlen : Z.to_nat k < 4).
    { apply lookup_lt_Some in Hkey. exact Hkey. }
    assert (k = 0 ∨ k = 1 ∨ k = 2 ∨ k = 3)%Z as [-> | [-> | [-> | ->]]] by lia;
      injection Hkey as <-; set_solver.
Qed.

(** ** The text of the labels *)

Lemma format_yolo_labels_fmap (boxes : list YoloBox) :
  format_yolo_labels boxes = format_line <$> boxes.
Proof. unfold format_yolo_labels. by rewrite fold_left_append. Qed.

Lemma round_half_even_le (q : Q) (n : Z) :
  (q <= inject_Z n)%Q → (round_half_even q <= n)%Z.
Proof.
  intros Hq. destruct (round_half_even_nearest q) as [Hnear _].
  apply Qabs_Qle_condition in Hnear.
  assert (Hlt : (inject_Z (round_half_even q) < inject_Z (n + 1))%Q).
  { rewrite inject_Z_plus. change (inject_Z 1) with 1%Q. lra. }
  rewrite <- Zlt_Qlt in Hlt. lia.
Qed.

(** A value between 0 and 1 is rendered on eight characters: one digit,
    the point and six digits, without a sign. *)
Lemma format_6f_unit_length (q : Q) :
  (0 <= q <= 1)%Q → String.length (format_6f q) = 8.
Proof.
  intros [Hq0 Hq1]. unfold format_6f.
  set (n := round_half_even (Qabs q * inject_Z micro)).
  assert (Hn0 : (0 <= n)%Z).
  { apply round_half_even_nonneg.
    apply Qmult_le_0_compat; [apply Qabs_nonneg | done]. }
  assert (Hn1 : (n <= micro)%Z).
  { apply round_half_even_le. rewrite Qabs_pos by done.
    unfold micro. change (inject_Z 1000000) with 1000000%Q. lra. }
  destruct (Qlt_bool q 0) eqn:Hneg; [apply Qlt_bool_true in Hneg; lra|].
  assert (Hwhole : String.length (pretty (n / micro)%Z) = 1).
  { assert (n / micro = 0 ∨ n / micro = 1)%Z as [-> | ->]; [|done..].
    unfold micro in *.
    destruct (decide (n = 1000000%Z)) as [->|]; [by right|left].
    apply Z.div_small. lia. }
  rewrite !string_length_app, Hwhole, digits_fixed_length. done.
Qed.

Lemma emitted_box_unit (cid w h : Z) (a : PyVal) (box : YoloBox) :
  emitted_box cid w h a = Some box →
  class_id box = cid ∧
  (0 <= x_center box <= 1)%Q ∧ (0 <= y_center box <= 1)%Q ∧
  (0 <= width box <= 1)%Q ∧ (0 <= height box <= 1)%Q.
Proof.
  intros (cx0 & cx1 & cy0 & cy1 & Hw%inject_Z_pos & Hh%inject_Z_pos
          & Hx0 & Hx1 & Hy0 & Hy1 & Hbw & Hbh & ->)%emitted_box_inv.
  cbn [x_center y_center width height class_id].
  assert (Hxc : (0 <= (cx0 + cx1) / 2 <= inject_Z w)%Q) by (rewrite Qhalf; lra).
  assert (Hyc : (0 <= (cy0 + cy1) / 2 <= inject_Z h)%Q) by (rewrite Qhalf; lra).
  split; [done|].
  repeat split; apply Qdiv_unit_range; done || lra.
Qed.

Lemma sample_box_line_length (sample : gmap string PyVal) (w h : Z)
    (boxes : list YoloBox) (box : YoloBox) :
  sample_to_boxes sample w h = Ok boxes →
  box ∈ boxes →
  String.length (format_line box) = 37.
Proof.
  intros Hrun Hbox.
  apply sample_to_boxes_Ok_inv in Hrun
    as [->|(c & cid & anns & _ & Hc & _ & ->)].
  { by apply elem_of_nil in Hbox. }
  apply list_elem_of_omap in Hbox as (a & _ & Hbox).
  apply emitted_box_unit in Hbox as (Hid & Hxc & Hyc & Hbw & Hbh).
  apply registered_id_range in Hc.
  unfold format_line. rewrite !string_length_app.
  rewrite !format_6f_unit_length by done.
  rewrite Hid.
  assert (cid = 0 ∨ cid = 1 ∨ cid = 2 ∨ cid = 3)%Z as [-> | [-> | [-> | ->]]] by lia;
    reflexivity.
Qed.



(** * Properties of [build_yolo_labels] *)

(** ** [find_image_path] *)

Lemma find_image_among_spec (exts : list string) (sample_id : string)
    (images_dir : gmap string image_file) :
  match find_image_among exts sample_id images_dir with
  | Some name =>
      ∃ (i : nat) (ext : string),
        exts !! i = Some ext ∧ name = sample_id +:+ ext ∧
        is_Some (images_dir !! name) ∧
        ∀ (j : nat) (ext' : string),
          j < i → exts !! j = Some ext' →
          images_dir !! (sample_id +:+ ext') = None
  | None =>
      ∀ ext, ext ∈ exts → images_dir !! (sample_id +:+ ext) = None
  end.
Proof.
  induction exts as [|ext exts IH]; simpl.
  - intros ext Hin. by apply elem_of_nil in Hin.
  - case_bool_decide as Hex.
    + exists 0, ext. repeat split; try done. intros j ext' Hj. lia.
    + apply eq_None_not_Some in Hex.
      destruct (find_image_among exts sample_id images_dir) as [name|].
      * destruct IH as (i & ext0 & Hi & -> & Hsome & Hfirst).
        exists (S i), ext0. repeat split; try done.
        intros [|j] ext' Hj Hext'; simpl in Hext'.
        -- by injection Hext' as <-.
        -- apply (Hfirst j); [lia | done].
      * intros ext' [->|Hin]%elem_of_cons; [done | by apply IH].
Qed.

(** X16: [find_image_path] answers the file of the first of the extensions
    [.png], [.jpg], [.jpeg] for which the images directory has a file
    named after the sample, and nothing when it has none of the
    three. *)
Theorem find_image_path_first_match (sample_id : string)
    (images_dir : gmap string image_file) :
  match find_image_path sample_id images_dir with
  | Some name =>
      ∃ (i : nat) (ext : string),
        ALLOWED_IMAGE_EXTS !! i = Some ext ∧ name = sample_id +:+ ext ∧
        is_Some (images_dir !! name) ∧
        ∀ (j : nat) (ext' : string),
          j < i → ALLOWED_IMAGE_EXTS !! j = Some ext' →
          images_dir !! (sample_id +:+ ext') = None
  | None =>
      ∀ ext, ext ∈ ALLOWED_IMAGE_EXTS →
             images_dir !! (sample_id +:+ ext) = None
  end.
Proof. apply find_image_among_spec. Qed.

(** ** The class gate and the label text *)

Lemma py_in_dict_registry (v : PyVal) :
  py_in_dict v CLASS_NAME_TO_ID
  = if hashable v
    then Ok (match v with
             | PStr c => bool_decide (is_Some (CLASS_NAME_TO_ID !! c))
             | _ => false
             end)
    else Raise TypeError.
Proof. by destruct v. Qed.

(** X17: [build_yolo_labels] writes no label file for a sample exactly when
    its class is hashable and neither registered nor the negative
    sentinel: a missing or null class, a number, an ignored class such
    as ["dense_cover"], an unknown name.  Such a sample is left out of
    the data set; the empty answer [sample_to_boxes] has for it is never
    written. *)
Theorem label_text_skips (sample : gmap string PyVal) (w h : Z) :
  label_text sample w h = Ok None ↔
  hashable (dict_get sample "class") = true ∧
  ∀ c, dict_get sample "class" = PStr c →
       CLASS_NAME_TO_ID !! c = None ∧ c ≠ NEGATIVE_CLASS.
Proof.
  unfold label_text. rewrite py_in_dict_registry.
  destruct (dict_get sample "class") as [| | | |c| |] eqn:Hclass; simpl;
    try (split; [done | by intros [[=] _]]);
    try (split; [intros _; split; [done|]; by intros c [=] | done]).
  destruct (CLASS_NAME_TO_ID !! c) as [cid|] eqn:Hc; simpl.
  - destruct (sample_to_boxes sample w h) as [boxes|e]; simpl;
      (split; [done|]); intros [_ Hnone];
      destruct (Hnone c eq_refl) as [Hc' _]; congruence.
  - case_bool_decide as Hneg; simpl.
    + destruct (sample_to_boxes sample w h) as [boxes|e]; simpl;
        (split; [done|]); intros [_ Hnone];
        by destruct (Hnone c eq_refl) as [_ []].
    + split; [|done]. intros _. split; [done|]. by intros c' [= <-].
Qed.

Lemma string_length_0 (s : string) : String.length s = 0 → s = EmptyString.
Proof. by destruct s. Qed.

Lemma str_join_length (sep : string) (k : nat) (l : list string) :
  (∀ s, s ∈ l → String.length s = k) →
  String.length (str_join sep l)
  = length l * k + (length l - 1) * String.length sep.
Proof.
  induction l as [|s l IH]; intros Hk; [done|].
  destruct l as [|s' l].
  - simpl. rewrite (Hk s) by apply list_elem_of_here. lia.
  - change (str_join sep (s :: s' :: l))
      with (s +:+ sep +:+ str_join sep (s' :: l)).
    rewrite !string_length_app, IH, (Hk s).
    + simpl. lia.
    + apply list_elem_of_here.
    + intros s0 Hs0. apply Hk. by apply list_elem_of_further.
Qed.

(** X18: The text written for a sample is the lines of its boxes joined by
    newlines, without one at the end; it has 38 characters for each box
    but one fewer in all, and is empty exactly when the sample has no
    box: a negative sample and a sample whose annotations are all
    skipped leave the same empty file. *)
Theorem label_text_written (sample : gmap string PyVal) (w h : Z)
    (text : string) :
  label_text sample w h = Ok (Some text) →
  ∃ boxes : list YoloBox,
    sample_to_boxes sample w h = Ok boxes ∧
    text = str_join newline (format_line <$> boxes) ∧
    String.length text = 38 * length boxes - 1 ∧
    (text = EmptyString ↔ boxes = []).
Proof.
  unfold label_text. intros Hrun.
  destruct (py_in_dict _ _) as [known|]; [simpl in Hrun|discriminate].
  destruct (negb known && _); [discriminate|].
  destruct (sample_to_boxes sample w h) as [boxes|] eqn:Hboxes;
    [simpl in Hrun|discriminate].
  injection Hrun as <-. rewrite format_yolo_labels_fmap.
  exists boxes. split; [done|]. split; [done|].
  assert (Hlen : String.length (str_join newline (format_line <$> boxes))
                 = 38 * length boxes - 1).
  { rewrite (str_join_length newline 37).
    - rewrite length_fmap. change (String.length newline) with 1. lia.
    - intros line (box & -> & Hbox)%list_elem_of_fmap.
      by apply (sample_box_line_length sample w h boxes). }
  split; [done|]. split.
  - intros Hempty. rewrite Hempty in Hlen. simpl in Hlen.
    destruct boxes; [done | simpl in Hlen; lia].
  - by intros ->.
Qed.

Lemma label_text_written_witness :
  ∃ (text : string) (boxes : list YoloBox),
    label_text mixed_sample 640 480 = Ok (Some text) ∧
    sample_to_boxes mixed_sample 640 480 = Ok boxes ∧
    String.length text = 38 * length boxes - 1.
Proof.
  destruct (label_text mixed_sample 640 480) as [[text|]|] eqn:Hrun;
    try (vm_compute in Hrun; discriminate).
  destruct (label_text_written mixed_sample 640 480 text Hrun)
    as (boxes & Hboxes & _ & Hlen & _).
  exists text, boxes. split; [reflexivity|]. split; [exact Hboxes|exact Hlen].
Defined.

(** ** The label directory *)

Lemma ends_with_app (suffix p : string) : ends_with suffix (p +:+ suffix) = true.
Proof.
  induction p as [|c p IH].
  - change (EmptyString +:+ suffix) with suffix.
    destruct suffix; cbn [ends_with]; by rewrite String.eqb_refl.
  - change (String c p +:+ suffix) with (String c (p +:+ suffix)).
    cbn [ends_with]. by destruct (String.eqb _ _).
Qed.

Lemma string_app_inj_r (p p' t : string) : p +:+ t = p' +:+ t → p = p'.
Proof.
  revert p'. induction p as [|c p IH]; intros [|c' p'] Heq; simpl in Heq.
  - done.
  - apply (f_equal String.length) in Heq.
    rewrite !string_length_app in Heq. simpl in Heq. lia.
  - apply (f_equal String.length) in Heq.
    rewrite !string_length_app in Heq. simpl in Heq. lia.
  - injection Heq as -> Heq. by rewrite (IH p' Heq).
Qed.

Lemma label_for_Some (images_dir : gmap string image_file) (id : string)
    (loaded : option PyVal) (text : string) :
  label_for images_dir (id, loaded) = Returns (Some text) ↔
  ∃ (sample : gmap string PyVal) (p : string) (w h : Z),
    loaded = Some (PDict sample) ∧
    find_image_path id images_dir = Some p ∧
    images_dir !! p = Some (Some (w, h)) ∧
    label_text sample w h = Ok (Some text).
Proof.
  unfold label_for. split.
  - intros Hrun.
    destruct (find_image_path id images_dir) as [p|] eqn:Hp; [|discriminate].
    destruct loaded as [sample|]; [|discriminate].
    destruct (images_dir !! p) as [[[w h]|]|] eqn:Himg; try discriminate.
    destruct sample as [| | | | | |sample]; try discriminate.
    destruct (label_text sample w h) as [[text'|]|] eqn:Htext; try discriminate.
    injection Hrun as <-. by exists sample, p, w, h.
  - intros (sample & p & w & h & -> & -> & -> & ->). done.
Qed.

Lemma build_step_inv (images_dir : gmap string image_file)
    (st st' : build_state) (label : string * option PyVal) :
  build_step images_dir st label = Returns st' →
  (label_for images_dir label = Returns None ∧ st' = st) ∨
  (∃ text, label_for images_dir label = Returns (Some text) ∧
           st' = (<[label.1 +:+ ".txt" := text]> st.1, st.2 ++ [label.1])).
Proof.
  unfold build_step.
  destruct (label_for images_dir label) as [[text|]|]; intros [= <-];
    [right; by exists text | by left].
Qed.

Lemma build_loop_txt (images_dir : gmap string image_file)
    (dir0 : gmap string string) (labels : list (string * option PyVal))
    (st st' : build_state) :
  build_loop images_dir labels st = Returns st' →
  (∀ name, ends_with ".txt" name = true →
           (is_Some (st.1 !! name) ↔ ∃ id, id ∈ st.2 ∧ name = id +:+ ".txt")) ∧
  (∀ name, ends_with ".txt" name = false → st.1 !! name = dir0 !! name) →
  (∀ name, ends_with ".txt" name = true →
           (is_Some (st'.1 !! name) ↔ ∃ id, id ∈ st'.2 ∧ name = id +:+ ".txt")) ∧
  (∀ name, ends_with ".txt" name = false → st'.1 !! name = dir0 !! name).
Proof.
  revert st. induction labels as [|label labels IH]; intros st; simpl.
  { by intros [= <-]. }
  destruct (build_step images_dir st label) as [st1|] eqn:Hstep; [|discriminate].
  intros Hloop [Htxt Hother]. apply (IH st1 Hloop). clear IH Hloop.
  apply build_step_inv in Hstep as [[_ ->]|(text & _ & ->)]; [done|].
  cbn [fst snd]. split.
  - intros name Hname. rewrite lookup_insert_is_Some, (Htxt name Hname). split.
    + intros [<-|[_ (id & Hid & ->)]].
      * exists label.1. split; [|done].
        apply elem_of_app. right. by apply list_elem_of_singleton.
      * exists id. split; [|done]. apply elem_of_app. by left.
    + intros (id & [Hid| ->%list_elem_of_singleton]%elem_of_app & ->).
      * destruct (decide (label.1 +:+ ".txt" = id +:+ ".txt")); [by left|].
        right. split; [done|]. by exists id.
      * by left.
  - intros name Hname. rewrite lookup_insert_ne; [by apply Hother|].
    intros <-. by rewrite ends_with_app in Hname.
Qed.

(** X19: After [build_yolo_labels] the [.txt] files of the label directory
    are the files [<id>.txt] of the returned sample ids and no others:
    no label file of an earlier run survives.  Files of other names are
    left as they were. *)
Theorem build_yolo_labels_txt_files (labels_json : list (string * option PyVal))
    (images_dir : gmap string image_file)
    (labels_yolo_dir dir' : gmap string string) (sample_ids : list string) :
  build_yolo_labels labels_json images_dir labels_yolo_dir
  = Returns (dir', sample_ids) →
  (∀ name, ends_with ".txt" name = true →
           (is_Some (dir' !! name) ↔
            ∃ id, id ∈ sample_ids ∧ name = id +:+ ".txt")) ∧
  (∀ name, ends_with ".txt" name = false →
           dir' !! name = labels_yolo_dir !! name).
Proof.
  unfold build_yolo_labels. intros Hrun.
  apply (build_loop_txt _ labels_yolo_dir) in Hrun; [done|].
  cbn [fst snd]. split.
  - intros name Hname. split.
    + intros [text Hsome]. apply map_lookup_filter_Some in Hsome as [_ Hkeep].
      simpl in Hkeep. congruence.
    + intros (id & Hid & _). by apply elem_of_nil in Hid.
  - intros name Hname. destruct (labels_yolo_dir !! name) as [text|] eqn:Hold.
    + by apply map_lookup_filter_Some_2.
    + apply map_lookup_filter_None_2. by left.
Qed.

Lemma build_yolo_labels_txt_files_witness :
  ∃ (dir' : gmap string string) (sample_ids : list string),
    build_yolo_labels example_labels example_images example_label_dir
    = Returns (dir', sample_ids) ∧
    sample_ids = ["a"; "c"] ∧
    dir' !! "old.txt" = None ∧
    dir' !! "notes.md" = Some "keep".
Proof.
  destruct (build_yolo_labels example_labels example_images example_label_dir)
    as [[dir' sample_ids]|] eqn:Hrun; [|vm_compute in Hrun; discriminate].
  destruct (build_yolo_labels_txt_files _ _ _ _ _ Hrun) as [Htxt Hother].
  assert (Hids : sample_ids = ["a"; "c"]).
  { vm_compute in Hrun. by injection Hrun as _ <-. }
  exists dir', sample_ids. split; [reflexivity|]. split; [exact Hids|]. split.
  - apply eq_None_not_Some. intros Hsome.
    apply (Htxt "old.txt" eq_refl) in Hsome as (id & Hid & Hname).
    rewrite Hids in Hid.
    apply elem_of_cons in Hid as [->|Hid]; [discriminate|].
    apply elem_of_cons in Hid as [->|Hid]; [discriminate|].
    by apply elem_of_nil in Hid.
  - exact (Hother "notes.md" eq_refl).
Defined.

Arguments label_for : simpl never.

Lemma build_loop_files (images_dir : gmap string image_file)
    (labels : list (string * option PyVal)) (st st' : build_state) :
  NoDup labels.*1 →
  build_loop images_dir labels st = Returns st' →
  (∀ name, (∀ id, id ∈ labels.*1 → name ≠ id +:+ ".txt") →
           st'.1 !! name = st.1 !! name) ∧
  (∃ new, st'.2 = st.2 ++ new ∧
          ∀ id, id ∈ new ↔
                ∃ loaded text, (id, loaded) ∈ labels ∧
                  label_for images_dir (id, loaded) = Returns (Some text)) ∧
  (∀ id loaded text,
     (id, loaded) ∈ labels →
     label_for images_dir (id, loaded) = Returns (Some text) →
     st'.1 !! (id +:+ ".txt") = Some text).
Proof.
  revert st. induction labels as [|[id0 l0] labels IH]; intros st Hnodup; simpl.
  { intros [= <-]. split; [done|]. split.
    - exists []. split; [by rewrite app_nil_r|].
      intros id. split; [by intros ?%elem_of_nil|].
      by intros (? & ? & ?%elem_of_nil & _).
    - by intros id loaded text ?%elem_of_nil. }
  apply NoDup_cons in Hnodup as [Hfresh Hnodup].
  destruct (build_step images_dir st (id0, l0)) as [st1|] eqn:Hstep;
    [|discriminate].
  intros Hloop. destruct (IH st1 Hnodup Hloop) as (HA & (new & Hnew & HB) & HC).
  clear IH Hloop.
  assert (Hkeep : st'.1 !! (id0 +:+ ".txt") = st1.1 !! (id0 +:+ ".txt")).
  { apply HA. intros id Hid Heq. apply string_app_inj_r in Heq as ->. done. }
  apply build_step_inv in Hstep as [[Hnone ->]|(text0 & Hsome & ->)];
    cbn [fst snd] in *.
  - split; [|split].
    + intros name Hname. apply HA. intros id Hid. apply Hname. by right.
    + exists new. split; [done|]. intros id. rewrite HB. split.
      * intros (loaded & text & Hin & Hrun). exists loaded, text.
        split; [by right | done].
      * intros (loaded & text & [[= -> ->]|Hin]%elem_of_cons & Hrun);
          [congruence | by exists loaded, text].
    + intros id loaded text [[= -> ->]|Hin]%elem_of_cons Hrun;
        [congruence | by apply (HC id loaded)].
  - split; [|split].
    + intros name Hname. rewrite HA, lookup_insert_ne; [done| |].
      * intros Heq. by apply (Hname id0); [left|].
      * intros id Hid. apply Hname. by right.
    + exists (id0 :: new). split; [by rewrite Hnew, <- app_assoc|].
      intros id. rewrite elem_of_cons, HB. split.
      * intros [->|(loaded & text & Hin & Hrun)].
        -- exists l0, text0. split; [by left | done].
        -- exists loaded, text. split; [by right | done].
      * intros (loaded & text & [[= -> ->]|Hin]%elem_of_cons & Hrun);
          [by left | right; by exists loaded, text].
    + intros id loaded text [[= -> ->]|Hin]%elem_of_cons Hrun.
      * rewrite Hkeep, lookup_insert_eq. congruence.
      * by apply (HC id loaded).
Qed.

(** X20: With label files of distinct stems, a sample id is returned and its
    label file holds [text] exactly when the sample passes every test
    of the loop with that text: its JSON document is an object, an
    image for it is found and can be read, and the class gate lets it
    through.  The file holds the label text of its own sample, made
    with the size of its own image. *)
Theorem build_yolo_labels_files (labels_json : list (string * option PyVal))
    (images_dir : gmap string image_file)
    (labels_yolo_dir dir' : gmap string string) (sample_ids : list string)
    (id text : string) :
  NoDup labels_json.*1 →
  build_yolo_labels labels_json images_dir labels_yolo_dir
  = Returns (dir', sample_ids) →
  (id ∈ sample_ids ∧ dir' !! (id +:+ ".txt") = Some text) ↔
  ∃ (sample : gmap string PyVal) (p : string) (w h : Z),
    (id, Some (PDict sample)) ∈ labels_json ∧
    find_image_path id images_dir = Some p ∧
    images_dir !! p = Some (Some (w, h)) ∧
    label_text sample w h = Ok (Some text).
Proof.
  unfold build_yolo_labels. intros Hnodup Hrun.
  destruct (build_loop_files _ _ _ _ Hnodup Hrun)
    as (_ & (new & Hnew & HB) & HC).
  cbn [fst snd] in *. simpl in Hnew. subst new. split.
  - intros [Hid Htext]. apply HB in Hid as (loaded & text' & Hin & Hfor).
    rewrite (HC id loaded text' Hin Hfor) in Htext. injection Htext as ->.
    apply label_for_Some in Hfor as (sample & p & w & h & -> & Hp & Himg & Ht).
    by exists sample, p, w, h.
  - intros (sample & p & w & h & Hin & Hp & Himg & Ht).
    assert (Hfor : label_for images_dir (id, Some (PDict sample))
                   = Returns (Some text)).
    { apply label_for_Some. by exists sample, p, w, h. }
    split; [apply HB; by exists (Some (PDict sample)), text|].
    by apply (HC id (Some (PDict sample))).
Qed.

Lemma build_yolo_labels_files_witness :
  ∃ (dir' : gmap string string) (sample_ids : list string),
    build_yolo_labels example_labels example_images example_label_dir
    = Returns (dir', sample_ids) ∧
    "a" ∈ sample_ids ∧
    dir' !! "a.txt" = Some "1 0.093750 0.054688 0.156250 0.078125".
Proof.
  destruct (build_yolo_labels example_labels example_images example_label_dir)
    as [[dir' sample_ids]|] eqn:Hrun; [|vm_compute in Hrun; discriminate].
  exists dir', sample_ids. split; [reflexivity|].
  apply (build_yolo_labels_files example_labels example_images
           example_label_dir dir' sample_ids "a"
           "1 0.093750 0.054688 0.156250 0.078125");
    [compute_done | exact Hrun |].
  exists scenario_B, "a.jpg", 640%Z, 640%Z.
  split; [apply list_elem_of_here|].
  split; [reflexivity|]. split; [reflexivity|]. vm_compute. reflexivity.
Defined.

Lemma build_loop_sublist (images_dir : gmap string image_file)
    (labels : list (string * option PyVal)) (st st' : build_state) :
  build_loop images_dir labels st = Returns st' →
  ∃ new, st'.2 = st.2 ++ new ∧ new `sublist_of` labels.*1.
Proof.
  revert st. induction labels as [|label labels IH]; intros st;
    cbn [build_loop].
  { intros [= <-]. exists []. split; [by rewrite app_nil_r | constructor]. }
  destruct (build_step images_dir st label) as [st1|] eqn:Hstep; [|discriminate].
  intros (new & Hnew & Hsub)%IH.
  apply build_step_inv in Hstep as [[_ ->]|(text & _ & ->)]; cbn [fst snd] in *.
  - exists new. split; [done|]. rewrite fmap_cons. by apply sublist_cons.
  - exists (label.1 :: new). split; [by rewrite Hnew, <- app_assoc|].
    rewrite fmap_cons. by apply sublist_skip.
Qed.

(** X21: The returned sample ids are stems of the label files, each at most
    once for each file and in the order of the files: the sorted order
    of the directory listing is kept. *)
Theorem build_yolo_labels_ids_in_order
    (labels_json : list (string * option PyVal))
    (images_dir : gmap string image_file)
    (labels_yolo_dir dir' : gmap string string) (sample_ids : list string) :
  build_yolo_labels labels_json images_dir labels_yolo_dir
  = Returns (dir', sample_ids) →
  sample_ids `sublist_of` labels_json.*1.
Proof.
  unfold build_yolo_labels.
  intros (new & Hnew & Hsub)%build_loop_sublist. simpl in Hnew. by subst.
Qed.

Lemma build_yolo_labels_ids_in_order_witness :
  ["a"; "c"] `sublist_of` example_labels.*1.
Proof.
  apply (build_yolo_labels_ids_in_order example_labels example_images
           example_label_dir
           (list_to_map [("notes.md", "keep"); ("c.txt", EmptyString);
                         ("a.txt", "1 0.093750 0.054688 0.156250 0.078125")])).
  vm_compute. reflexivity.
Defined.

(** * Symmetries of the conversion *)

Lemma clamp_mirror (v hi : Q) :
  (0 <= hi)%Q → (clamp (hi - v) 0 hi == hi - clamp v 0 hi)%Q.
Proof.
  intros ?.
  destruct (clamp_answer v 0 hi) as [[-> [?|?]]|[[-> ?]|[-> ?]]];
    destruct (clamp_answer (hi - v) 0 hi) as [[-> [?|?]]|[[-> ?]|[-> ?]]];
    lra.
Qed.

(** X5: Under exact arithmetic, mirroring the rectangle left to right
    in the frame mirrors the accepted box: the centre moves to its
    mirror image and the size stays. *)
Theorem normalize_box_mirror (x0 y0 x1 y1 : Q) (w h : Z) (xc yc bw bh : Q) :
  normalize_box x0 y0 x1 y1 w h = Some (xc, yc, bw, bh) →
  ∃ xc' bw' : Q,
    normalize_box (inject_Z w - x1) y0 (inject_Z w - x0) y1 w h
    = Some (xc', yc, bw', bh) ∧
    (xc' == inject_Z w - xc)%Q ∧ (bw' == bw)%Q.
Proof.
  intros Hn.
  destruct (normalize_box_Some_dims _ _ _ _ _ _ _ Hn) as [Hw%inject_Z_pos _].
  apply normalize_box_Some in Hn as (Hbw & Hbh & [= -> -> -> ->]).
  assert (HW : (0 <= inject_Z w)%Q) by lra.
  pose proof (clamp_mirror x0 (inject_Z w) HW) as Mx0.
  pose proof (clamp_mirror x1 (inject_Z w) HW) as Mx1.
  do 2 eexists. split.
  - apply normalize_box_Some. split; [|split; [done|reflexivity]].
    rewrite Mx0, Mx1. lra.
  - rewrite Mx0, Mx1. split; [field|ring].
Qed.

Lemma normalize_box_mirror_witness :
  ∃ xc' bw' : Q,
    normalize_box 530 10 630 60 640 640 = Some (xc', 70 # 2, bw', 50)%Q ∧
    (xc' == 640 - (120 # 2))%Q ∧ (bw' == 100)%Q.
Proof.
  assert (Hn : normalize_box 10 10 110 60 640 640
               = Some (120 # 2, 70 # 2, 100, 50)%Q) by reflexivity.
  destruct (normalize_box_mirror _ _ _ _ _ _ _ _ _ _ Hn)
    as (xc' & bw' & Hn' & Hxc & Hbw).
  exists xc', bw'. split; [exact Hn'|]. split; [exact Hxc|exact Hbw].
Defined.

(** X13: The boxes of a sample do not depend on the order of its
    annotations, up to their own order: reordering the annotations
    reorders the boxes and changes nothing else. *)
Theorem sample_to_boxes_permutation (sample : gmap string PyVal) (w h : Z)
    (anns1 anns2 : list PyVal) (boxes1 boxes2 : list YoloBox) :
  anns1 ≡ₚ anns2 →
  sample_to_boxes (with_annotations sample anns1) w h = Ok boxes1 →
  sample_to_boxes (with_annotations sample anns2) w h = Ok boxes2 →
  boxes1 ≡ₚ boxes2.
Proof.
  intros Hperm.
  assert (Hclass : ∀ anns, dict_get (with_annotations sample anns) "class"
                           = dict_get sample "class").
  { intros anns. unfold dict_get, with_annotations. by rewrite lookup_insert_ne. }
  assert (Hanns : ∀ anns, dict_get (with_annotations sample anns) "annotations"
                          = PList anns).
  { intros anns. unfold dict_get, with_annotations. by rewrite lookup_insert_eq. }
  destruct (dict_get sample "class") as [| | | |c| |];
    try (unfold sample_to_boxes; rewrite !Hclass; simpl;
         by intros [= <-] [= <-]).
  destruct (CLASS_NAME_TO_ID !! c) as [cid|] eqn:Hid.
  - rewrite !(sample_to_boxes_registered _ w h c cid) by done.
    rewrite !Hanns. intros [= <-] [= <-]. by rewrite Hperm.
  - unfold sample_to_boxes. rewrite !Hclass. simpl. rewrite Hid.
    repeat case_match; by intros [= <-] [= <-].
Qed.

Lemma sample_to_boxes_permutation_witness :
  ∃ boxes1 boxes2 : list YoloBox,
    sample_to_boxes (with_annotations mixed_sample mixed_annotations) 640 480
    = Ok boxes1 ∧
    sample_to_boxes (with_annotations mixed_sample (reverse mixed_annotations))
                    640 480
    = Ok boxes2 ∧
    boxes1 ≡ₚ boxes2.
Proof.
  destruct (sample_to_boxes_hashable
              (with_annotations mixed_sample mixed_annotations) 640 480 eq_refl)
    as [boxes1 H1].
  destruct (sample_to_boxes_hashable
              (with_annotations mixed_sample (reverse mixed_annotations))
              640 480 eq_refl)
    as [boxes2 H2].
  exists boxes1, boxes2. split; [exact H1|]. split; [exact H2|].
  apply (sample_to_boxes_permutation mixed_sample 640 480
           mixed_annotations (reverse mixed_annotations) boxes1 boxes2);
    [|exact H1|exact H2].
  symmetry. apply reverse_Permutation.
Defined.

(** * The code with ints and floats kept apart *)

(** ** It computes what the exact code computes *)

Lemma inject_Z_add_eq (x y : Z) : (inject_Z x + inject_Z y)%Q = inject_Z (x + y).
Proof. unfold inject_Z, Qplus. simpl. f_equal. lia. Qed.

Lemma inject_Z_sub_eq (x y : Z) : (inject_Z x - inject_Z y)%Q = inject_Z (x - y).
Proof. unfold inject_Z, Qminus, Qplus, Qopp. simpl. f_equal. lia. Qed.

Lemma typed_to_float_Ok (a : Typed.num) (q : Q) :
  Typed.to_float a = Ok q → q = Typed.num_value a.
Proof.
  destruct a as [n|q']; simpl; [|by intros [= <-]].
  by destruct (Typed.fits_float n); intros [= <-].
Qed.

Lemma typed_add_Ok (a b c : Typed.num) :
  Typed.add a b = Ok c →
  Typed.num_value c = (Typed.num_value a + Typed.num_value b)%Q.
Proof.
  unfold Typed.add.
  destruct a as [x|x], b as [y|y]; simpl;
    try (intros [= <-]; simpl; by rewrite inject_Z_add_eq);
    repeat (destruct (Typed.fits_float _); simpl; try discriminate);
    by intros [= <-].
Qed.

Lemma typed_sub_Ok (a b c : Typed.num) :
  Typed.sub a b = Ok c →
  Typed.num_value c = (Typed.num_value a - Typed.num_value b)%Q.
Proof.
  unfold Typed.sub.
  destruct a as [x|x], b as [y|y]; simpl;
    try (intros [= <-]; simpl; by rewrite inject_Z_sub_eq);
    repeat (destruct (Typed.fits_float _); simpl; try discriminate);
    by intros [= <-].
Qed.

Lemma typed_truediv_Ok (a b : Typed.num) (r : Q) :
  Typed.truediv a b = Ok r →
  py_truediv (Typed.num_value a) (Typed.num_value b) = Ok r.
Proof.
  unfold Typed.truediv, py_truediv.
  destruct a as [x|x], b as [y|y]; simpl;
    repeat (destruct (Typed.fits_float _); simpl; try discriminate);
    destruct (Qeq_bool _ 0); try discriminate;
    try (by intros [= <-]).
  by destruct (Qlt_bool _ _); intros [= <-].
Qed.

Lemma typed_py_min_value (a b : Typed.num) :
  Typed.num_value (Typed.py_min a b)
  = py_min (Typed.num_value a) (Typed.num_value b).
Proof. unfold Typed.py_min, py_min, Typed.lt. by destruct (Qlt_bool _ _). Qed.

Lemma typed_py_max_value (a b : Typed.num) :
  Typed.num_value (Typed.py_max a b)
  = py_max (Typed.num_value a) (Typed.num_value b).
Proof. unfold Typed.py_max, py_max, Typed.lt. by destruct (Qlt_bool _ _). Qed.

Lemma typed_clamp_value (v lo hi : Typed.num) :
  Typed.num_value (Typed.clamp v lo hi)
  = clamp (Typed.num_value v) (Typed.num_value lo) (Typed.num_value hi).
Proof.
  unfold Typed.clamp, clamp. by rewrite typed_py_max_value, typed_py_min_value.
Qed.

Lemma typed_normalize_box_Ok (x0 y0 x1 y1 : Typed.num) (w h : Z)
    (r : option (Q * Q * Typed.num * Typed.num)) :
  Typed.normalize_box x0 y0 x1 y1 w h = Ok r →
  normalize_box (Typed.num_value x0) (Typed.num_value y0)
                (Typed.num_value x1) (Typed.num_value y1) w h
  = raw_value <$> r.
Proof.
  unfold Typed.normalize_box, normalize_box.
  set (c0 := Typed.clamp x0 _ _). set (c1 := Typed.clamp x1 _ _).
  set (d0 := Typed.clamp y0 _ _). set (d1 := Typed.clamp y1 _ _).
  change (clamp (Typed.num_value x0) 0 (inject_Z w))
    with (clamp (Typed.num_value x0) (Typed.num_value (Typed.NInt 0))
            (Typed.num_value (Typed.NInt w))).
  change (clamp (Typed.num_value x1) 0 (inject_Z w))
    with (clamp (Typed.num_value x1) (Typed.num_value (Typed.NInt 0))
            (Typed.num_value (Typed.NInt w))).
  change (clamp (Typed.num_value y0) 0 (inject_Z h))
    with (clamp (Typed.num_value y0) (Typed.num_value (Typed.NInt 0))
            (Typed.num_value (Typed.NInt h))).
  change (clamp (Typed.num_value y1) 0 (inject_Z h))
    with (clamp (Typed.num_value y1) (Typed.num_value (Typed.NInt 0))
            (Typed.num_value (Typed.NInt h))).
  rewrite <- !typed_clamp_value. fold c0 c1 d0 d1.
  destruct (Typed.sub c1 c0) as [bw|] eqn:Hbw; [simpl|discriminate].
  destruct (Typed.sub d1 d0) as [bh|] eqn:Hbh; [simpl|discriminate].
  apply typed_sub_Ok in Hbw, Hbh. unfold Typed.le. simpl Typed.num_value at 2 4.
  rewrite <- Hbw, <- Hbh.
  change (inject_Z 1) with 1%Q.
  destruct (Qle_bool (Typed.num_value bw) 1 || Qle_bool (Typed.num_value bh) 1);
    [by intros [= <-]|].
  destruct (Typed.add c0 c1) as [sx|] eqn:Hsx; [simpl|discriminate].
  destruct (Typed.truediv sx _) as [xc|] eqn:Hxc; [simpl|discriminate].
  destruct (Typed.add d0 d1) as [sy|] eqn:Hsy; [simpl|discriminate].
  destruct (Typed.truediv sy _) as [yc|] eqn:Hyc; [simpl|discriminate].
  intros [= <-]. simpl.
  apply typed_add_Ok in Hsx, Hsy.
  apply typed_truediv_Ok in Hxc, Hyc. unfold py_truediv in Hxc, Hyc.
  simpl in Hxc, Hyc. injection Hxc as <-. injection Hyc as <-.
  by rewrite Hsx, Hsy.
Qed.

Lemma typed_as_number_value (v : PyVal) :
  as_number v = Typed.num_value <$> Typed.as_number v.
Proof. destruct v as [|[]| | | | |]; reflexivity. Qed.

Lemma typed_annotation_raw_Ok (a : PyVal) (w h : Z)
    (r : option (Q * Q * Typed.num * Typed.num)) :
  Typed.annotation_raw a w h = Ok r →
  annotation_raw a w h = raw_value <$> r.
Proof.
  unfold Typed.annotation_raw, annotation_raw.
  destruct a as [| | | | | |m]; try by intros [= <-].
  destruct (py_eq_str _ "circle").
  - destruct (dict_get m "centerPx") as [| | | | | |ctr]; try by intros [= <-].
    rewrite !typed_as_number_value.
    destruct (Typed.as_number (dict_get m "radiusPx")) as [r0|]; simpl;
      [|by intros [= <-]].
    destruct (Typed.as_number (dict_get ctr "x")) as [cx|]; simpl;
      [|by intros [= <-]].
    destruct (Typed.as_number (dict_get ctr "y")) as [cy|]; simpl;
      [|by intros [= <-]].
    destruct (Typed.sub cx r0) as [x0|] eqn:Hx0; [simpl|discriminate].
    destruct (Typed.sub cy r0) as [y0|] eqn:Hy0; [simpl|discriminate].
    destruct (Typed.add cx r0) as [x1|] eqn:Hx1; [simpl|discriminate].
    destruct (Typed.add cy r0) as [y1|] eqn:Hy1; [simpl|discriminate].
    apply typed_sub_Ok in Hx0, Hy0. apply typed_add_Ok in Hx1, Hy1.
    rewrite <- Hx0, <- Hy0, <- Hx1, <- Hy1. apply typed_normalize_box_Ok.
  - destruct (py_eq_str _ "bbox"); [|by intros [= <-]].
    rewrite !typed_as_number_value.
    destruct (Typed.as_number (dict_get m "x")) as [x|]; simpl;
      [|by intros [= <-]].
    destruct (Typed.as_number (dict_get m "y")) as [y|]; simpl;
      [|by intros [= <-]].
    destruct (Typed.as_number (dict_get m "width")) as [bw|]; simpl;
      [|by intros [= <-]].
    destruct (Typed.as_number (dict_get m "height")) as [bh|]; simpl;
      [|by intros [= <-]].
    destruct (Typed.add x bw) as [x1|] eqn:Hx1; [simpl|discriminate].
    destruct (Typed.add y bh) as [y1|] eqn:Hy1; [simpl|discriminate].
    apply typed_add_Ok in Hx1, Hy1.
    rewrite <- Hx1, <- Hy1. apply typed_normalize_box_Ok.
Qed.

Lemma typed_make_box_Ok (cid : Z) (raw : Q * Q * Typed.num * Typed.num)
    (w h : Z) (box : YoloBox) :
  Typed.make_box cid raw w h = Ok box →
  make_box cid (raw_value raw) w h = Ok box.
Proof.
  destruct raw as [[[xc yc] bw] bh]. unfold Typed.make_box, make_box, raw_value.
  destruct (Typed.truediv (Typed.NFloat xc) (Typed.NInt w)) as [a|] eqn:Ha;
    [|discriminate].
  destruct (Typed.truediv (Typed.NFloat yc) (Typed.NInt h)) as [b|] eqn:Hb;
    [|discriminate].
  destruct (Typed.truediv bw (Typed.NInt w)) as [c|] eqn:Hc; [|discriminate].
  destruct (Typed.truediv bh (Typed.NInt h)) as [d|] eqn:Hd; [|discriminate].
  apply typed_truediv_Ok in Ha, Hb, Hc, Hd.
  cbn [Typed.num_value] in Ha, Hb, Hc, Hd.
  intros [= <-]. by rewrite Ha, Hb, Hc, Hd.
Qed.

(** Where the typed loop body returns, the exact one returns the same
    list. *)
Lemma typed_loop_body_Ok (cid w h : Z) (boxes boxes' : list YoloBox) (a : PyVal) :
  Typed.loop_body cid w h boxes a = Ok boxes' →
  loop_body cid w h boxes a = Ok boxes'.
Proof.
  unfold Typed.loop_body, loop_body.
  destruct (Typed.annotation_raw a w h) as [r|] eqn:Hraw; [simpl|discriminate].
  rewrite (typed_annotation_raw_Ok _ _ _ _ Hraw).
  destruct r as [raw|]; simpl; [|done].
  destruct (Typed.make_box cid raw w h) as [box|] eqn:Hbox; [simpl|discriminate].
  by rewrite (typed_make_box_Ok _ _ _ _ _ Hbox).
Qed.

Lemma typed_for_each_Ok (cid w h : Z) (anns : list PyVal)
    (boxes boxes' : list YoloBox) :
  for_each (Typed.loop_body cid w h) anns boxes = Ok boxes' →
  for_each (loop_body cid w h) anns boxes = Ok boxes'.
Proof.
  revert boxes. induction anns as [|a anns IH]; intros boxes; simpl; [done|].
  destruct (Typed.loop_body cid w h boxes a) as [boxes1|] eqn:Hstep;
    [simpl|discriminate].
  rewrite (typed_loop_body_Ok _ _ _ _ _ _ Hstep). simpl. apply IH.
Qed.

Lemma typed_sample_to_boxes_Ok (sample : gmap string PyVal) (w h : Z)
    (boxes : list YoloBox) :
  Typed.sample_to_boxes sample w h = Ok boxes →
  sample_to_boxes sample w h = Ok boxes.
Proof.
  unfold Typed.sample_to_boxes, sample_to_boxes.
  destruct (py_in_set _ _) as [ignored|]; [simpl|discriminate].
  destruct (ignored || _); [done|].
  destruct (py_eq_str _ _); [done|].
  destruct (py_lookup _ _) as [[cid|]|]; simpl; try done.
  destruct (dict_get sample "annotations"); try done.
  apply typed_for_each_Ok.
Qed.

(** ** When it returns *)

Lemma fits_float_lt (n : Z) :
  Typed.fits_float n = true ↔ (Z.abs n < Typed.FLOAT_LIMIT)%Z.
Proof. unfold Typed.fits_float. apply Z.ltb_lt. Qed.

Lemma fits_float_small (n : Z) : (Z.abs n <= 2)%Z → Typed.fits_float n = true.
Proof.
  intros Hn. apply fits_float_lt.
  assert (2 < Typed.FLOAT_LIMIT)%Z by (by vm_compute). lia.
Qed.

Lemma fits_float_between (n w : Z) :
  Typed.fits_float w = true → (0 <= n <= w)%Z → Typed.fits_float n = true.
Proof. rewrite !fits_float_lt. lia. Qed.

Lemma typed_to_float_fits (a : Typed.num) :
  num_fits a = true → Typed.to_float a = Ok (Typed.num_value a).
Proof. destruct a as [n|q]; simpl; [by intros ->|done]. Qed.

Lemma typed_add_fits (a b : Typed.num) :
  num_fits a = true → num_fits b = true → ∃ c, Typed.add a b = Ok c.
Proof.
  intros Ha Hb. unfold Typed.add.
  destruct a as [x|x], b as [y|y]; try (by eexists);
    rewrite ?(typed_to_float_fits _ Ha), ?(typed_to_float_fits _ Hb);
    by eexists.
Qed.

Lemma typed_sub_fits (a b : Typed.num) :
  num_fits a = true → num_fits b = true → ∃ c, Typed.sub a b = Ok c.
Proof.
  intros Ha Hb. unfold Typed.sub.
  destruct a as [x|x], b as [y|y]; try (by eexists);
    rewrite ?(typed_to_float_fits _ Ha), ?(typed_to_float_fits _ Hb);
    by eexists.
Qed.

(** A quotient that is not beyond the range of a float is returned. *)
Lemma typed_truediv_ints (x y : Z) :
  ¬ (inject_Z y == 0)%Q →
  (Qabs (inject_Z x / inject_Z y) < inject_Z Typed.FLOAT_LIMIT)%Q →
  ∃ r, Typed.truediv (Typed.NInt x) (Typed.NInt y) = Ok r.
Proof.
  intros Hnz Hsmall. unfold Typed.truediv.
  destruct (Qeq_bool (inject_Z y) 0) eqn:E; [by apply Qeq_bool_iff in E|].
  apply Qlt_bool_true in Hsmall. rewrite Hsmall. by eexists.
Qed.

Lemma typed_truediv_float (q : Q) (b : Typed.num) :
  num_fits b = true → ¬ (Typed.num_value b == 0)%Q →
  ∃ r, Typed.truediv (Typed.NFloat q) b = Ok r.
Proof.
  intros Hb Hnz. unfold Typed.truediv.
  assert (E : Qeq_bool (Typed.num_value b) 0 = false).
  { destruct (Qeq_bool (Typed.num_value b) 0) eqn:E; [|done].
    by apply Qeq_bool_iff in E. }
  destruct b as [y|y]; cbn [Typed.to_float mbind result_bind].
  - simpl in Hb. rewrite Hb. cbn [mbind result_bind].
    cbn [Typed.num_value] in E. rewrite E. by eexists.
  - cbn [Typed.num_value] in E. rewrite E. by eexists.
Qed.

Lemma typed_clamp_answer (v lo hi : Typed.num) :
  Typed.clamp v lo hi = lo ∨ Typed.clamp v lo hi = hi ∨
  (Typed.clamp v lo hi = v ∧
   (Typed.num_value lo < Typed.num_value v < Typed.num_value hi)%Q).
Proof.
  unfold Typed.clamp, Typed.py_max, Typed.py_min, Typed.lt.
  destruct (Qlt_bool (Typed.num_value v) (Typed.num_value hi)) eqn:E1.
  - destruct (Qlt_bool (Typed.num_value lo) (Typed.num_value v)) eqn:E2;
      [|by left].
    apply Qlt_bool_true in E1, E2. right; right. done.
  - destruct (Qlt_bool (Typed.num_value lo) (Typed.num_value hi)); auto.
Qed.

(** Whatever is clamped into a frame that fits a float fits a float,
    and lies in the frame. *)
Lemma typed_clamp_fits (v : Typed.num) (w : Z) :
  Typed.fits_float w = true →
  num_fits (Typed.clamp v (Typed.NInt 0) (Typed.NInt w)) = true.
Proof.
  intros Hw.
  destruct (typed_clamp_answer v (Typed.NInt 0) (Typed.NInt w))
    as [->|[->|[-> [Hlo Hhi]]]]; simpl.
  - by apply fits_float_small.
  - done.
  - destruct v as [n|q]; [|done]. simpl in *.
    change 0%Q with (inject_Z 0) in Hlo. rewrite <- Zlt_Qlt in Hlo, Hhi.
    apply (fits_float_between n w); [done | lia].
Qed.

Lemma typed_clamp_range (v : Typed.num) (w : Z) :
  Typed.fits_float w = true →
  (0 <= Typed.num_value (Typed.clamp v (Typed.NInt 0) (Typed.NInt w))
     < inject_Z Typed.FLOAT_LIMIT)%Q.
Proof.
  intros Hw%fits_float_lt.
  assert (HL : (inject_Z (Z.abs w) < inject_Z Typed.FLOAT_LIMIT)%Q)
    by (by rewrite <- Zlt_Qlt).
  rewrite typed_clamp_value. cbn [Typed.num_value].
  change (inject_Z 0) with 0%Q.
  destruct (Z.le_gt_cases 0 w) as [Hpos|Hneg].
  - assert (HW : (0 <= inject_Z w)%Q)
      by (change 0%Q with (inject_Z 0); by rewrite <- Zle_Qle).
    pose proof (clamp_range _ HW (Typed.num_value v)) as [? ?].
    rewrite Z.abs_eq in HL by done. lra.
  - assert (HW : (inject_Z w <= 0)%Q)
      by (change 0%Q with (inject_Z 0); rewrite <- Zle_Qle; lia).
    rewrite (clamp_degenerate _ _ HW).
    assert (0 <= inject_Z (Z.abs w))%Q
      by (change 0%Q with (inject_Z 0); rewrite <- Zle_Qle; lia).
    lra.
Qed.

Lemma typed_normalize_box_fits (x0 y0 x1 y1 : Typed.num) (w h : Z) :
  Typed.fits_float w = true → Typed.fits_float h = true →
  ∃ r, Typed.normalize_box x0 y0 x1 y1 w h = Ok r.
Proof.
  intros Hw Hh. unfold Typed.normalize_box.
  pose proof (typed_clamp_fits x0 w Hw) as F0.
  pose proof (typed_clamp_fits x1 w Hw) as F1.
  pose proof (typed_clamp_fits y0 h Hh) as G0.
  pose proof (typed_clamp_fits y1 h Hh) as G1.
  pose proof (typed_clamp_range x0 w Hw) as R0.
  pose proof (typed_clamp_range x1 w Hw) as R1.
  pose proof (typed_clamp_range y0 h Hh) as S0.
  pose proof (typed_clamp_range y1 h Hh) as S1.
  set (c0 := Typed.clamp x0 _ _) in *. set (c1 := Typed.clamp x1 _ _) in *.
  set (d0 := Typed.clamp y0 _ _) in *. set (d1 := Typed.clamp y1 _ _) in *.
  destruct (typed_sub_fits c1 c0 F1 F0) as [bw ->].
  destruct (typed_sub_fits d1 d0 G1 G0) as [bh ->].
  cbn [mbind result_bind].
  destruct (Typed.le bw _ || Typed.le bh _); [by eexists|].
  assert (Hhalf : ∀ a b s : Typed.num,
    num_fits a = true → num_fits b = true →
    (0 <= Typed.num_value a < inject_Z Typed.FLOAT_LIMIT)%Q →
    (0 <= Typed.num_value b < inject_Z Typed.FLOAT_LIMIT)%Q →
    Typed.add a b = Ok s → ∃ r, Typed.truediv s (Typed.NInt 2) = Ok r).
  { intros a b s Fa Fb Ra Rb Hs.
    pose proof (typed_add_Ok _ _ _ Hs) as Hv.
    assert (H2 : ¬ (inject_Z 2 == 0)%Q) by (unfold Qeq; simpl; lia).
    destruct s as [n|q].
    - apply typed_truediv_ints; [done|].
      cbn [Typed.num_value] in Hv. rewrite Hv.
      change (inject_Z 2) with 2%Q.
      assert (E : ((Typed.num_value a + Typed.num_value b) / 2 ==
                   (Typed.num_value a + Typed.num_value b) * (1 # 2))%Q)
        by (field).
      rewrite E. rewrite Qabs_pos by lra. lra.
    - apply typed_truediv_float; [by apply fits_float_small | done]. }
  destruct (typed_add_fits c0 c1 F0 F1) as [sx Hsx]. rewrite Hsx.
  cbn [mbind result_bind].
  destruct (Hhalf c0 c1 sx F0 F1 R0 R1 Hsx) as [xc ->].
  cbn [mbind result_bind].
  destruct (typed_add_fits d0 d1 G0 G1) as [sy Hsy]. rewrite Hsy.
  cbn [mbind result_bind].
  destruct (Hhalf d0 d1 sy G0 G1 S0 S1 Hsy) as [yc ->].
  by eexists.
Qed.

Lemma inject_Z_nonzero (w : Z) : (0 < w)%Z → ¬ (inject_Z w == 0)%Q.
Proof. unfold Qeq. simpl. lia. Qed.

(** A quantity of the frame divided by the dimension of the frame. *)
Lemma typed_truediv_dim (a : Typed.num) (w : Z) :
  Typed.fits_float w = true → (0 < w)%Z →
  (0 <= Typed.num_value a <= inject_Z w)%Q →
  ∃ r, Typed.truediv a (Typed.NInt w) = Ok r.
Proof.
  intros Hw Hpos [Ha0 Ha1].
  pose proof (inject_Z_nonzero w Hpos) as Hnz.
  destruct a as [x|q]; [|by apply typed_truediv_float].
  apply typed_truediv_ints; [done|]. cbn [Typed.num_value] in *.
  assert (HW : (0 < inject_Z w)%Q)
    by (change 0%Q with (inject_Z 0); by rewrite <- Zlt_Qlt).
  assert (H1 : (inject_Z x / inject_Z w <= 1)%Q)
    by (apply Qle_shift_div_r; [done | lra]).
  assert (H0 : (0 <= inject_Z x / inject_Z w)%Q)
    by (apply Qle_shift_div_l; [done | lra]).
  assert (HL : (1 < inject_Z Typed.FLOAT_LIMIT)%Q).
  { change 1%Q with (inject_Z 1). rewrite <- Zlt_Qlt. by vm_compute. }
  rewrite Qabs_pos by done. lra.
Qed.

Lemma typed_make_box_fits (cid : Z) (raw : Q * Q * Typed.num * Typed.num)
    (x0 y0 x1 y1 : Typed.num) (w h : Z) :
  Typed.normalize_box x0 y0 x1 y1 w h = Ok (Some raw) →
  Typed.fits_float w = true → Typed.fits_float h = true →
  ∃ box, Typed.make_box cid raw w h = Ok box.
Proof.
  intros Hn Hw Hh.
  pose proof (typed_normalize_box_Ok _ _ _ _ _ _ _ Hn) as He. simpl in He.
  pose proof (normalize_box_Some_dims _ _ _ _ _ _ _ He) as [Hwpos Hhpos].
  apply normalize_box_Some in He as (Hbw & Hbh & Eraw).
  destruct raw as [[[xc yc] bw] bh]. unfold raw_value in Eraw.
  injection Eraw as _ _ Ebw Ebh.
  assert (HW : (0 <= inject_Z w)%Q)
    by (change 0%Q with (inject_Z 0); rewrite <- Zle_Qle; lia).
  assert (HH : (0 <= inject_Z h)%Q)
    by (change 0%Q with (inject_Z 0); rewrite <- Zle_Qle; lia).
  pose proof (clamp_range _ HW (Typed.num_value x0)) as [? ?].
  pose proof (clamp_range _ HW (Typed.num_value x1)) as [? ?].
  pose proof (clamp_range _ HH (Typed.num_value y0)) as [? ?].
  pose proof (clamp_range _ HH (Typed.num_value y1)) as [? ?].
  unfold Typed.make_box.
  destruct (typed_truediv_float xc (Typed.NInt w)) as [a ->];
    [done | by apply inject_Z_nonzero |].
  destruct (typed_truediv_float yc (Typed.NInt h)) as [b ->];
    [done | by apply inject_Z_nonzero |].
  destruct (typed_truediv_dim bw w Hw Hwpos) as [c ->]; [rewrite Ebw; lra|].
  destruct (typed_truediv_dim bh h Hh Hhpos) as [d ->]; [rewrite Ebh; lra|].
  by eexists.
Qed.

Lemma typed_as_number_fits (m : gmap string PyVal) (k : string) (a : Typed.num) :
  (∀ k n, dict_get m k = PInt n → Typed.fits_float n = true) →
  Typed.as_number (dict_get m k) = Some a → num_fits a = true.
Proof.
  intros Hm. destruct (dict_get m k) as [|b|n|q| | |] eqn:E; simpl;
    try done; intros [= <-]; simpl.
  - destruct b; by apply fits_float_small.
  - by apply (Hm k).
  - done.
Qed.

(** The corners an accepted annotation hands to [normalize_box]. *)
Lemma typed_annotation_raw_corners (a : PyVal) (w h : Z)
    (raw : Q * Q * Typed.num * Typed.num) :
  Typed.annotation_raw a w h = Ok (Some raw) →
  ∃ x0 y0 x1 y1, Typed.normalize_box x0 y0 x1 y1 w h = Ok (Some raw).
Proof.
  unfold Typed.annotation_raw.
  destruct a as [| | | | | |m]; try discriminate.
  destruct (py_eq_str (dict_get m "kind") "circle").
  - destruct (dict_get m "centerPx") as [| | | | | |ctr]; try discriminate;
      try (destruct (Typed.as_number (dict_get m "radiusPx")); discriminate).
    destruct (Typed.as_number (dict_get m "radiusPx")) as [r|]; [|discriminate].
    destruct (Typed.as_number (dict_get ctr "x")) as [cx|]; [|discriminate].
    destruct (Typed.as_number (dict_get ctr "y")) as [cy|]; [|discriminate].
    destruct (Typed.sub cx r) as [x0|]; [|discriminate].
    destruct (Typed.sub cy r) as [y0|]; [|discriminate].
    destruct (Typed.add cx r) as [x1|]; [|discriminate].
    destruct (Typed.add cy r) as [y1|]; [|discriminate].
    cbn [mbind result_bind]. eauto.
  - destruct (py_eq_str (dict_get m "kind") "bbox"); [|discriminate].
    destruct (Typed.as_number (dict_get m "x")) as [x|]; [|discriminate].
    destruct (Typed.as_number (dict_get m "y")) as [y|]; [|discriminate].
    destruct (Typed.as_number (dict_get m "width")) as [bw|]; [|discriminate].
    destruct (Typed.as_number (dict_get m "height")) as [bh|]; [|discriminate].
    destruct (Typed.add x bw) as [x1|]; [|discriminate].
    destruct (Typed.add y bh) as [y1|]; [|discriminate].
    cbn [mbind result_bind]. eauto.
Qed.

Lemma typed_annotation_raw_fits (a : PyVal) (w h : Z) :
  float_safe a →
  Typed.fits_float w = true → Typed.fits_float h = true →
  ∃ r, Typed.annotation_raw a w h = Ok r.
Proof.
  intros Hsafe Hw Hh. unfold Typed.annotation_raw.
  destruct a as [| | | | | |m]; try by eexists.
  destruct Hsafe as [Hm Hc].
  destruct (py_eq_str (dict_get m "kind") "circle").
  - destruct (dict_get m "centerPx") as [| | | | | |ctr] eqn:Hctr;
      try (by eexists);
      try (destruct (Typed.as_number (dict_get m "radiusPx")); by eexists).
    destruct (Typed.as_number (dict_get m "radiusPx")) as [r|] eqn:Hr;
      [|by eexists].
    destruct (Typed.as_number (dict_get ctr "x")) as [cx|] eqn:Hcx;
      [|by eexists].
    destruct (Typed.as_number (dict_get ctr "y")) as [cy|] eqn:Hcy;
      [|by eexists].
    pose proof (typed_as_number_fits m _ _ Hm Hr) as Fr.
    pose proof (typed_as_number_fits ctr _ _ (λ k n, Hc ctr k n eq_refl) Hcx) as Fcx.
    pose proof (typed_as_number_fits ctr _ _ (λ k n, Hc ctr k n eq_refl) Hcy) as Fcy.
    destruct (typed_sub_fits cx r Fcx Fr) as [x0 ->].
    destruct (typed_sub_fits cy r Fcy Fr) as [y0 ->].
    destruct (typed_add_fits cx r Fcx Fr) as [x1 ->].
    destruct (typed_add_fits cy r Fcy Fr) as [y1 ->].
    cbn [mbind result_bind]. by apply typed_normalize_box_fits.
  - destruct (py_eq_str (dict_get m "kind") "bbox"); [|by eexists].
    destruct (Typed.as_number (dict_get m "x")) as [x|] eqn:Hx; [|by eexists].
    destruct (Typed.as_number (dict_get m "y")) as [y|] eqn:Hy; [|by eexists].
    destruct (Typed.as_number (dict_get m "width")) as [bw|] eqn:Hbw;
      [|by eexists].
    destruct (Typed.as_number (dict_get m "height")) as [bh|] eqn:Hbh;
      [|by eexists].
    pose proof (typed_as_number_fits m _ _ Hm Hx) as Fx.
    pose proof (typed_as_number_fits m _ _ Hm Hy) as Fy.
    pose proof (typed_as_number_fits m _ _ Hm Hbw) as Fbw.
    pose proof (typed_as_number_fits m _ _ Hm Hbh) as Fbh.
    destruct (typed_add_fits x bw Fx Fbw) as [x1 ->].
    destruct (typed_add_fits y bh Fy Fbh) as [y1 ->].
    cbn [mbind result_bind]. by apply typed_normalize_box_fits.
Qed.

(** Once the corners are computed the loop body computes what it
    computes on exact numbers. *)
Lemma typed_loop_body_of_raw (cid w h : Z) (boxes : list YoloBox) (a : PyVal)
    (r : option (Q * Q * Typed.num * Typed.num)) :
  Typed.annotation_raw a w h = Ok r →
  Typed.fits_float w = true → Typed.fits_float h = true →
  Typed.loop_body cid w h boxes a = loop_body cid w h boxes a.
Proof.
  intros Hraw Hw Hh.
  assert (Hruns : ∃ boxes', Typed.loop_body cid w h boxes a = Ok boxes').
  { unfold Typed.loop_body. rewrite Hraw. cbn [mbind result_bind].
    destruct r as [raw|]; [|by eexists].
    destruct (typed_annotation_raw_corners _ _ _ _ Hraw)
      as (x0 & y0 & x1 & y1 & Hn).
    destruct (typed_make_box_fits cid raw _ _ _ _ w h Hn Hw Hh) as [box ->].
    by eexists. }
  destruct Hruns as [boxes' Hrun]. rewrite Hrun.
  symmetry. by apply typed_loop_body_Ok.
Qed.

(** With every integer in the range of a float the loop body computes
    what it computes on exact numbers. *)
Lemma typed_loop_body_safe (cid w h : Z) (boxes : list YoloBox) (a : PyVal) :
  float_safe a →
  Typed.fits_float w = true → Typed.fits_float h = true →
  Typed.loop_body cid w h boxes a = loop_body cid w h boxes a.
Proof.
  intros Hsafe Hw Hh.
  destruct (typed_annotation_raw_fits a w h Hsafe Hw Hh) as [r Hraw].
  by apply (typed_loop_body_of_raw cid w h boxes a r).
Qed.

Lemma typed_for_each_safe (cid w h : Z) (anns : list PyVal)
    (boxes : list YoloBox) :
  Forall float_safe anns →
  Typed.fits_float w = true → Typed.fits_float h = true →
  for_each (Typed.loop_body cid w h) anns boxes
  = for_each (loop_body cid w h) anns boxes.
Proof.
  intros Hsafe Hw Hh. revert boxes.
  induction Hsafe as [|a anns Ha _ IH]; intros boxes; simpl; [done|].
  rewrite (typed_loop_body_safe cid w h boxes a Ha Hw Hh).
  destruct (loop_body cid w h boxes a); simpl; [apply IH | done].
Qed.

Lemma typed_sample_to_boxes_safe (sample : gmap string PyVal) (w h : Z) :
  Typed.fits_float w = true → Typed.fits_float h = true →
  (∀ anns, dict_get sample "annotations" = PList anns →
           Forall float_safe anns) →
  Typed.sample_to_boxes sample w h = sample_to_boxes sample w h.
Proof.
  intros Hw Hh Hsafe. unfold Typed.sample_to_boxes, sample_to_boxes.
  destruct (py_in_set _ _) as [ignored|]; [simpl|done].
  destruct (ignored || is_none _); [done|].
  destruct (py_eq_str _ _); [done|].
  destruct (py_lookup _ _) as [[cid|]|]; simpl; try done.
  destruct (dict_get sample "annotations") as [| | | | |anns|]; try done.
  apply typed_for_each_safe; auto.
Qed.

(** ** What it raises *)

Lemma typed_to_float_Raise (a : Typed.num) (e : exn) :
  Typed.to_float a = Raise e → e = OverflowError.
Proof.
  destruct a as [n|q]; simpl; [|discriminate].
  destruct (Typed.fits_float n); [discriminate | by intros [= <-]].
Qed.

Lemma typed_add_Raise (a b : Typed.num) (e : exn) :
  Typed.add a b = Raise e → e = OverflowError.
Proof.
  unfold Typed.add. destruct a as [x|x], b as [y|y]; try discriminate.
  - destruct (Typed.to_float (Typed.NInt x)) eqn:E; [discriminate|].
    intros [= <-]. by apply typed_to_float_Raise in E.
  - destruct (Typed.to_float (Typed.NInt y)) eqn:E; [discriminate|].
    intros [= <-]. by apply typed_to_float_Raise in E.
Qed.

Lemma typed_sub_Raise (a b : Typed.num) (e : exn) :
  Typed.sub a b = Raise e → e = OverflowError.
Proof.
  unfold Typed.sub. destruct a as [x|x], b as [y|y]; try discriminate.
  - destruct (Typed.to_float (Typed.NInt x)) eqn:E; [discriminate|].
    intros [= <-]. by apply typed_to_float_Raise in E.
  - destruct (Typed.to_float (Typed.NInt y)) eqn:E; [discriminate|].
    intros [= <-]. by apply typed_to_float_Raise in E.
Qed.

(** A division raises [ZeroDivisionError] for a zero divisor only. *)
Lemma typed_truediv_Raise (a b : Typed.num) (e : exn) :
  Typed.truediv a b = Raise e →
  ¬ (Typed.num_value b == 0)%Q → e = OverflowError.
Proof.
  intros Hdiv Hnz.
  assert (E : Qeq_bool (Typed.num_value b) 0 = false).
  { destruct (Qeq_bool (Typed.num_value b) 0) eqn:E; [|done].
    by apply Qeq_bool_iff in E. }
  unfold Typed.truediv in Hdiv.
  destruct a as [x|x], b as [y|y]; cbn [Typed.num_value] in E.
  - rewrite E in Hdiv. destruct (Qlt_bool _ _); [discriminate|].
    by injection Hdiv as <-.
  - destruct (Typed.to_float (Typed.NInt x)) eqn:Ex;
      [|injection Hdiv as <-; by apply typed_to_float_Raise in Ex].
    cbn [Typed.to_float mbind result_bind] in Hdiv. by rewrite E in Hdiv.
  - cbn [Typed.to_float mbind result_bind] in Hdiv.
    destruct (Typed.fits_float y); cbn [mbind result_bind] in Hdiv;
      [by rewrite E in Hdiv | by injection Hdiv as <-].
  - cbn [Typed.to_float mbind result_bind] in Hdiv. by rewrite E in Hdiv.
Qed.

Lemma typed_normalize_box_Raise (x0 y0 x1 y1 : Typed.num) (w h : Z) (e : exn) :
  Typed.normalize_box x0 y0 x1 y1 w h = Raise e → e = OverflowError.
Proof.
  unfold Typed.normalize_box.
  assert (H2 : ¬ (Typed.num_value (Typed.NInt 2) == 0)%Q)
    by (by apply inject_Z_nonzero).
  destruct (Typed.sub (Typed.clamp x1 _ _) _) as [bw|] eqn:Ebw;
    [|cbn [mbind result_bind]; intros [= <-]; by apply typed_sub_Raise in Ebw].
  destruct (Typed.sub (Typed.clamp y1 _ _) _) as [bh|] eqn:Ebh;
    [|cbn [mbind result_bind]; intros [= <-]; by apply typed_sub_Raise in Ebh].
  cbn [mbind result_bind]. destruct (_ || _); [discriminate|].
  destruct (Typed.add (Typed.clamp x0 _ _) _) as [sx|] eqn:Esx;
    [|cbn [mbind result_bind]; intros [= <-]; by apply typed_add_Raise in Esx].
  cbn [mbind result_bind].
  destruct (Typed.truediv sx _) as [xc|] eqn:Exc;
    [|cbn [mbind result_bind]; intros [= <-]; by apply typed_truediv_Raise in Exc].
  cbn [mbind result_bind].
  destruct (Typed.add (Typed.clamp y0 _ _) _) as [sy|] eqn:Esy;
    [|cbn [mbind result_bind]; intros [= <-]; by apply typed_add_Raise in Esy].
  cbn [mbind result_bind].
  destruct (Typed.truediv sy _) as [yc|] eqn:Eyc;
    [|cbn [mbind result_bind]; intros [= <-]; by apply typed_truediv_Raise in Eyc].
  discriminate.
Qed.

Lemma typed_annotation_raw_Raise (a : PyVal) (w h : Z) (e : exn) :
  Typed.annotation_raw a w h = Raise e → e = OverflowError.
Proof.
  unfold Typed.annotation_raw.
  destruct a as [| | | | | |m]; try discriminate.
  destruct (py_eq_str (dict_get m "kind") "circle").
  - destruct (dict_get m "centerPx") as [| | | | | |ctr]; try discriminate;
      try (destruct (Typed.as_number (dict_get m "radiusPx")); discriminate).
    destruct (Typed.as_number (dict_get m "radiusPx")) as [r|]; [|discriminate].
    destruct (Typed.as_number (dict_get ctr "x")) as [cx|]; [|discriminate].
    destruct (Typed.as_number (dict_get ctr "y")) as [cy|]; [|discriminate].
    destruct (Typed.sub cx r) as [x0|] eqn:E0;
      [|cbn [mbind result_bind]; intros [= <-]; by apply typed_sub_Raise in E0].
    destruct (Typed.sub cy r) as [y0|] eqn:E1;
      [|cbn [mbind result_bind]; intros [= <-]; by apply typed_sub_Raise in E1].
    destruct (Typed.add cx r) as [x1|] eqn:E2;
      [|cbn [mbind result_bind]; intros [= <-]; by apply typed_add_Raise in E2].
    destruct (Typed.add cy r) as [y1|] eqn:E3;
      [|cbn [mbind result_bind]; intros [= <-]; by apply typed_add_Raise in E3].
    cbn [mbind result_bind]. apply typed_normalize_box_Raise.
  - destruct (py_eq_str (dict_get m "kind") "bbox"); [|discriminate].
    destruct (Typed.as_number (dict_get m "x")) as [x|]; [|discriminate].
    destruct (Typed.as_number (dict_get m "y")) as [y|]; [|discriminate].
    destruct (Typed.as_number (dict_get m "width")) as [bw|]; [|discriminate].
    destruct (Typed.as_number (dict_get m "height")) as [bh|]; [|discriminate].
    destruct (Typed.add x bw) as [x1|] eqn:E0;
      [|cbn [mbind result_bind]; intros [= <-]; by apply typed_add_Raise in E0].
    destruct (Typed.add y bh) as [y1|] eqn:E1;
      [|cbn [mbind result_bind]; intros [= <-]; by apply typed_add_Raise in E1].
    cbn [mbind result_bind]. apply typed_normalize_box_Raise.
Qed.

Lemma typed_make_box_Raise (cid : Z) (raw : Q * Q * Typed.num * Typed.num)
    (w h : Z) (e : exn) :
  (0 < w)%Z → (0 < h)%Z →
  Typed.make_box cid raw w h = Raise e → e = OverflowError.
Proof.
  intros Hw%inject_Z_nonzero Hh%inject_Z_nonzero.
  destruct raw as [[[xc yc] bw] bh]. unfold Typed.make_box.
  destruct (Typed.truediv (Typed.NFloat xc) _) as [a|] eqn:Ea;
    [|cbn [mbind result_bind]; intros [= <-]; by apply typed_truediv_Raise in Ea].
  destruct (Typed.truediv (Typed.NFloat yc) _) as [b|] eqn:Eb;
    [|cbn [mbind result_bind]; intros [= <-]; by apply typed_truediv_Raise in Eb].
  destruct (Typed.truediv bw _) as [c|] eqn:Ec;
    [|cbn [mbind result_bind]; intros [= <-]; by apply typed_truediv_Raise in Ec].
  destruct (Typed.truediv bh _) as [d|] eqn:Ed;
    [|cbn [mbind result_bind]; intros [= <-]; by apply typed_truediv_Raise in Ed].
  discriminate.
Qed.

(** The loop body raises nothing but [OverflowError]: the divisions by
    the dimensions come after a box was accepted, in a frame with
    extent. *)
Lemma typed_loop_body_Raise (cid w h : Z) (boxes : list YoloBox) (a : PyVal)
    (e : exn) :
  Typed.loop_body cid w h boxes a = Raise e → e = OverflowError.
Proof.
  unfold Typed.loop_body.
  destruct (Typed.annotation_raw a w h) as [[raw|]|] eqn:Hraw;
    cbn [mbind result_bind]; [|discriminate|].
  - destruct (typed_annotation_raw_corners _ _ _ _ Hraw)
      as (x0 & y0 & x1 & y1 & Hn).
    apply typed_normalize_box_Ok in Hn. simpl in Hn.
    apply normalize_box_Some_dims in Hn as [Hw Hh].
    destruct (Typed.make_box cid raw w h) as [box|] eqn:Hbox; [discriminate|].
    intros [= <-]. by apply typed_make_box_Raise in Hbox.
  - intros [= <-]. by apply typed_annotation_raw_Raise in Hraw.
Qed.

Lemma typed_for_each_Raise (cid w h : Z) (anns : list PyVal)
    (boxes : list YoloBox) (e : exn) :
  for_each (Typed.loop_body cid w h) anns boxes = Raise e →
  e = OverflowError ∧
  ∃ a boxes', a ∈ anns ∧ Typed.loop_body cid w h boxes' a = Raise OverflowError.
Proof.
  revert boxes. induction anns as [|a anns IH]; intros boxes; simpl;
    [discriminate|].
  destruct (Typed.loop_body cid w h boxes a) as [boxes1|e1] eqn:Hstep;
    cbn [mbind result_bind].
  - intros Hrest. destruct (IH _ Hrest) as (-> & a' & boxes' & Hin & Ha').
    split; [done|]. exists a', boxes'. split; [by right | done].
  - intros [= <-]. pose proof (typed_loop_body_Raise _ _ _ _ _ _ Hstep) as ->.
    split; [done|]. exists a, boxes. split; [by left | done].
Qed.

Lemma typed_as_number_None (v : PyVal) :
  as_number v = None → Typed.as_number v = None.
Proof. by destruct v. Qed.

(** The annotations that are not objects or lack a required field never
    reach the arithmetic. *)
Lemma typed_malformed_skipped (a : PyVal) (w h : Z) :
  malformed a → Typed.annotation_raw a w h = Ok None.
Proof.
  intros [b Hnot|m Hc Hb|m Hkind Hctr|m ctr Hkind Hctr Hxy|m Hkind Hr|m Hkind Hf];
    unfold Typed.annotation_raw.
  - destruct b; try done. by destruct (Hnot m).
  - destruct (dict_get m "kind") as [| | | |kind| |]; try done.
    simpl. repeat case_decide; by subst.
  - rewrite Hkind. simpl.
    destruct (dict_get m "centerPx") as [| | | | | |ctr]; try done.
    by destruct (Hctr ctr).
  - rewrite Hkind, Hctr. simpl.
    destruct (Typed.as_number (dict_get m "radiusPx")); [|done].
    destruct Hxy as [->%typed_as_number_None | ->%typed_as_number_None];
      [done|]. by case_match.
  - rewrite Hkind, (typed_as_number_None _ Hr). simpl. by case_match.
  - rewrite Hkind. simpl.
    destruct Hf as [->%typed_as_number_None | [->%typed_as_number_None
                   | [->%typed_as_number_None | ->%typed_as_number_None]]];
      by repeat case_match.
Qed.

(** * Exceptions and order of [sample_to_boxes] *)

Lemma typed_loop_body_malformed (cid w h : Z) (boxes : list YoloBox) (bad : PyVal) :
  malformed bad → Typed.loop_body cid w h boxes bad = Ok boxes.
Proof.
  intros Hbad. unfold Typed.loop_body.
  by rewrite (typed_malformed_skipped bad w h Hbad).
Qed.

Lemma typed_for_each_malformed (cid w h : Z) (before after : list PyVal)
    (bad : PyVal) (boxes : list YoloBox) :
  malformed bad →
  for_each (Typed.loop_body cid w h) (before ++ bad :: after) boxes
  = for_each (Typed.loop_body cid w h) (before ++ after) boxes.
Proof.
  intros Hbad. revert boxes.
  induction before as [|a before IH]; intros boxes; simpl.
  - by rewrite (typed_loop_body_malformed cid w h boxes bad Hbad).
  - destruct (Typed.loop_body cid w h boxes a); simpl; [apply IH | done].
Qed.

Lemma dict_get_with_annotations_class (sample : gmap string PyVal)
    (anns : list PyVal) :
  dict_get (with_annotations sample anns) "class" = dict_get sample "class".
Proof. unfold dict_get, with_annotations. by rewrite lookup_insert_ne. Qed.

Lemma dict_get_with_annotations (sample : gmap string PyVal)
    (anns : list PyVal) :
  dict_get (with_annotations sample anns) "annotations" = PList anns.
Proof. unfold dict_get, with_annotations. by rewrite lookup_insert_eq. Qed.

Lemma typed_sample_to_boxes_hashable (sample : gmap string PyVal) (w h : Z) :
  hashable (dict_get sample "class") = true →
  Typed.fits_float w = true → Typed.fits_float h = true →
  (∀ anns, dict_get sample "annotations" = PList anns →
           Forall float_safe anns) →
  ∃ boxes, Typed.sample_to_boxes sample w h = Ok boxes.
Proof.
  intros Hhash Hw Hh Hsafe.
  rewrite (typed_sample_to_boxes_safe sample w h Hw Hh Hsafe).
  by apply sample_to_boxes_hashable.
Qed.

(** C5, as the code has it: when the class field is absent or holds a
    hashable value (null, a boolean, a number or a string), no integer
    of an annotation is beyond the range of a float and neither are the
    image dimensions, [sample_to_boxes] returns a list.  A malformed
    annotation adds nothing, and the annotations before and after it
    do what they do without it, whatever they are. *)
Theorem sample_to_boxes_skips_malformed (sample : gmap string PyVal) (w h : Z) :
  (hashable (dict_get sample "class") = true →
   Typed.fits_float w = true → Typed.fits_float h = true →
   (∀ anns, dict_get sample "annotations" = PList anns →
            Forall float_safe anns) →
   ∃ boxes, Typed.sample_to_boxes sample w h = Ok boxes) ∧
  (∀ cid boxes bad,
     malformed bad → Typed.loop_body cid w h boxes bad = Ok boxes) ∧
  (∀ before bad after,
     malformed bad →
     dict_get sample "annotations" = PList (before ++ bad :: after) →
     Typed.sample_to_boxes sample w h
     = Typed.sample_to_boxes (with_annotations sample (before ++ after)) w h).
Proof.
  split; [apply typed_sample_to_boxes_hashable|].
  split; [intros cid boxes bad; apply typed_loop_body_malformed|].
  intros before bad after Hbad Hanns. unfold Typed.sample_to_boxes.
  rewrite dict_get_with_annotations_class, dict_get_with_annotations, Hanns.
  destruct (py_in_set _ _) as [ignored|]; [simpl|done].
  destruct (ignored || is_none _); [done|].
  destruct (py_eq_str _ _); [done|].
  destruct (py_lookup _ _) as [[cid|]|]; simpl; try done.
  by apply typed_for_each_malformed.
Qed.

(** A sample of class ["tree_pine"] whose one bbox has the integer
    [10**309] for [x] and the float [1.5] for [width]: the sum
    [x + w] raises [OverflowError]. *)
Lemma sample_to_boxes_raises_overflow :
  dict_get overflowing_sample "class" = PStr "tree_pine" ∧
  (0 < 640)%Z ∧ (0 < 480)%Z ∧
  Typed.sample_to_boxes overflowing_sample 640 480 = Raise OverflowError ∧
  ¬ ∃ boxes, Typed.sample_to_boxes overflowing_sample 640 480 = Ok boxes.
Proof.
  split; [reflexivity|]. split; [lia|]. split; [lia|].
  assert (Hrun : Typed.sample_to_boxes overflowing_sample 640 480
                 = Raise OverflowError) by (vm_compute; reflexivity).
  split; [exact Hrun|]. intros [boxes Hok]. congruence.
Qed.

(** [float_safe] from the values the annotation holds. *)
Lemma float_safe_intro (m : gmap string PyVal) :
  map_Forall (λ _ v, int_fits v = true) m →
  (∀ ctr, m !! "centerPx" = Some (PDict ctr) →
          map_Forall (λ _ v, int_fits v = true) ctr) →
  float_safe (PDict m).
Proof.
  intros Hm Hctr.
  assert (Hget : ∀ (d : gmap string PyVal) k n,
            map_Forall (λ _ v, int_fits v = true) d →
            dict_get d k = PInt n → Typed.fits_float n = true).
  { intros d k n Hd Hk. apply dict_get_inv in Hk; [|done].
    by apply (Hd k (PInt n)). }
  split.
  - intros k n. by apply Hget.
  - intros ctr k n Hc. apply Hget, Hctr. by apply dict_get_inv in Hc.
Qed.


Lemma map_Forall_list_to_map (P : PyVal → Prop) (l : list (string * PyVal)) :
  Forall (λ kv, P kv.2) l →
  map_Forall (λ _ v, P v) (list_to_map l : gmap string PyVal).
Proof.
  induction 1 as [|[k v] l Hv _ IH]; simpl.
  - apply map_Forall_empty.
  - by apply map_Forall_insert_2.
Qed.

Lemma float_safe_bbox (x y bw bh : PyVal) :
  int_fits x = true → int_fits y = true →
  int_fits bw = true → int_fits bh = true →
  float_safe (bbox_annotation x y bw bh).
Proof.
  intros Hx Hy Hbw Hbh. apply float_safe_intro.
  - apply map_Forall_list_to_map. by repeat constructor.
  - intros ctr. simpl. rewrite !lookup_insert_ne by done.
    by rewrite lookup_empty.
Qed.

Lemma float_safe_circle (cx cy r : PyVal) :
  int_fits cx = true → int_fits cy = true → int_fits r = true →
  float_safe (circle_annotation cx cy r).
Proof.
  intros Hcx Hcy Hr. apply float_safe_intro.
  - apply map_Forall_list_to_map. by repeat constructor.
  - intros ctr. simpl. rewrite lookup_insert_ne, lookup_insert_eq by done.
    intros [= <-].
    repeat (apply map_Forall_insert_2; [done|]). apply map_Forall_empty.
Qed.

Lemma float_safe_mixed_annotations : Forall float_safe mixed_annotations.
Proof.
  unfold mixed_annotations.
  apply Forall_cons_2; [by apply float_safe_bbox|].
  apply Forall_cons_2; [exact I|].
  apply Forall_cons_2; [by apply float_safe_circle|].
  apply Forall_cons_2; [by apply float_safe_bbox|].
  apply Forall_nil_2.
Qed.

Lemma sample_to_boxes_skips_malformed_witness :
  (∃ boxes, Typed.sample_to_boxes mixed_sample 640 480 = Ok boxes) ∧
  Typed.sample_to_boxes mixed_sample 640 480
  = Typed.sample_to_boxes
      (with_annotations mixed_sample
         ([bbox_annotation (PInt 10) (PInt 10) (PInt 100) (PInt 50)] ++
          [circle_annotation (PInt 50) (PInt 40) (PInt 20);
           bbox_annotation (PInt 5) (PInt 5) (PInt 1) (PInt 1)]))
      640 480.
Proof.
  destruct (sample_to_boxes_skips_malformed mixed_sample 640 480)
    as (Hruns & _ & Hskip).
  split.
  - apply Hruns; try reflexivity.
    intros anns [= <-]. apply float_safe_mixed_annotations.
  - apply (Hskip _ (PStr "junk")); [|reflexivity].
    apply malformed_not_mapping. intros m. discriminate.
Defined.

(** C6: for a sample of a registered class whose annotations are a
    list, whenever [sample_to_boxes] returns it returns one box for
    each annotation that passes validation and none for the others, in
    the order of the annotations, and the annotations decide that
    list; it does return when no integer of the annotations or of the
    image dimensions is beyond the range of a float. *)
Theorem sample_to_boxes_in_order (sample : gmap string PyVal) (w h : Z)
    (c : string) (cid : Z) (anns : list PyVal) :
  sample !! "class" = Some (PStr c) →
  CLASS_NAME_TO_ID !! c = Some cid →
  sample !! "annotations" = Some (PList anns) →
  (∀ boxes, Typed.sample_to_boxes sample w h = Ok boxes →
     boxes_of_valid cid w h anns boxes ∧
     ∀ boxes', boxes_of_valid cid w h anns boxes' → boxes' = boxes) ∧
  (Typed.fits_float w = true → Typed.fits_float h = true →
   Forall float_safe anns →
   ∃ boxes, Typed.sample_to_boxes sample w h = Ok boxes ∧
            boxes_of_valid cid w h anns boxes).
Proof.
  intros Hclass%dict_get_Some Hc Hanns%dict_get_Some.
  assert (Hexact : sample_to_boxes sample w h
                   = Ok (omap (emitted_box cid w h) anns))
    by (by rewrite (sample_to_boxes_registered _ _ _ _ _ Hclass Hc), Hanns).
  split.
  - intros boxes Hrun%typed_sample_to_boxes_Ok.
    rewrite Hexact in Hrun. injection Hrun as <-.
    split; [apply omap_boxes_of_valid | apply boxes_of_valid_unique].
  - intros Hw Hh Hsafe. exists (omap (emitted_box cid w h) anns).
    split; [|apply omap_boxes_of_valid].
    rewrite typed_sample_to_boxes_safe; [done..|].
    intros anns'. rewrite Hanns. by intros [= <-].
Qed.

Lemma sample_to_boxes_in_order_witness :
  ∃ boxes : list YoloBox,
    Typed.sample_to_boxes mixed_sample 640 480 = Ok boxes ∧
    length boxes = 2%nat ∧
    boxes_of_valid 3 640 480 mixed_annotations boxes.
Proof.
  destruct (sample_to_boxes_in_order mixed_sample
              640 480 "stop_sign" 3 mixed_annotations)
    as [_ Hruns]; try reflexivity.
  destruct Hruns as (boxes & Hrun & Hvalid);
    [reflexivity | reflexivity | apply float_safe_mixed_annotations |].
  exists boxes. split; [exact Hrun|]. split; [|exact Hvalid].
  vm_compute in Hrun. injection Hrun as <-. reflexivity.
Defined.

(** The sample of class ["tree_pine"] with the bbox of [x = 10**309]
    and [width = 1.5] followed by the bbox of scenario B: the second
    annotation passes validation, yet the code raises [OverflowError]
    at the first and returns no box. *)
Lemma sample_to_boxes_overflow_drops_sibling :
  overflowing_then_valid !! "class" = Some (PStr "tree_pine") ∧
  CLASS_NAME_TO_ID !! "tree_pine" = Some 1%Z ∧
  (∃ box, valid_annotation 1 640 480
            (bbox_annotation (PInt 10) (PInt 10) (PInt 100) (PInt 50)) box) ∧
  Typed.sample_to_boxes overflowing_then_valid 640 480 = Raise OverflowError ∧
  ¬ ∃ boxes, Typed.sample_to_boxes overflowing_then_valid 640 480 = Ok boxes.
Proof.
  split; [reflexivity|]. split; [reflexivity|]. split.
  { eexists. apply emitted_box_valid. reflexivity. }
  assert (Hrun : Typed.sample_to_boxes overflowing_then_valid 640 480
                 = Raise OverflowError) by (vm_compute; reflexivity).
  split; [exact Hrun|]. intros [boxes Hok]. congruence.
Qed.

(** * The square of a circle *)

Lemma typed_as_number_Some (v : PyVal) (q : Q) :
  as_number v = Some q →
  ∃ a, Typed.as_number v = Some a ∧ Typed.num_value a = q.
Proof.
  rewrite typed_as_number_value.
  destruct (Typed.as_number v) as [a|]; simpl; [|discriminate].
  intros [= <-]. by exists a.
Qed.

Lemma num_fits_between (a : Typed.num) (w : Z) :
  Typed.fits_float w = true →
  (0 <= Typed.num_value a <= inject_Z w)%Q → num_fits a = true.
Proof.
  intros Hw [H0 H1]. destruct a as [n|q]; [|done]. simpl in *.
  change 0%Q with (inject_Z 0) in H0. rewrite <- Zle_Qle in H0, H1.
  by apply (fits_float_between n w).
Qed.

(** A circle inside the frame never overflows: its centre and its
    radius lie between 0 and the dimensions. *)
Lemma typed_annotation_raw_circle_in_frame (m ctr : gmap string PyVal)
    (w h : Z) (cx cy r : Q) :
  dict_get m "kind" = PStr "circle" →
  dict_get m "centerPx" = PDict ctr →
  as_number (dict_get ctr "x") = Some cx →
  as_number (dict_get ctr "y") = Some cy →
  as_number (dict_get m "radiusPx") = Some r →
  (0 <= cx - r)%Q → (cx + r <= inject_Z w)%Q →
  (0 <= cy - r)%Q → (cy + r <= inject_Z h)%Q → (0 <= r)%Q →
  Typed.fits_float w = true → Typed.fits_float h = true →
  ∃ raw, Typed.annotation_raw (PDict m) w h = Ok raw.
Proof.
  intros Hkind Hctr Hcx Hcy Hr Hx0 Hx1 Hy0 Hy1 Hr0 Hw Hh.
  apply typed_as_number_Some in Hcx as (ax & Hax & Vx).
  apply typed_as_number_Some in Hcy as (ay & Hay & Vy).
  apply typed_as_number_Some in Hr as (ar & Har & Vr).
  assert (Fx : num_fits ax = true)
    by (apply (num_fits_between ax w Hw); rewrite Vx; lra).
  assert (Fy : num_fits ay = true)
    by (apply (num_fits_between ay h Hh); rewrite Vy; lra).
  assert (Fr : num_fits ar = true)
    by (apply (num_fits_between ar w Hw); rewrite Vr; lra).
  unfold Typed.annotation_raw. rewrite Hkind, Hctr, Har, Hax, Hay.
  cbn [py_eq_str]. rewrite bool_decide_true by done.
  destruct (typed_sub_fits ax ar Fx Fr) as [x0 ->].
  destruct (typed_sub_fits ay ar Fy Fr) as [y0 ->].
  destruct (typed_add_fits ax ar Fx Fr) as [x1 ->].
  destruct (typed_add_fits ay ar Fy Fr) as [y1 ->].
  cbn [mbind result_bind]. by apply typed_normalize_box_fits.
Qed.

(** C7, under exact arithmetic: a circle annotation with numeric centre
    and radius hands [normalize_box] the corners of its enclosing
    square, and the loop body appends the box of what [normalize_box]
    answers; when that square is inside the frame and more than a
    pixel wide, the loop body appends a box and [sample_to_boxes]
    returns it among the boxes of the other annotations: a box that is
    square in pixels, of side twice the radius, centred on the centre
    of the circle.  With dimensions in the range of a float no
    conversion overflows on the way. *)
Theorem circle_enclosing_square (sample m ctr : gmap string PyVal) (w h : Z)
    (c : string) (cid : Z) (before after : list PyVal) (cx cy r : Q) :
  dict_get sample "class" = PStr c →
  CLASS_NAME_TO_ID !! c = Some cid →
  dict_get sample "annotations" = PList (before ++ PDict m :: after) →
  dict_get m "kind" = PStr "circle" →
  dict_get m "centerPx" = PDict ctr →
  as_number (dict_get ctr "x") = Some cx →
  as_number (dict_get ctr "y") = Some cy →
  as_number (dict_get m "radiusPx") = Some r →
  (∀ boxes,
     loop_body cid w h boxes (PDict m)
     = match normalize_box (cx - r) (cy - r) (cx + r) (cy + r) w h with
       | None => Ok boxes
       | Some raw => Ok (boxes ++ [box_of_raw cid raw w h])
       end) ∧
  ((0 <= cx - r)%Q → (cx + r <= inject_Z w)%Q →
   (0 <= cy - r)%Q → (cy + r <= inject_Z h)%Q → (1 < 2 * r)%Q →
   ∃ box : YoloBox,
     (∀ boxes, loop_body cid w h boxes (PDict m) = Ok (boxes ++ [box])) ∧
     sample_to_boxes sample w h
     = Ok (omap (emitted_box cid w h) before ++
           box :: omap (emitted_box cid w h) after) ∧
     class_id box = cid ∧
     (width box * inject_Z w == 2 * r)%Q ∧
     (height box * inject_Z h == 2 * r)%Q ∧
     (width box * inject_Z w == height box * inject_Z h)%Q ∧
     (x_center box * inject_Z w == cx)%Q ∧
     (y_center box * inject_Z h == cy)%Q ∧
     (Typed.fits_float w = true → Typed.fits_float h = true →
      ∀ boxes, Typed.loop_body cid w h boxes (PDict m) = Ok (boxes ++ [box]))).
Proof.
  intros Hclass Hc Hanns Hkind Hctr Hcx Hcy Hr.
  pose proof (annotation_raw_circle m ctr w h cx cy r Hkind Hctr Hr Hcx Hcy)
    as Hraw.
  split.
  { intros boxes. rewrite loop_body_emitted. unfold emitted_box.
    rewrite Hraw. destruct (normalize_box _ _ _ _ _ _); simpl;
      [done | by rewrite app_nil_r]. }
  intros Hx0 Hx1 Hy0 Hy1 Hside.
  destruct (normalize_box_in_frame (cx - r) (cy - r) (cx + r) (cy + r) w h)
    as (xc & yc & bw & bh & Hn & Exc & Eyc & Ebw & Ebh); try done; try lra.
  destruct (normalize_box_Some_dims _ _ _ _ _ _ _ Hn) as [Hw Hh].
  destruct (box_of_raw_rescaled cid xc yc bw bh w h Hw Hh)
    as (Hid & Rxc & Ryc & Rbw & Rbh).
  assert (Hbox : emitted_box cid w h (PDict m)
                 = Some (box_of_raw cid (xc, yc, bw, bh) w h)).
  { unfold emitted_box. by rewrite Hraw, Hn. }
  assert (Hloop : ∀ boxes, loop_body cid w h boxes (PDict m)
                    = Ok (boxes ++ [box_of_raw cid (xc, yc, bw, bh) w h])).
  { intros boxes. by rewrite loop_body_emitted, Hbox. }
  exists (box_of_raw cid (xc, yc, bw, bh) w h).
  split; [done|]. split.
  { rewrite (sample_to_boxes_registered _ _ _ _ _ Hclass Hc), Hanns.
    rewrite omap_app. simpl. by rewrite Hbox. }
  split; [done|].
  split; [rewrite Rbw, Ebw; lra|]. split; [rewrite Rbh, Ebh; lra|].
  split; [rewrite Rbw, Rbh, Ebw, Ebh; lra|].
  split; [rewrite Rxc, Exc; field|]. split; [rewrite Ryc, Eyc; field|].
  intros Fw Fh boxes.
  destruct (typed_annotation_raw_circle_in_frame m ctr w h cx cy r)
    as [raw Htyped]; try done; try lra.
  by rewrite (typed_loop_body_of_raw cid w h boxes _ raw Htyped Fw Fh).
Qed.

Lemma circle_enclosing_square_witness :
  ∃ box : YoloBox,
    sample_to_boxes mixed_sample 640 480
    = Ok (omap (emitted_box 3 640 480)
            [bbox_annotation (PInt 10) (PInt 10) (PInt 100) (PInt 50);
             PStr "junk"] ++
          box :: omap (emitted_box 3 640 480)
            [bbox_annotation (PInt 5) (PInt 5) (PInt 1) (PInt 1)]) ∧
    (width box * 640 == 2 * 20)%Q ∧ (height box * 480 == 2 * 20)%Q ∧
    Typed.loop_body 3 640 480 [] (circle_annotation (PInt 50) (PInt 40) (PInt 20))
    = Ok [box].
Proof.
  destruct (circle_enclosing_square mixed_sample
              (list_to_map
                 [("kind", PStr "circle");
                  ("centerPx", PDict (list_to_map [("x", PInt 50); ("y", PInt 40)]));
                  ("radiusPx", PInt 20)])
              (list_to_map [("x", PInt 50); ("y", PInt 40)])
              640 480 "stop_sign" 3
              [bbox_annotation (PInt 10) (PInt 10) (PInt 100) (PInt 50);
               PStr "junk"]
              [bbox_annotation (PInt 5) (PInt 5) (PInt 1) (PInt 1)]
              50 40 20)
    as [_ Hsquare]; try reflexivity.
  destruct Hsquare as (box & _ & Hrun & _ & Hbw & Hbh & _ & _ & _ & Htyped);
    try (unfold Qlt, Qle; simpl; lia).
  exists box. split; [exact Hrun|]. split; [exact Hbw|]. split; [exact Hbh|].
  apply (Htyped eq_refl eq_refl []).
Defined.

(** On binary64 floats the circle of centre (50.1, 40.2) and radius
    20.3, inside the 640 x 480 frame, gives a box that is not square:
    the width is 40.60000000000001 and the height 40.599999999999994,
    neither of them twice the radius. *)
Lemma circle_not_square_in_binary64 :
  PrimFloat.leb 0 (PrimFloat.sub 50.1 20.3) = true ∧
  PrimFloat.leb (PrimFloat.add 50.1 20.3) 640 = true ∧
  PrimFloat.leb 0 (PrimFloat.sub 40.2 20.3) = true ∧
  PrimFloat.leb (PrimFloat.add 40.2 20.3) 480 = true ∧
  PrimFloat.ltb 1 (PrimFloat.mul 2 20.3) = true ∧
  ∃ xc yc bw bh : float,
    Binary64.circle_raw 50.1 40.2 20.3 640 480 = Some (xc, yc, bw, bh) ∧
    PrimFloat.ltb bh bw = true ∧
    PrimFloat.eqb bw (PrimFloat.mul 2 20.3) = false ∧
    PrimFloat.eqb bh (PrimFloat.mul 2 20.3) = false.
Proof.
  do 5 (split; [vm_compute; reflexivity|]).
  do 4 eexists. split; [vm_compute; reflexivity|].
  split; [vm_compute; reflexivity|].
  split; vm_compute; reflexivity.
Qed.

(** * Annotations that give no box, and those that cover the frame *)

(** X6: Under exact arithmetic, an annotation at most one pixel wide or
    high before any clamping never gives a box, whatever the frame and
    whatever its other fields: a bbox with [width <= 1] or
    [height <= 1] (zero and negative sizes among them) and a circle
    with [radiusPx <= 1/2].  The integers of the annotation and the
    image dimensions are in the range of a float, so that no
    conversion overflows. *)
Theorem small_annotation_skipped (m : gmap string PyVal) (cid w h : Z)
    (boxes : list YoloBox) :
  (dict_get m "kind" = PStr "bbox" ∧
   ∃ bw bh : Q, as_number (dict_get m "width") = Some bw ∧
                as_number (dict_get m "height") = Some bh ∧
                ((bw <= 1)%Q ∨ (bh <= 1)%Q)) ∨
  (dict_get m "kind" = PStr "circle" ∧
   ∃ r : Q, as_number (dict_get m "radiusPx") = Some r ∧ (r <= 1 # 2)%Q) →
  float_safe (PDict m) →
  Typed.fits_float w = true → Typed.fits_float h = true →
  Typed.loop_body cid w h boxes (PDict m) = Ok boxes.
Proof.
  intros Hsmall Hsafe Hw Hh.
  rewrite (typed_loop_body_safe cid w h boxes _ Hsafe Hw Hh).
  by apply small_annotation_skipped_exact.
Qed.

Lemma small_annotation_skipped_witness :
  Typed.loop_body 2 640 480 []
    (bbox_annotation (PInt 50) (PInt 50) (PInt 1) (PInt 80)) = Ok [] ∧
  Typed.loop_body 2 640 480 []
    (circle_annotation (PInt 50) (PInt 50) (PFloat (1 # 2))) = Ok [].
Proof.
  split; apply small_annotation_skipped; try reflexivity.
  - left. split; [reflexivity|]. exists 1%Q, 80%Q.
    split; [reflexivity|]. split; [reflexivity|].
    left. unfold Qle. simpl. lia.
  - by apply float_safe_bbox.
  - right. split; [reflexivity|]. exists (1 # 2)%Q.
    split; [reflexivity|]. unfold Qle. simpl. lia.
  - by apply float_safe_circle.
Defined.





(** * What [sample_to_boxes] raises *)

Lemma typed_sample_to_boxes_unhashable (sample : gmap string PyVal) (w h : Z) :
  hashable (dict_get sample "class") = false →
  Typed.sample_to_boxes sample w h = Raise TypeError.
Proof.
  unfold Typed.sample_to_boxes.
  by destruct (dict_get sample "class").
Qed.

Lemma typed_sample_to_boxes_registered (sample : gmap string PyVal) (w h : Z)
    (c : string) (cid : Z) :
  dict_get sample "class" = PStr c →
  CLASS_NAME_TO_ID !! c = Some cid →
  Typed.sample_to_boxes sample w h =
    match dict_get sample "annotations" with
    | PList anns => for_each (Typed.loop_body cid w h) anns []
    | _ => Ok []
    end.
Proof.
  intros Hclass Hc. unfold Typed.sample_to_boxes. rewrite Hclass. simpl.
  rewrite bool_decide_eq_false_2 by eauto using registered_not_ignored.
  rewrite bool_decide_eq_false_2 by eauto using registered_not_negative.
  simpl. rewrite Hc.
  by destruct (dict_get sample "annotations").
Qed.

Lemma typed_sample_to_boxes_Raise (sample : gmap string PyVal) (w h : Z)
    (e : exn) :
  Typed.sample_to_boxes sample w h = Raise e →
  (hashable (dict_get sample "class") = false ∧ e = TypeError) ∨
  (e = OverflowError ∧
   ∃ (c : string) (cid : Z) (anns : list PyVal),
     dict_get sample "class" = PStr c ∧
     CLASS_NAME_TO_ID !! c = Some cid ∧
     dict_get sample "annotations" = PList anns ∧
     for_each (Typed.loop_body cid w h) anns [] = Raise OverflowError).
Proof.
  intros Hrun.
  destruct (hashable (dict_get sample "class")) eqn:Hhash.
  - right.
    destruct (dict_get sample "class") as [| | | |c| |] eqn:Hclass;
      try discriminate;
      try (unfold Typed.sample_to_boxes in Hrun; rewrite Hclass in Hrun;
           simpl in Hrun; discriminate).
    destruct (CLASS_NAME_TO_ID !! c) as [cid|] eqn:Hc.
    + rewrite (typed_sample_to_boxes_registered _ _ _ _ _ Hclass Hc) in Hrun.
      destruct (dict_get sample "annotations") as [| | | | |anns|] eqn:Hanns;
        try discriminate.
      destruct (typed_for_each_Raise _ _ _ _ _ _ Hrun) as [-> _].
      split; [done|]. by exists c, cid, anns.
    + unfold Typed.sample_to_boxes in Hrun. rewrite Hclass in Hrun.
      simpl in Hrun. rewrite Hc in Hrun.
      by repeat case_match.
  - left. rewrite (typed_sample_to_boxes_unhashable _ _ _ Hhash) in Hrun.
    by injection Hrun as <-.
Qed.

(** X9: [sample_to_boxes] raises [TypeError] exactly when the class field
    holds a list or a dictionary, and otherwise nothing but
    [OverflowError], which takes a registered class, a list of
    annotations and among them an annotation with an integer beyond
    the range of a float, or an image dimension beyond it.  It never
    divides by zero, not even for an image of width or height 0. *)
Theorem sample_to_boxes_raises (sample : gmap string PyVal) (w h : Z) :
  (Typed.sample_to_boxes sample w h = Raise TypeError ↔
   hashable (dict_get sample "class") = false) ∧
  (∀ e, Typed.sample_to_boxes sample w h = Raise e →
        e = TypeError ∨ e = OverflowError) ∧
  (Typed.sample_to_boxes sample w h = Raise OverflowError →
   ∃ (c : string) (cid : Z) (anns : list PyVal) (a : PyVal),
     dict_get sample "class" = PStr c ∧
     CLASS_NAME_TO_ID !! c = Some cid ∧
     dict_get sample "annotations" = PList anns ∧
     a ∈ anns ∧
     ¬ (float_safe a ∧
        Typed.fits_float w = true ∧ Typed.fits_float h = true)).
Proof.
  split; [|split].
  - split; [|apply typed_sample_to_boxes_unhashable].
    intros [[Hhash _]|[[=] _]]%typed_sample_to_boxes_Raise. done.
  - intros e [[_ ->]|[-> _]]%typed_sample_to_boxes_Raise; auto.
  - intros [[_ [=]]|[_ (c & cid & anns & Hclass & Hc & Hanns & Hloop)]]
      %typed_sample_to_boxes_Raise.
    destruct (typed_for_each_Raise _ _ _ _ _ _ Hloop)
      as (_ & a & boxes' & Hin & Ha).
    exists c, cid, anns, a. repeat (split; [done|]).
    intros (Hsafe & Hw & Hh).
    rewrite (typed_loop_body_safe cid w h boxes' a Hsafe Hw Hh) in Ha.
    by rewrite loop_body_emitted in Ha.
Qed.

Lemma sample_to_boxes_raises_witness :
  Typed.sample_to_boxes
    (make_sample (PList [PStr "tree_pine"]) (PList [])) 640 480
  = Raise TypeError ∧
  ∃ a, a ∈ [overflowing_bbox] ∧ ¬ float_safe a.
Proof.
  split.
  - destruct (sample_to_boxes_raises
                (make_sample (PList [PStr "tree_pine"]) (PList [])) 640 480)
      as [[_ Hraise] _].
    apply Hraise. reflexivity.
  - destruct (sample_to_boxes_raises overflowing_sample 640 480)
      as (_ & _ & Hcause).
    destruct Hcause as (c & cid & anns & a & _ & _ & Hanns & Hin & Hnot);
      [vm_compute; reflexivity|].
    injection Hanns as <-. exists a. split; [exact Hin|].
    intros Hsafe. apply Hnot. split; [exact Hsafe|]. split; reflexivity.
Defined.

(** X10: On an image at most one pixel wide or high (zero and negative
    dimensions among them) a sample gives no boxes, whatever its
    annotations: whenever [sample_to_boxes] returns, it returns the
    empty list, and it does return when the class is hashable and the
    integers of the annotations and the image dimensions are in the
    range of a float. *)
Theorem sample_to_boxes_tiny_frame (sample : gmap string PyVal) (w h : Z) :
  (w <= 1)%Z ∨ (h <= 1)%Z →
  (∀ boxes, Typed.sample_to_boxes sample w h = Ok boxes → boxes = []) ∧
  (hashable (dict_get sample "class") = true →
   Typed.fits_float w = true → Typed.fits_float h = true →
   (∀ anns, dict_get sample "annotations" = PList anns →
            Forall float_safe anns) →
   Typed.sample_to_boxes sample w h = Ok []).
Proof.
  intros Htiny. split.
  - intros boxes Hrun%typed_sample_to_boxes_Ok.
    destruct (hashable (dict_get sample "class")) eqn:Hhash.
    + rewrite (sample_to_boxes_tiny_frame_exact sample w h Hhash Htiny) in Hrun.
      by injection Hrun as <-.
    + by rewrite (sample_to_boxes_unhashable sample w h Hhash) in Hrun.
  - intros Hhash Hw Hh Hsafe.
    rewrite (typed_sample_to_boxes_safe sample w h Hw Hh Hsafe).
    by apply sample_to_boxes_tiny_frame_exact.
Qed.

Lemma sample_to_boxes_tiny_frame_witness :
  Typed.sample_to_boxes scenario_B 0 640 = Ok [] ∧
  Typed.sample_to_boxes mixed_sample 640 1 = Ok [].
Proof.
  split.
  - destruct (sample_to_boxes_tiny_frame scenario_B 0 640) as [Hempty _];
      [left; lia|].
    assert (Hrun : ∃ boxes, Typed.sample_to_boxes scenario_B 0 640 = Ok boxes)
      by (eexists; vm_compute; reflexivity).
    destruct Hrun as [boxes Hrun]. by rewrite Hrun, (Hempty boxes Hrun).
  - destruct (sample_to_boxes_tiny_frame mixed_sample 640 1) as [_ Hruns];
      [right; lia|].
    apply Hruns; try reflexivity.
    intros anns [= <-]. apply float_safe_mixed_annotations.
Defined.

(** * Exceptions of one pass of [build_yolo_labels] *)



